(** * PyXtal GULP interface: shallow embedding of [pyxtal/interface/gulp.py]

    The development follows the source file top to bottom:

    - the part of the Python runtime the module relies on (strings,
      [str.split], [str.find], [re.match] for the three energy patterns,
      [float()] and [int()] literals, format specifications, exceptions);
    - the table [at_types];
    - class [GULP] ([write], [read], [run]) and class [GULP_OC]
      ([write], [read], [run]);
    - the drivers [single_optimize] and [optimize];
    - the properties of the specification, stated on these definitions.

    Characters are code points below 256, a text is a [string]. *)

From Stdlib Require Import ZArith NArith String Ascii List Bool Lia.
From Stdlib Require Import Permutation DecimalString Floats.
Import ListNotations.

Local Open Scope list_scope.
Local Open Scope string_scope.

(* ================================================================== *)
(** * Exceptions and results *)

(** The exception classes that the modelled code can raise. *)
Inductive exn : Type :=
| IndexError
| ValueError
| ZeroDivisionError
| AttributeError
| TypeError (msg : string)
| KeyError (msg : string)
| UnboundLocalError (name : string)
| FileNotFoundError
| NotImplementedError.

(** A computation either returns or raises. *)
Inductive result (A : Type) : Type :=
| Ok (a : A)
| Raise (e : exn).
Arguments Ok {A} a.
Arguments Raise {A} e.

Definition rbind {A B} (r : result A) (k : A -> result B) : result B :=
  match r with
  | Ok a => k a
  | Raise e => Raise e
  end.

Definition raises {A} (r : result A) : bool :=
  match r with Ok _ => false | Raise _ => true end.

Declare Scope result_scope.
Delimit Scope result_scope with result.
Notation "x <- r ;; k" := (rbind r (fun x => k))
  (at level 61, r at next level, right associativity) : result_scope.
Notation "' p <- r ;; k" := (rbind r (fun x => let p := x in k))
  (at level 61, p pattern, r at next level, right associativity) : result_scope.

(* ================================================================== *)
(** * Python strings and lists *)

Module Py.

Definition code (c : ascii) : N := N_of_ascii c.

(** [str.isspace] on one character (code points below 256). *)
Definition isspace (c : ascii) : bool :=
  let n := code c in
  ((9 <=? n) && (n <=? 13) || (28 <=? n) && (n <=? 32)
   || (n =? 133) || (n =? 160))%N.

Definition flush (cur : string) : list string :=
  match cur with
  | "" => []
  | _ => [cur]
  end.

Fixpoint split_from (cur s : string) : list string :=
  match s with
  | "" => flush cur
  | String c r =>
      if isspace c then (flush cur ++ split_from "" r)%list
      else split_from (cur ++ String c "") r
  end.

(** [s.split()]: the maximal runs of non-whitespace characters. *)
Definition split (s : string) : list string := split_from "" s.

Fixpoint find_from (sub s : string) (i : Z) : Z :=
  if prefix sub s then i
  else match s with
       | "" => (-1)%Z
       | String _ r => find_from sub r (i + 1)%Z
       end.

(** [s.find(sub)]: index of the first occurrence, or -1. *)
Definition find (s sub : string) : Z := find_from sub s 0%Z.

(** [sub in s], written [s.find(sub) != -1] in the source. *)
Definition contains (s sub : string) : bool := negb (find s sub =? -1)%Z.

Fixpoint drop (n : nat) (s : string) : string :=
  match n, s with
  | O, _ => s
  | S n', String _ r => drop n' r
  | S _, "" => ""
  end.

Fixpoint take (n : nat) (s : string) : string :=
  match n, s with
  | O, _ => ""
  | S n', String c r => String c (take n' r)
  | S _, "" => ""
  end.

(** [s[a:b]] for [0 <= a] and [0 <= b]. *)
Definition slice (s : string) (a b : nat) : string := take (b - a) (drop a s).

(** [l[k]] for a non-negative index. *)
Definition getitem {A} (l : list A) (k : nat) : result A :=
  match nth_error l k with
  | Some a => Ok a
  | None => Raise IndexError
  end.

(** [l[-1]]. *)
Definition getlast {A} (l : list A) : result A :=
  match rev l with
  | a :: _ => Ok a
  | [] => Raise IndexError
  end.

(** [l[a:b]] for [0 <= a <= b]; slices never raise. *)
Definition lslice {A} (l : list A) (a b : nat) : list A :=
  firstn (b - a) (skipn a l).

Definition newline : ascii := ascii_of_N 10.

Fixpoint readlines_from (cur s : string) : list string :=
  match s with
  | "" => flush cur
  | String c r =>
      if (code c =? 10)%N then (cur ++ String c "") :: readlines_from "" r
      else readlines_from (cur ++ String c "") r
  end.

(** [f.readlines()] on the text of the file (newlines already translated
    by the text layer): every line keeps its terminator. *)
Definition readlines (text : string) : list string := readlines_from "" text.

Fixpoint spaces (n : nat) : string :=
  match n with
  | O => ""
  | S n' => String " " (spaces n')
  end.

(** Format specification [{:<n>s}]: left-aligned in a field of width [n]. *)
Definition ljust (n : nat) (s : string) : string :=
  s ++ spaces (n - String.length s).

(** Right alignment in a field of width [n], as for numbers. *)
Definition rjust (n : nat) (s : string) : string :=
  spaces (n - String.length s) ++ s.

(** Format specification [{:d}]. *)
Definition format_d (z : Z) : string := NilZero.string_of_int (Z.to_int z).

(** ** The energy patterns of [re.match] *)

(** The three patterns are sequences of literals, [\s*] and one group
    [(\S+)]. *)
Inductive re_item : Type :=
| RLit (s : string)
| RSpaces
| RToken.

Fixpoint span (f : ascii -> bool) (s : string) : nat :=
  match s with
  | String c r => if f c then S (span f r) else O
  | "" => O
  end.

(** Greedy quantifier with backtracking: lengths from [k] down to [lo]. *)
Fixpoint backtrack {A} (lo k : nat) (attempt : nat -> option A) : option A :=
  if (k <? lo)%nat then None
  else match attempt k with
       | Some a => Some a
       | None => match k with
                 | O => None
                 | S k' => backtrack lo k' attempt
                 end
       end.

Fixpoint re_items (p : list re_item) (s grp : string) : option string :=
  match p with
  | [] => Some grp
  | RLit l :: p' =>
      if prefix l s then re_items p' (drop (String.length l) s) grp else None
  | RSpaces :: p' =>
      backtrack 0 (span isspace s) (fun k => re_items p' (drop k s) grp)
  | RToken :: p' =>
      backtrack 1 (span (fun c => negb (isspace c)) s)
                (fun k => re_items p' (drop k s) (take k s))
  end.

(** [re.match(p, line)] anchored at the start; the result is [m.group(1)]
    when there is a match. *)
Definition re_match (p : list re_item) (line : string) : option string :=
  re_items p line "".

(** [\s*<name>\s*=\s*(\S+)\s*eV] *)
Definition energy_pattern (name : string) : list re_item :=
  [RSpaces; RLit name; RSpaces; RLit "="; RSpaces; RToken; RSpaces; RLit "eV"].

(** ** Numeric literals *)

Definition digit_val (c : ascii) : option N :=
  let n := code c in
  if ((48 <=? n) && (n <=? 57))%N then Some (n - 48)%N else None.

(** The rest of a [digitpart]: [(["_"] digit)*]; counts the digits read. *)
Fixpoint digits_tail (acc : N) (cnt : nat) (s : string) : N * nat * string :=
  match s with
  | String c r =>
      match digit_val c with
      | Some d => digits_tail (acc * 10 + d)%N (S cnt) r
      | None =>
          if (code c =? 95)%N then
            match r with
            | String c2 r2 =>
                match digit_val c2 with
                | Some d => digits_tail (acc * 10 + d)%N (S cnt) r2
                | None => (acc, cnt, s)
                end
            | "" => (acc, cnt, s)
            end
          else (acc, cnt, s)
      end
  | "" => (acc, cnt, s)
  end.

(** [digitpart ::= digit (["_"] digit)*], continuing the value [acc]. *)
Definition digitpart (acc : N) (s : string) : option (N * nat * string) :=
  match s with
  | String c r =>
      match digit_val c with
      | Some d => Some (digits_tail (acc * 10 + d)%N 1 r)
      | None => None
      end
  | "" => None
  end.

Fixpoint lstrip (s : string) : string :=
  match s with
  | String c r => if isspace c then lstrip r else s
  | "" => ""
  end.

Fixpoint rstrip (s : string) : string :=
  match s with
  | String c r =>
      match rstrip r with
      | "" => if isspace c then "" else String c ""
      | r' => String c r'
      end
  | "" => ""
  end.

Definition strip (s : string) : string := rstrip (lstrip s).

(** An optional sign; [true] is minus. *)
Definition sign (s : string) : bool * string :=
  match s with
  | String c r =>
      if (code c =? 45)%N then (true, r)
      else if (code c =? 43)%N then (false, r)
      else (false, s)
  | "" => (false, s)
  end.

Definition lower (c : ascii) : ascii :=
  let n := code c in
  if ((65 <=? n) && (n <=? 90))%N then ascii_of_N (n + 32) else c.

Fixpoint lowercase (s : string) : string :=
  match s with
  | String c r => String (lower c) (lowercase r)
  | "" => ""
  end.

(** What [float(s)] reads before rounding: a decimal [mant * 10^exp10],
    an infinity or a NaN. *)
Inductive float_literal : Type :=
| LitNan
| LitInf (neg : bool)
| LitDec (neg : bool) (mant : N) (exp10 : Z).

(** [exponent ::= ("e" | "E") ["+" | "-"] digitpart], or nothing. *)
Definition exponent (s : string) : option (Z * string) :=
  match s with
  | String c r =>
      if (code (lower c) =? 101)%N then
        let '(neg, r1) := sign r in
        match digitpart 0 r1 with
        | Some (e, _, rest) =>
            Some ((if neg then - Z.of_N e else Z.of_N e)%Z, rest)
        | None => None
        end
      else Some (0%Z, s)
  | "" => Some (0%Z, s)
  end.

(** [floatnumber]: [digitpart ["." [digitpart]] [exponent]] or
    ["." digitpart [exponent]], up to the end of the string. *)
Definition decimal (neg : bool) (s : string) : option float_literal :=
  let '(m, has_int, r) :=
    match digitpart 0 s with
    | Some (m, _, r) => (m, true, r)
    | None => (0%N, false, s)
    end in
  let after_point :=
    match r with
    | String c r1 =>
        if (code c =? 46)%N then
          match digitpart m r1 with
          | Some (m', nfrac, r2) => Some (m', nfrac, r2)
          | None => if has_int then Some (m, O, r1) else None
          end
        else if has_int then Some (m, O, r) else None
    | "" => if has_int then Some (m, O, r) else None
    end in
  match after_point with
  | Some (m', nfrac, r2) =>
      match exponent r2 with
      | Some (e, "") => Some (LitDec neg m' (e - Z.of_nat nfrac)%Z)
      | _ => None
      end
  | None => None
  end.

(** The string argument of [float()]: surrounding whitespace is dropped,
    then a sign and [inf], [infinity], [nan] (any case) or a decimal. *)
Definition float_literal_of (s : string) : result float_literal :=
  let '(neg, body) := sign (strip s) in
  let word := lowercase body in
  if (word =? "inf") || (word =? "infinity") then Ok (LitInf neg)
  else if (word =? "nan") then Ok LitNan
  else match decimal neg body with
       | Some l => Ok l
       | None => Raise ValueError
       end.

(** [int(s)] for a string: whitespace, sign, one [digitpart]. *)
Definition int (s : string) : result Z :=
  let '(neg, body) := sign (strip s) in
  match digitpart 0 body with
  | Some (n, _, "") => Ok (if neg then - Z.of_N n else Z.of_N n)%Z
  | _ => Raise ValueError
  end.

End Py.

(* ================================================================== *)
(** * State and exceptions

    Methods mutate [self] (and a writer appends to its file) before they
    raise: what was done before the exception stays done.  A computation
    therefore returns its final state together with its result. *)

Definition SE (S A : Type) : Type := S -> result A * S.

Definition ret {S A} (a : A) : SE S A := fun s => (Ok a, s).

Definition bind {S A B} (m : SE S A) (k : A -> SE S B) : SE S B :=
  fun s =>
    match m s with
    | (Ok a, s') => k a s'
    | (Raise e, s') => (Raise e, s')
    end.

Definition raise {S A} (e : exn) : SE S A := fun s => (Raise e, s).

(** A pure computation that may raise. *)
Definition lift {S A} (r : result A) : SE S A := fun s => (r, s).

Definition get {S} : SE S S := fun s => (Ok s, s).

Definition modify {S} (f : S -> S) : SE S unit := fun s => (Ok tt, f s).

Declare Scope se_scope.
Delimit Scope se_scope with se.
Notation "x <- m ;; k" := (bind m (fun x => k))
  (at level 61, m at next level, right associativity) : se_scope.
Notation "m ;; k" := (bind m (fun _ => k))
  (at level 61, right associativity) : se_scope.

(** [for x in l: body x] *)
Fixpoint for_each {S A} (l : list A) (body : A -> SE S unit) : SE S unit :=
  match l with
  | [] => ret tt
  | x :: l' => bind (body x) (fun _ => for_each l' body)
  end.

(** [[f(x) for x in l]], left to right, stopping at the first exception. *)
Fixpoint map_result {A B} (f : A -> result B) (l : list A) : result (list B) :=
  match l with
  | [] => Ok []
  | x :: l' =>
      (y <- f x ;; ys <- map_result f l' ;; Ok (y :: ys))%result
  end.

(* ================================================================== *)
(** * The runtime outside [gulp.py]

    Floating-point numbers, [numpy], [ase.units] and the iteration order
    of [set] belong to the interpreter and its libraries.  The functions
    below are written over this interface; [binary64] further down is
    its IEEE 754 instance. *)

Class Runtime : Type := {
  pyfloat : Type;
  (** rounding of a literal read by [float(s)] *)
  of_literal : Py.float_literal -> pyfloat;
  (** [float(n)] for an integer, also the implicit conversion in [x / n] *)
  of_int : Z -> pyfloat;
  fneg : pyfloat -> pyfloat;
  fabs : pyfloat -> pyfloat;
  fadd : pyfloat -> pyfloat -> pyfloat;
  fmul : pyfloat -> pyfloat -> pyfloat;
  (** quotient for a divisor that is not zero *)
  fdiv : pyfloat -> pyfloat -> pyfloat;
  flt : pyfloat -> pyfloat -> bool;
  is_zero : pyfloat -> bool;
  (** [np.isnan] *)
  isnan : pyfloat -> bool;
  (** [format(x, ".<p>f")] *)
  format_f : nat -> pyfloat -> string;
  (** [str(x)] *)
  float_str : pyfloat -> string;
  (** [np.degrees] *)
  np_degrees : pyfloat -> pyfloat;
  (** [np.array] on a list of rows *)
  np_array : list (list pyfloat) -> result (list (list pyfloat));
  (** [ase.units.eV] and [ase.units.Ang] *)
  eV : pyfloat;
  Ang : pyfloat;
  (** [list(set(l))] for strings: the order is the interpreter's *)
  set_list : list string -> list string
}.

(** What Python promises of [list(set(l))]: the elements of [l], each
    once. *)
Definition set_order_ok (f : list string -> list string) : Prop :=
  forall l, NoDup (f l) /\ (forall x, In x (f l) <-> In x l).

Section Numbers.
Context {RT : Runtime}.

(** [float(s)] *)
Definition float_ (s : string) : result pyfloat :=
  (l <- Py.float_literal_of s ;; Ok (of_literal l))%result.

(** [x / y] *)
Definition truediv (x y : pyfloat) : result pyfloat :=
  if is_zero y then Raise ZeroDivisionError else Ok (fdiv x y).

(** Format specification [{:<w>.<p>f}] *)
Definition fmt_f (w p : nat) (x : pyfloat) : string :=
  Py.rjust w (format_f p x).

Definition matrix : Type := list (list pyfloat).

(** The six cell parameters [a, b, c, alpha, beta, gamma]. *)
Definition para : Type :=
  (pyfloat * pyfloat * pyfloat * pyfloat * pyfloat * pyfloat)%type.

End Numbers.

(** Classes of PyXtal that [gulp.py] imports: [pyxtal.lattice.Lattice] and
    the atomic sites of a [pyxtal] structure. *)
Class PyxtalLib {RT : Runtime} : Type := {
  Lattice : Type;
  (** [Lattice.from_matrix(matrix)] and
      [Lattice.from_matrix(matrix, ltype=...)] *)
  Lattice_from_matrix : matrix -> option string -> result Lattice;
  (** [Lattice.from_para(a, b, c, alpha, beta, gamma, ltype)] *)
  Lattice_from_para : para -> string -> result Lattice;
  (** [lattice.get_para(degree=True)] *)
  get_para : Lattice -> para;
  (** the attributes [a, b, c, alpha, beta, gamma] (angles in radians) *)
  lat_para : Lattice -> para;
  (** the attribute [matrix] *)
  lat_matrix : Lattice -> matrix;
  (** the attribute [ltype] and its assignment *)
  lat_ltype : Lattice -> string;
  set_ltype : Lattice -> string -> Lattice;
  (** [lattice.set_matrix(m)] *)
  set_matrix : Lattice -> matrix -> Lattice;
  (** an element of [pyxtal.atom_sites] *)
  atom_site : Type;
  site_specie : atom_site -> string;
  site_position : atom_site -> list pyfloat;
  (** [site.update(XYZ)] *)
  atom_site_update : atom_site -> list pyfloat -> result atom_site
}.

(* ================================================================== *)
(** * The table [at_types] *)

Definition at_types : list (string * string) :=
  [ ("C_c", "C1"); ("C_cs", "C2"); ("C_c1", "C3"); ("C_c2", "C4");
    ("C_c3", "C5"); ("C_ca", "C6"); ("C_cp", "C7"); ("C_cq", "C8");
    ("C_cc", "C9"); ("C_cd", "C10"); ("C_ce", "C11"); ("C_cf", "C12");
    ("C_cg", "C13"); ("C_ch", "C14"); ("C_cx", "C15"); ("C_cy", "C14");
    ("C_cu", "C16"); ("C_cv", "C17"); ("C_cz", "C18");
    ("H_h1", "H1"); ("H_h2", "H2"); ("H_h3", "H3"); ("H_h4", "H4");
    ("H_h5", "H5"); ("H_ha", "H6"); ("H_hc", "H7"); ("H_hn", "H8");
    ("H_ho", "H9"); ("H_hp", "H10"); ("H_hs", "H11"); ("H_hw", "H12");
    ("H_hx", "H13");
    ("F", "F"); ("Cl", "Cl"); ("Br", "Br"); ("I", "I");
    ("N_n", "N1"); ("N_n1", "N2"); ("N_n2", "N3"); ("N_n3", "N4");
    ("N_n4", "N5"); ("N_na", "N6"); ("N_nb", "N7"); ("N_nc", "N8");
    ("N_nd", "N9"); ("N_ne", "N10"); ("N_nf", "N11"); ("N_nh", "N12");
    ("N_no", "N13"); ("N_ns", "N14"); ("N_nt", "N15"); ("N_nx", "N16");
    ("N_ny", "N17"); ("N_nz", "N18"); ("N_n+", "N19"); ("N_nu", "N20");
    ("N_nv", "N21"); ("N_n7", "N22"); ("N_n8", "N23"); ("N_n9", "N24");
    ("O_o", "O1"); ("O_oh", "O2"); ("O_os", "O3"); ("O_ow", "O4");
    ("P_p2", "P1"); ("P_p3", "P2"); ("P_p4", "P3"); ("P_p5", "P4");
    ("P_pb", "P5"); ("P_pc", "P6"); ("P_pd", "P7"); ("P_pe", "P8");
    ("P_pf", "P9"); ("P_px", "P10"); ("P_py", "P11");
    ("S_s", "S1"); ("S_s2", "S2"); ("S_s4", "S3"); ("S_s6", "S4");
    ("S_sh", "S5"); ("S_ss", "S6"); ("S_sx", "S7"); ("S_sy", "S8") ].

(** [d.get(key)] on a dictionary with string keys. *)
Fixpoint dict_get {V} (d : list (string * V)) (key : string) : option V :=
  match d with
  | [] => None
  | (k, v) :: d' => if (k =? key)%string then Some v else dict_get d' key
  end.

(** [d[key]] *)
Definition dict_item {V} (d : list (string * V)) (key : string) : result V :=
  match dict_get d key with
  | Some v => Ok v
  | None => Raise (KeyError key)
  end.

(** [try: m  except: h] with a bare [except]: every exception is caught
    and the handler runs on the state the exception left. *)
Definition try_except {S A} (m h : SE S A) : SE S A :=
  fun s =>
    match m s with
    | (Ok a, s') => (Ok a, s')
    | (Raise _, s') => h s'
    end.

(** [l[k] = v] where the index is in range. *)
Fixpoint list_set {A} (l : list A) (k : nat) (v : A) : list A :=
  match l, k with
  | [], _ => []
  | _ :: l', O => v :: l'
  | x :: l', S k' => x :: list_set l' k' v
  end.

(** The first three positional arguments of [str.format] after the site
    symbol: [*coord] must supply them. *)
Definition three {A} (l : list A) : result (A * A * A) :=
  match l with
  | x :: y :: z :: _ => Ok (x, y, z)
  | _ => Raise IndexError
  end.

(* ================================================================== *)
(** * Files and the external program

    Paths are relative to the working folder of the calculator.  What the
    shell does with a command line is not part of the module: it is the
    argument [sh] of the functions that run one. *)

Definition files : Type := list (string * string).

Fixpoint file_put (path content : string) (fs : files) : files :=
  match fs with
  | [] => [(path, content)]
  | (p, c) :: fs' =>
      if (p =? path)%string then (path, content) :: fs'
      else (p, c) :: file_put path content fs'
  end.

Fixpoint file_delete (path : string) (fs : files) : files :=
  match fs with
  | [] => []
  | (p, c) :: fs' =>
      if (p =? path)%string then fs' else (p, c) :: file_delete path fs'
  end.

(** [open(path).read()] *)
Definition file_read (path : string) (fs : files) : result string :=
  match dict_get fs path with
  | Some c => Ok c
  | None => Raise FileNotFoundError
  end.

(** [os.remove] *)
Definition os_remove (path : string) : SE files unit :=
  fun fs =>
    match dict_get fs path with
    | Some _ => (Ok tt, file_delete path fs)
    | None => (Raise FileNotFoundError, fs)
    end.

(** [shutil.copy] *)
Definition shutil_copy (src dst : string) : SE files unit :=
  fun fs =>
    match dict_get fs src with
    | Some c => (Ok tt, file_put dst c fs)
    | None => (Raise FileNotFoundError, fs)
    end.

(** [os.system("mv src dst")]: no exception whatever happens. *)
Definition mv (src dst : string) : SE files unit :=
  fun fs =>
    match dict_get fs src with
    | Some c => (Ok tt, file_put dst c (file_delete src fs))
    | None => (Ok tt, fs)
    end.

(** The files and the command lines handed to the shell so far. *)
Record world : Type := {
  fs : files;
  commands : list string
}.

Definition shell : Type := string -> files -> files.

(** [os.system(cmd)] and [subprocess.run(cmd, shell=True)]. *)
Definition os_system (sh : shell) (cmd : string) : SE world unit :=
  modify (fun w => {| fs := sh cmd (fs w);
                      commands := (commands w ++ [cmd])%list |}).

Definition on_files {A} (m : SE files A) : SE world A :=
  fun w =>
    let '(r, fs') := m (fs w) in
    (r, {| fs := fs'; commands := commands w |}).

(** Run a computation on the first or on the second component of a pair
    of states. *)
Definition on_fst {S T A} (m : SE S A) : SE (S * T) A :=
  fun st => let '(r, s') := m (fst st) in (r, (s', snd st)).

Definition on_snd {S T A} (m : SE T A) : SE (S * T) A :=
  fun st => let '(r, t') := m (snd st) in (r, (fst st, t')).

(* ================================================================== *)
(** * Structures handed to the calculators *)

Section Structures.
Context {RT : Runtime} {PX : PyxtalLib}.

(** An [ase.Atoms] object, through the three accessors the module calls:
    [cell], [get_scaled_positions()], [get_chemical_symbols()]. *)
Record Atoms : Type := {
  cell : matrix;
  scaled_positions : list (list pyfloat);
  chemical_symbols : list string
}.

(** A [pyxtal] structure, through what the module reads of it:
    [lattice], [group.symbol], [group.number], [atom_sites], [species]
    and the result of [to_ase(resort=False)]. *)
Record pyxtal_obj : Type := {
  px_lattice : Lattice;
  px_group_symbol : string;
  px_group_number : Z;
  px_atom_sites : list atom_site;
  px_species : list string;
  px_to_ase : Atoms
}.

Definition px_set_lattice (l : Lattice) (p : pyxtal_obj) : pyxtal_obj :=
  {| px_lattice := l;
     px_group_symbol := px_group_symbol p;
     px_group_number := px_group_number p;
     px_atom_sites := px_atom_sites p;
     px_species := px_species p;
     px_to_ase := px_to_ase p |}.

Definition px_set_atom_sites (a : list atom_site) (p : pyxtal_obj)
  : pyxtal_obj :=
  {| px_lattice := px_lattice p;
     px_group_symbol := px_group_symbol p;
     px_group_number := px_group_number p;
     px_atom_sites := a;
     px_species := px_species p;
     px_to_ase := px_to_ase p |}.

(** The argument [struc] of the constructors. *)
Inductive struc_arg : Type :=
| IsPyxtal (p : pyxtal_obj)
| IsAtoms (a : Atoms)
| IsOther.

End Structures.

(* ================================================================== *)
(** * class GULP *)

Module GULP.
Section Class.
Context {RT : Runtime} {PX : PyxtalLib}.

(** The attributes that [__init__] copies from its arguments and that no
    method assigns afterwards. *)
Record config : Type := {
  sites : list string;
  species : option (list string);
  symmetry : bool;
  structure : Atoms;
  pstress : option pyfloat;
  label : string;
  labels : option (list (string * string));
  ff : string;
  opt : string;
  exe : string;
  steps : Z;
  folder : string;
  input : string;
  output : string;
  dump : option string;
  timeout : Z
}.

(** A [GULP] object. *)
Record t : Type := {
  cfg : config;
  pyxtal : option pyxtal_obj;
  lattice : Lattice;
  frac_coords : list (list pyfloat);
  iter : Z;
  energy : option pyfloat;
  energy_per_atom : option pyfloat;
  stress : option (list pyfloat);
  forces : option (list (list pyfloat));
  positions : option (list (list pyfloat));
  optimized : bool;
  cputime : pyfloat;
  error : bool
}.

Definition set_pyxtal v '(Build_t c p l fc it e ea st fo po o ct er) :=
  Build_t c v l fc it e ea st fo po o ct er.
Definition set_lattice v '(Build_t c p l fc it e ea st fo po o ct er) :=
  Build_t c p v fc it e ea st fo po o ct er.
Definition set_frac_coords v '(Build_t c p l fc it e ea st fo po o ct er) :=
  Build_t c p l v it e ea st fo po o ct er.
Definition set_iter v '(Build_t c p l fc it e ea st fo po o ct er) :=
  Build_t c p l fc v e ea st fo po o ct er.
Definition set_energy v '(Build_t c p l fc it e ea st fo po o ct er) :=
  Build_t c p l fc it v ea st fo po o ct er.
Definition set_energy_per_atom v
  '(Build_t c p l fc it e ea st fo po o ct er) :=
  Build_t c p l fc it e v st fo po o ct er.
Definition set_stress v '(Build_t c p l fc it e ea st fo po o ct er) :=
  Build_t c p l fc it e ea v fo po o ct er.
Definition set_forces v '(Build_t c p l fc it e ea st fo po o ct er) :=
  Build_t c p l fc it e ea st v po o ct er.
Definition set_optimized v '(Build_t c p l fc it e ea st fo po o ct er) :=
  Build_t c p l fc it e ea st fo po v ct er.
Definition set_cputime v '(Build_t c p l fc it e ea st fo po o ct er) :=
  Build_t c p l fc it e ea st fo po o v er.
Definition set_error v '(Build_t c p l fc it e ea st fo po o ct er) :=
  Build_t c p l fc it e ea st fo po o ct v.

(** ** [__init__] *)

Definition init (struc : struc_arg) (label path ff : string)
  (pstress : option pyfloat) (opt : string) (steps : Z)
  (exe input output : string) (dump : option string) (symmetry : bool)
  (labels : option (list (string * string))) (timeout : Z) : result t :=
  let '(px, species0, struc1) :=
    match struc with
    | IsPyxtal p => (Some p, Some (px_species p), IsAtoms (px_to_ase p))
    | other => (None, None, other)
    end in
  match struc1 with
  | IsAtoms a =>
      (lat <- Lattice_from_matrix (cell a) None ;;
       Ok {| cfg := {| sites := chemical_symbols a;
                       (* [self.species = None] in the [Atoms] branch *)
                       species := None;
                       symmetry := symmetry;
                       structure := a;
                       pstress := pstress;
                       label := label;
                       labels := labels;
                       ff := ff;
                       opt := opt;
                       exe := exe;
                       steps := steps;
                       folder := path;
                       input := label ++ input;
                       output := label ++ output;
                       dump := dump;
                       timeout := timeout |};
             pyxtal := px;
             lattice := lat;
             frac_coords := scaled_positions a;
             iter := 0;
             energy := None;
             energy_per_atom := None;
             stress := None;
             forces := None;
             positions := None;
             optimized := false;
             cputime := of_int 0;
             error := false |})%result
  | _ => Raise NotImplementedError
  end.

(** ** [write] *)

(** [f.write(s)] *)
Definition fwrite (s : string) : SE string unit :=
  modify (fun file => file ++ s).

(** ["{:4s} {:12.6f} {:12.6f} {:12.6f} <kind> \n".format(symbol, *coord)] *)
Definition coord_line (symbol : string) (coord : list pyfloat)
  (kind : string) : result string :=
  ('(x, y, z) <- three coord ;;
   Ok (Py.ljust 4 symbol ++ " " ++ fmt_f 12 6 x ++ " " ++ fmt_f 12 6 y
       ++ " " ++ fmt_f 12 6 z ++ " " ++ kind ++ " " ++ String Py.newline ""))
  %result.

Definition nl : string := String Py.newline "".

Definition write_header (g : t) : SE string unit :=
  ((if (opt (cfg g) =? "conv") then
      fwrite ("opti stress " ++ opt (cfg g) ++ " conjugate ")
    else if (opt (cfg g) =? "single") then
      fwrite "grad conp stress "
    else
      fwrite ("opti stress " ++ opt (cfg g) ++ " conjugate ")) ;;
   (if negb (symmetry (cfg g)) then fwrite ("nosymmetry" ++ nl)
    else ret tt))%se.

Definition write_cell (g : t) : SE string unit :=
  let '(a, b, c, alpha, beta, gamma) := get_para (lattice g) in
  (fwrite (nl ++ "cell" ++ nl) ;;
   fwrite (fmt_f 12 6 a ++ fmt_f 12 6 b ++ fmt_f 12 6 c
           ++ fmt_f 12 6 alpha ++ fmt_f 12 6 beta ++ fmt_f 12 6 gamma
           ++ nl))%se.

(** The coordinate block: the symmetry branch writes the asymmetric unit
    of the [pyxtal] structure, the other branch all coordinates. *)
Definition write_fractional (g : t) : SE string unit :=
  (fwrite (nl ++ "fractional" ++ nl) ;;
   match symmetry (cfg g), pyxtal g with
   | true, Some px =>
       for_each (px_atom_sites px) (fun site =>
         let symbol := site_specie site in
         let coord := site_position site in
         l <- lift (coord_line symbol coord "core") ;;
         fwrite l ;;
         if (ff (cfg g) =? "catlow") && (symbol =? "O") then
           l' <- lift (coord_line symbol coord "shell") ;;
           fwrite l'
         else ret tt) ;;
       fwrite (nl ++ "space" ++ nl ++ Py.format_d (px_group_number px)
               ++ nl) ;;
       fwrite (nl ++ "origin" ++ nl ++ "0 0 0" ++ nl)
   | _, _ =>
       for_each (combine (frac_coords g) (sites (cfg g)))
         (fun '(coord, site) =>
            l <- lift (coord_line site coord "core") ;;
            fwrite l)
   end)%se.

(** One iteration of the loops over [species]. *)
Definition species_entry (g : t) (specie : string) : string :=
  match labels (cfg g) with
  | Some lab =>
      match dict_get lab specie with
      | Some sp => Py.ljust 4 specie ++ " core " ++ sp ++ nl
      | None => Py.ljust 4 specie ++ " core " ++ Py.ljust 4 specie ++ nl
      end
  | None =>
      if (ff (cfg g) =? "catlow") && (specie =? "O") then
        "O    core O_O2- core" ++ nl ++ "O    shell O_O2- shell" ++ nl
      else Py.ljust 4 specie ++ " core " ++ Py.ljust 4 specie ++ nl
  end.

(** [self.structure.species if self.species is not None
     else list(set(self.sites))]; an [ase.Atoms] object has no attribute
    [species]. *)
Definition species_list (g : t) : result (list string) :=
  match species (cfg g) with
  | Some _ => Raise AttributeError
  | None => Ok (set_list (sites (cfg g)))
  end.

Definition write_species (g : t) : SE string unit :=
  (sp <- lift (species_list g) ;;
   fwrite (nl ++ "Species" ++ nl) ;;
   for_each sp (fun specie => fwrite (species_entry g specie)))%se.

Definition write_options (g : t) : SE string unit :=
  (fwrite (nl ++ "library " ++ ff (cfg g) ++ nl) ;;
   fwrite ("ewald 10.0" ++ nl) ;;
   (if negb (opt (cfg g) =? "single") then
      fwrite ("maxcycle " ++ Py.format_d (steps (cfg g)) ++ nl)
    else ret tt) ;;
   match pstress (cfg g) with
   | Some p => fwrite ("pressure " ++ fmt_f 6 3 p ++ nl)
   | None => ret tt
   end ;;
   match dump (cfg g) with
   | Some d => fwrite ("output cif " ++ d ++ nl)
   | None => ret tt
   end)%se.

(** [write]: the text appended to the file opened for writing. *)
Definition write (g : t) : SE string unit :=
  (write_header g ;;
   write_cell g ;;
   write_fractional g ;;
   write_species g ;;
   write_options g)%se.

(** The file [self.input] after [write()], and whether [write] raised. *)
Definition deck (g : t) : result unit * string := write g "".


(** ** [read] *)

(** The state of [read]: [self] and the two local variables that outlive
    the loop. *)
Record frame : Type := {
  self : t;
  lattice_para : option Lattice;
  lattice_vector : option Lattice
}.

Definition on_self (f : t -> t) : SE frame unit :=
  modify (fun fr => {| self := f (self fr);
                       lattice_para := lattice_para fr;
                       lattice_vector := lattice_vector fr |}).

Definition set_lattice_para (l : Lattice) : SE frame unit :=
  modify (fun fr => {| self := self fr;
                       lattice_para := Some l;
                       lattice_vector := lattice_vector fr |}).

Definition set_lattice_vector (l : Lattice) : SE frame unit :=
  modify (fun fr => {| self := self fr;
                       lattice_para := lattice_para fr;
                       lattice_vector := Some l |}).

Definition get_self : SE frame t := fun fr => (Ok (self fr), fr).

(** [lines[k].split()[j]] *)
Definition token (lines : list string) (k j : nat) : result string :=
  (l <- Py.getitem lines k ;; Py.getitem (Py.split l) j)%result.

(** The pattern is chosen from the configuration; the result is
    [m.group(1)] when the line matches. *)
Definition energy_line (g : t) (line : string) : result (option string) :=
  (nonprim <-
     (if symmetry (cfg g) then
        match pyxtal g with
        | None => Raise AttributeError
        | Some px =>
            c <- Py.getitem (list_ascii_of_string (px_group_symbol px)) 0 ;;
            Ok (negb (Ascii.eqb c "P"))
        end
      else Ok false) ;;
   if nonprim : bool then
     Ok (Py.re_match (Py.energy_pattern "Non-primitive unit cell") line)
   else if match pstress (cfg g) with
           | None => true
           | Some p => is_zero p
           end
   then Ok (Py.re_match (Py.energy_pattern "Total lattice energy") line)
   else Ok (Py.re_match (Py.energy_pattern "Total lattice enthalpy") line))
  %result.

(** The three lines after [Final stress tensor components], two numbers
    each. *)
Definition stress_block (lines : list string) (i : nat)
  : result (list pyfloat) :=
  (rows <- map_result
             (fun j =>
                a <- (v <- token lines (i + j + 3) 1 ;; float_ v) ;;
                b <- (v <- token lines (i + j + 3) 3 ;; float_ v) ;;
                Ok (a, b))
             [0; 1; 2]%nat ;;
   Ok (map fst rows ++ map snd rows)%list)%result.

Fixpoint minus_positions (s : string) (i : nat) : list nat :=
  match s with
  | "" => []
  | String c r =>
      if Ascii.eqb c "-" then i :: minus_positions r (S i)
      else minus_positions r (S i)
  end.

(** [[i + 1 for i, e in enumerate(s[1:]) if e == "-"]] *)
Definition min_index (s : string) : list nat :=
  minus_positions (Py.drop 1 s) 1.

(** [g = lines[s].split()[3:6]], filled up to three entries with [" "]. *)
Definition pad3 (g : list string) : string * string * string :=
  match g with
  | [] => (" ", " ", " ")
  | [a] => (a, " ", " ")
  | [a; b] => (a, b, " ")
  | a :: b :: c :: _ => (a, b, c)
  end.

(** The pass [j == 1] of the loop that separates merged columns. *)
Definition split_second (g : string * string * string)
  : string * string * string :=
  let '(g0, g1, g2) := g in
  match min_index g1 with
  | [] => (g0, g1, g2)
  | m0 :: _ => (g0, Py.take m0 g1, Py.drop m0 g1)
  end.

(** Both passes: a minus sign inside a token starts a new number. *)
Definition split_minus (g : string * string * string)
  : string * string * string :=
  let '(g0, g1, g2) := g in
  match min_index g0 with
  | [] => split_second (g0, g1, g2)
  | [m0] => split_second (Py.take m0 g0, Py.drop m0 g0, g1)
  | m0 :: m1 :: _ => (Py.take m0 g0, Py.slice g0 m0 m1, Py.drop m1 g0)
  end.

(** [-float(x) * eV / Ang] *)
Definition force_component (x : string) : result pyfloat :=
  (v <- float_ x ;; truediv (fmul (fneg v) eV) Ang)%result.

(** The rows [lines[s]] of [Final internal derivatives] from [s = i + 6]
    on, up to the dashed line; [rows] is [lines[s:]]. *)
Fixpoint force_rows (rows : list string) : result (list (list pyfloat)) :=
  match rows with
  | [] => Raise IndexError
  | l :: rows' =>
      if Py.contains l "------------" then Ok []
      else
        (let '(g0, g1, g2) := split_minus (pad3 (Py.lslice (Py.split l) 3 6)) in
         G <- map_result force_component [g0; g1; g2] ;;
         rest <- force_rows rows' ;;
         Ok (G :: rest))%result
  end.

(** The rows of a coordinate block up to the dashed line: the positions
    and the species column. *)
Fixpoint coord_rows (rows : list string)
  : result (list (list pyfloat) * list string) :=
  match rows with
  | [] => Raise IndexError
  | l :: rows' =>
      if Py.contains l "------------" then Ok ([], [])
      else
        (XYZ <- map_result float_ (Py.lslice (Py.split l) 3 6) ;;
         sp <- Py.getitem (Py.split l) 1 ;;
         rest <- coord_rows rows' ;;
         Ok (XYZ :: fst rest, sp :: snd rest))%result
  end.

(** One pass of the loop over [range(len(self.pyxtal.atom_sites))]. *)
Definition asym_step (lines : list string) (s _i : nat) : SE frame unit :=
  (g <- get_self ;;
   match pyxtal g with
   | None => raise AttributeError
   | Some px =>
       l <- lift (Py.getitem lines (s + _i)) ;;
       XYZ <- lift (map_result float_ (Py.lslice (Py.split l) 3 6)) ;;
       site <- lift (Py.getitem (px_atom_sites px) _i) ;;
       site' <- lift (atom_site_update site XYZ) ;;
       on_self (set_pyxtal
                  (Some (px_set_atom_sites
                           (list_set (px_atom_sites px) _i site') px)))
   end)%se.

(** One row of [Final Cartesian lattice vectors]. *)
Definition vector_row (lines : list string) (j : nat)
  : result (list pyfloat) :=
  (l <- Py.getitem lines j ;;
   map_result (fun k => v <- Py.getitem (Py.split l) k ;; float_ v)
              [0; 1; 2]%nat)%result.

(** The two lines of [Non-primitive lattice parameters]. *)
Definition para_block (lines : list string) (s : nat) : result para :=
  (a <- (v <- token lines s 2 ;; float_ v) ;;
   b <- (v <- token lines s 5 ;; float_ v) ;;
   c <- (v <- token lines s 8 ;; float_ v) ;;
   alpha <- (v <- token lines (s + 1) 1 ;; float_ v) ;;
   beta <- (v <- token lines (s + 1) 3 ;; float_ v) ;;
   gamma <- (v <- token lines (s + 1) 5 ;; float_ v) ;;
   Ok (a, b, c, alpha, beta, gamma))%result.

(** The body of [for i, line in enumerate(lines)]. *)
Definition scan_line (ltype : string) (lines : list string) (i : nat)
  (line : string) : SE frame unit :=
  (g <- get_self ;;
   m <- lift (energy_line g line) ;;
   match m with
   | Some group1 =>
       e <- lift (float_ group1) ;;
       on_self (set_energy (Some e)) ;;
       g' <- get_self ;;
       epa <- lift (truediv e (of_int (Z.of_nat (length (frac_coords g'))))) ;;
       on_self (set_energy_per_atom (Some epa))
   | None =>
       if Py.contains line "Job Finished" then
         on_self (set_optimized true)
       else if Py.contains line "Total CPU time" then
         v <- lift (Py.getlast (Py.split line)) ;;
         x <- lift (float_ v) ;;
         on_self (set_cputime x)
       else if Py.contains line "Final stress tensor components" then
         st <- lift (stress_block lines i) ;;
         on_self (set_stress (Some st))
       else if Py.contains line "Final internal derivatives" then
         rows <- lift (force_rows (skipn (i + 6) lines)) ;;
         on_self (set_forces (Some rows))
       else if Py.contains line " Cycle: " then
         v <- lift (Py.getitem (Py.split line) 1) ;;
         n <- lift (Py.int v) ;;
         on_self (set_iter n)
       else if Py.contains line "Final asymmetric unit coordinates" then
         match pyxtal g with
         | None => raise AttributeError
         | Some px =>
             for_each (seq 0 (length (px_atom_sites px)))
                      (asym_step lines (i + 6))
         end
       else if Py.contains line "Final fractional coordinates of atoms" then
         rows <- lift (coord_rows (skipn (i + 6) lines)) ;;
         arr <- lift (np_array (fst rows)) ;;
         on_self (set_frac_coords arr)
       else if Py.contains line "Final Cartesian lattice vectors" then
         r0 <- lift (vector_row lines (i + 2)) ;;
         r1 <- lift (vector_row lines (i + 3)) ;;
         r2 <- lift (vector_row lines (i + 4)) ;;
         lat <- lift (Lattice_from_matrix [r0; r1; r2] (Some ltype)) ;;
         set_lattice_vector lat
       else if Py.contains line "Non-primitive lattice parameters" then
         p <- lift (para_block lines (i + 2)) ;;
         lat <- lift (Lattice_from_para p ltype) ;;
         set_lattice_para lat
       else ret tt
   end)%se.

(** [for i, line in enumerate(lines)], from line [i] on. *)
Fixpoint scan_from (ltype : string) (lines : list string) (i : nat)
  (rest : list string) : SE frame unit :=
  match rest with
  | [] => ret tt
  | line :: rest' =>
      bind (scan_line ltype lines i line)
           (fun _ => scan_from ltype lines (S i) rest')
  end.

Definition scan (ltype : string) (lines : list string) : SE frame unit :=
  scan_from ltype lines 0 lines.

Definition fail_energy (g : t) : t := set_energy None (set_error true g).

(** The statements of [read] after [lines = f.readlines()]. *)
Definition read_lines (ltype : string) (lines : list string)
  : SE frame unit :=
  (try_except (scan ltype lines) (on_self fail_energy) ;;
   fr <- get ;;
   match lattice_para fr, lattice_vector fr with
   | Some l, _ => on_self (set_lattice l)
   | None, Some l => on_self (set_lattice l)
   | None, None => on_self fail_energy
   end ;;
   g <- get_self ;;
   match pyxtal g with
   | Some px => on_self (set_pyxtal (Some (px_set_lattice (lattice g) px)))
   | None => ret tt
   end ;;
   g <- get_self ;;
   if match energy g with
      | None => true
      | Some e => isnan e
      end
   then on_self fail_energy
   else ret tt)%se.

(** [read] on the text of the file [self.output]. *)
Definition read (text : string) : SE t unit :=
  fun g =>
    let ltype :=
      match pyxtal g with
      | Some px => lat_ltype (px_lattice px)
      | None => "triclinic"
      end in
    let '(r, fr) :=
      read_lines ltype (Py.readlines text)
                 {| self := g; lattice_para := None; lattice_vector := None |}
    in (r, self fr).


(** ** [execute], [clean], [run] *)

Definition execute (sh : shell) (g : t) : SE world unit :=
  os_system sh (exe (cfg g) ++ "<" ++ input (cfg g) ++ ">" ++ output (cfg g)).

Definition clean (g : t) : SE world unit :=
  on_files
    ((if error g then
        mv (input (cfg g)) (input (cfg g) ++ "_error") ;;
        mv (output (cfg g)) (output (cfg g) ++ "_error")
      else
        os_remove (input (cfg g)) ;;
        os_remove (output (cfg g))) ;;
     match dump (cfg g) with
     | Some d => os_remove d
     | None => ret tt
     end)%se.

(** [with open(self.input, "w") as f: ...]: the file holds what was
    written, also when the body raised. *)
Definition write_file (g : t) : SE world unit :=
  fun w =>
    let '(r, content) := write g "" in
    (r, {| fs := file_put (input (cfg g)) content (fs w);
           commands := commands w |}).

(** [run]: the state is the calculator and the world. *)
Definition run (sh : shell) (clean_ : bool) : SE (t * world) unit :=
  (st <- get ;;
   on_snd (write_file (fst st)) ;;
   on_snd (execute sh (fst st)) ;;
   st <- get ;;
   text <- lift (file_read (output (cfg (fst st))) (fs (snd st))) ;;
   on_fst (read text) ;;
   st <- get ;;
   if clean_ then on_snd (clean (fst st)) else ret tt)%se.

End Class.
End GULP.

(* ================================================================== *)
(** * class GULP_OC *)

Module GULP_OC.
Section Class.
Context {RT : Runtime} {PX : PyxtalLib}.

(** An element of [site.wp.ops]. *)
Record symop : Type := {
  rotation_matrix : matrix;
  translation_vector : list pyfloat
}.

(** An element of [structure.mol_sites], through what the module reads:
    [_get_coords_and_species(first=True)[0]], the [species_string] of
    [molecule.mol.sites], the entries [gmx_label] and [charge] of
    [molecule.props] ([None] when the key is absent), [type], [wp.ops],
    [len(wp)], the atom ids of [mol.molTopol.bonds], [len(molecule.mol)]. *)
Record mol_site : Type := {
  coords_first : list (list pyfloat);
  species_string : list string;
  gmx_label : option (list string);
  charge : option (list pyfloat);
  type : nat;
  wp_ops : list symop;
  wp_len : nat;
  bonds : list (Z * Z);
  mol_len : nat
}.

(** The molecular crystal: [lattice], [mol_sites],
    [group.lattice_type], [energy]. *)
Record crystal : Type := {
  lattice : Lattice;
  mol_sites : list mol_site;
  group_lattice_type : string;
  energy : option pyfloat
}.

Definition set_crystal_lattice (l : Lattice) (s : crystal) : crystal :=
  {| lattice := l; mol_sites := mol_sites s;
     group_lattice_type := group_lattice_type s; energy := energy s |}.

Definition set_crystal_energy (e : option pyfloat) (s : crystal) : crystal :=
  {| lattice := lattice s; mol_sites := mol_sites s;
     group_lattice_type := group_lattice_type s; energy := e |}.

Definition set_crystal_sites (l : list mol_site) (s : crystal) : crystal :=
  {| lattice := lattice s; mol_sites := l;
     group_lattice_type := group_lattice_type s; energy := energy s |}.

(** [atom_info]: labels and charges by site type. *)
Record atom_info_t : Type := {
  info_label : list (list string);
  info_charge : list (list pyfloat)
}.

Record config : Type := {
  folder : string;
  label : string;
  ff : string;
  bond_type : bool;
  opt : string;
  exe : string;
  steps : Z;
  stepmx : pyfloat;
  input : string;
  output : string;
  dump : option string;
  atom_info : option atom_info_t
}.

(** A [GULP_OC] object.  [version], [species] and [self_lattice] are the
    attributes that only [read] creates: [None] stands for "not set".
    There is no attribute [error]. *)
Record t : Type := {
  cfg : config;
  structure : crystal;
  iter : Z;
  stress : option (list pyfloat);
  positions : option (list (list pyfloat));
  forces : option (list (list pyfloat));
  optimized : bool;
  cell : option matrix;
  cputime : pyfloat;
  version : option string;
  species : option (list string);
  self_lattice : option Lattice
}.

Definition set_structure v '(Build_t c s it st po fo o ce ct ve sp la) :=
  Build_t c v it st po fo o ce ct ve sp la.
Definition set_iter v '(Build_t c s it st po fo o ce ct ve sp la) :=
  Build_t c s v st po fo o ce ct ve sp la.
Definition set_stress v '(Build_t c s it st po fo o ce ct ve sp la) :=
  Build_t c s it v po fo o ce ct ve sp la.
Definition set_positions v '(Build_t c s it st po fo o ce ct ve sp la) :=
  Build_t c s it st v fo o ce ct ve sp la.
Definition set_optimized v '(Build_t c s it st po fo o ce ct ve sp la) :=
  Build_t c s it st po fo v ce ct ve sp la.
Definition set_cell v '(Build_t c s it st po fo o ce ct ve sp la) :=
  Build_t c s it st po fo o v ct ve sp la.
Definition set_cputime v '(Build_t c s it st po fo o ce ct ve sp la) :=
  Build_t c s it st po fo o ce v ve sp la.
Definition set_version v '(Build_t c s it st po fo o ce ct ve sp la) :=
  Build_t c s it st po fo o ce ct v sp la.
Definition set_species v '(Build_t c s it st po fo o ce ct ve sp la) :=
  Build_t c s it st po fo o ce ct ve v la.
Definition set_self_lattice v '(Build_t c s it st po fo o ce ct ve sp la) :=
  Build_t c s it st po fo o ce ct ve sp v.

(** ** [__init__] *)

Definition init (environ : list (string * string)) (struc : crystal)
  (label ff : string) (bond_type : bool) (opt : string) (steps : Z)
  (stepmx : pyfloat) (exe : string) (atom_info : option atom_info_t)
  (input output : string) (dump : option string) (folder : string) : t :=
  {| cfg := {| folder := folder;
               label := label;
               ff := ff;
               bond_type := bond_type;
               opt := opt;
               exe := match dict_get environ "OCSP_GULPEXE" with
                      | Some e => e
                      | None => exe
                      end;
               steps := steps;
               stepmx := stepmx;
               input := label ++ input;
               output := label ++ output;
               dump := dump;
               atom_info := atom_info |};
     structure := struc;
     iter := 0;
     stress := None;
     positions := None;
     forces := None;
     optimized := false;
     cell := None;
     cputime := of_int 0;
     version := None;
     species := None;
     self_lattice := None |}.

(** ** [write] *)

(** The state of [write]: the text of the file and the files of the
    folder ([shutil.copy] of the library). *)
Definition fwrite (s : string) : SE (string * files) unit :=
  on_fst (GULP.fwrite s).

Definition nl : string := GULP.nl.

(** [labels] and [charges] of one site. *)
Definition labels_charges (g : t) (site : mol_site)
  : result (list string * list pyfloat) :=
  match atom_info (cfg g) with
  | None =>
      match gmx_label site, charge site with
      | Some l, Some c => Ok (l, c)
      | None, _ => Raise (KeyError "gmx_label")
      | _, None => Raise (KeyError "charge")
      end
  | Some info =>
      (l <- Py.getitem (info_label info) (type site) ;;
       c <- Py.getitem (info_charge info) (type site) ;;
       Ok (l, c))%result
  end.

(** The force-field key of atom [j]: the element, followed by [_] and the
    label unless the element is F, Cl or Br. *)
Definition atom_symbol (site : mol_site) (labels : list string) (j : nat)
  : result string :=
  (symbol <- Py.getitem (species_string site) j ;;
   if existsb (String.eqb symbol) ["F"; "Cl"; "Br"] then Ok symbol
   else (lab <- Py.getitem labels j ;; Ok (symbol ++ "_" ++ lab)))%result.

Definition unsupported (symbol : string) : exn :=
  KeyError ("symbol " ++ symbol ++ " is not supported in GULP-gaff2.lib").

(** The text of one coordinate line; a [KeyError] of the evaluation is
    replaced by the message of the [except] clause. *)
Definition atom_line (symbol : string) (coord : list pyfloat)
  (charges : list pyfloat) (j : nat) : result string :=
  match
    (code <- dict_item at_types symbol ;;
     x <- Py.getitem coord 0 ;;
     y <- Py.getitem coord 1 ;;
     z <- Py.getitem coord 2 ;;
     q <- Py.getitem charges j ;;
     Ok (Py.ljust 4 code ++ " " ++ fmt_f 12 6 x ++ " " ++ fmt_f 12 6 y
         ++ " " ++ fmt_f 12 6 z ++ " core " ++ fmt_f 12 6 q ++ nl))%result
  with
  | Raise (KeyError _) => Raise (unsupported symbol)
  | r => r
  end.

(** The body of [for j, coord in enumerate(coords)]; returns the symbol
    appended to [symbols]. *)
Definition write_atom (site : mol_site) (labels : list string)
  (charges : list pyfloat) (j : nat) (coord : list pyfloat)
  : SE (string * files) string :=
  (symbol <- lift (atom_symbol site labels j) ;;
   l <- lift (atom_line symbol coord charges j) ;;
   fwrite l ;;
   ret symbol)%se.

Fixpoint write_atoms (site : mol_site) (labels : list string)
  (charges : list pyfloat) (j : nat) (coords : list (list pyfloat))
  : SE (string * files) (list string) :=
  match coords with
  | [] => ret []
  | coord :: coords' =>
      (symbol <- write_atom site labels charges j coord ;;
       rest <- write_atoms site labels charges (S j) coords' ;;
       ret (symbol :: rest))%se
  end.

(** The loop over [self.structure.mol_sites]; returns [symbols]. *)
Fixpoint write_sites (g : t) (l : list mol_site)
  : SE (string * files) (list string) :=
  match l with
  | [] => ret []
  | site :: l' =>
      (lc <- lift (labels_charges g site) ;;
       symbols <- write_atoms site (fst lc) (snd lc) 0 (coords_first site) ;;
       rest <- write_sites g l' ;;
       ret (symbols ++ rest)%list)%se
  end.

Definition species_line (symbol : string) : result string :=
  (code <- dict_item at_types symbol ;;
   Ok (Py.ljust 4 code ++ " core " ++ Py.ljust 4 symbol ++ nl))%result.

Definition write_species (symbols : list string)
  : SE (string * files) unit :=
  (fwrite (nl ++ "Species" ++ nl) ;;
   for_each (set_list symbols)
            (fun symbol => l <- lift (species_line symbol) ;; fwrite l))%se.

(** Row [i] of [op.rotation_matrix.T]. *)
Definition column (m : matrix) (i : nat) : result (list pyfloat) :=
  map_result (fun row => Py.getitem row i) m.

(** One line of an operator: row [i] of the transposed rotation, then
    [trans[i]], four fields [{:6.3f}] separated by blanks. *)
Definition symop_line (op : symop) (i : nat) : result string :=
  (row <- column (rotation_matrix op) i ;;
   ti <- Py.getitem (translation_vector op) i ;;
   match (row ++ [ti])%list with
   | a :: b :: c :: d :: _ =>
       Ok (fmt_f 6 3 a ++ " " ++ fmt_f 6 3 b ++ " " ++ fmt_f 6 3 c ++ " "
           ++ fmt_f 6 3 d ++ nl)
   | _ => Raise IndexError
   end)%result.

Definition write_symmetry (site0 : mol_site) : SE (string * files) unit :=
  for_each (skipn 1 (wp_ops site0))
    (fun op =>
       (fwrite ("symmetry_operator" ++ nl) ;;
        for_each [0; 1; 2]%nat
                 (fun i => l <- lift (symop_line op i) ;; fwrite l))%se).

(** [site] and [coords] are the variables left by the loop over the
    sites: those of the last site. *)
Definition write_bonds (site0 site : mol_site) : SE (string * files) unit :=
  for_each (bonds site0)
    (fun bond =>
       for_each (seq 0 (wp_len site))
         (fun i =>
            let count := Z.of_nat (i * length (coords_first site)) in
            fwrite ("connect " ++ Py.rjust 4 (Py.format_d (fst bond + count))
                    ++ " " ++ Py.rjust 4 (Py.format_d (snd bond + count))
                    ++ nl))).

Definition write (environ : list (string * string)) (g : t)
  : SE (string * files) unit :=
  let lat := lattice (structure g) in
  let '(a, b, c, alpha0, beta0, gamma0) := lat_para lat in
  let alpha := np_degrees alpha0 in
  let beta := np_degrees beta0 in
  let gamma := np_degrees gamma0 in
  let ltype := lat_ltype lat in
  ((if (opt (cfg g) =? "conv") then
      fwrite ("opti " ++ opt (cfg g) ++ " conj molecule nomod qok" ++ nl)
    else
      fwrite ("opti stress " ++ opt (cfg g) ++ " conj molecule nomod qok"
              ++ nl)) ;;
   fwrite (nl ++ "cell" ++ nl) ;;
   fwrite (fmt_f 12 6 a ++ fmt_f 12 6 b ++ fmt_f 12 6 c
           ++ fmt_f 12 6 alpha ++ fmt_f 12 6 beta ++ fmt_f 12 6 gamma
           ++ nl) ;;
   fwrite (nl ++ "fractional" ++ nl) ;;
   symbols <- write_sites g (mol_sites (structure g)) ;;
   write_species symbols ;;
   fwrite (nl ++ "symmetry_cell " ++ ltype ++ nl) ;;
   site0 <- lift (Py.getitem (mol_sites (structure g)) 0) ;;
   write_symmetry site0 ;;
   (if bond_type (cfg g) then
      site <- lift (Py.getlast (mol_sites (structure g))) ;;
      write_bonds site0 site
    else ret tt) ;;
   fwrite (nl ++ "library " ++ ff (cfg g) ++ ".lib" ++ nl) ;;
   match dict_get environ "OCSP_GULP_LIB" with
   | Some dir =>
       on_snd (shutil_copy (dir ++ "/" ++ ff (cfg g) ++ ".lib")
                           (ff (cfg g) ++ ".lib"))
   | None => ret tt
   end ;;
   fwrite ("ewald 10.0" ++ nl) ;;
   fwrite ("maxcycle " ++ Py.format_d (steps (cfg g)) ++ nl) ;;
   fwrite ("stepmx " ++ float_str (stepmx (cfg g)) ++ nl) ;;
   fwrite ("ftol 0.0001" ++ nl) ;;
   fwrite ("gtol 0.002" ++ nl) ;;
   fwrite ("gmax 0.01" ++ nl) ;;
   match dump (cfg g) with
   | Some d => fwrite ("output cif " ++ d ++ nl)
   | None => ret tt
   end)%se.


(** ** [read] *)

Definition on_structure (f : crystal -> crystal) : SE t unit :=
  modify (fun g => set_structure (f (structure g)) g).

(** The body of [for i, line in enumerate(lines)]. *)
Definition scan_line (lines : list string) (i : nat) (line : string)
  : SE t unit :=
  ((if (i =? 7)%nat then modify (set_version (Some line)) else ret tt) ;;
   if (0 <=? Py.find line "Total lattice energy")%Z then
     match Py.re_match (Py.energy_pattern "Total lattice energy") line with
     | Some group1 =>
         e <- lift (float_ group1) ;;
         on_structure (set_crystal_energy (Some e))
     | None => ret tt
     end
   else if Py.contains line "Job Finished" then
     modify (set_optimized true)
   else if Py.contains line "Total CPU time" then
     v <- lift (Py.getlast (Py.split line)) ;;
     x <- lift (float_ v) ;;
     modify (set_cputime x)
   else if Py.contains line "Final stress tensor components" then
     st <- lift (GULP.stress_block lines i) ;;
     modify (set_stress (Some st))
   else if Py.contains line " Cycle: " then
     v <- lift (Py.getitem (Py.split line) 1) ;;
     n <- lift (Py.int v) ;;
     modify (set_iter n)
   else if Py.contains line "Final asymmetric unit coord"
           || Py.contains line "Final fractional coordinates of atoms" then
     rows <- lift (GULP.coord_rows (skipn (i + 6) lines)) ;;
     arr <- lift (np_array (fst rows)) ;;
     modify (set_positions (Some arr)) ;;
     modify (set_species (Some (snd rows)))
   else if Py.contains line "Final Cartesian lattice vectors" then
     r0 <- lift (GULP.vector_row lines (i + 2)) ;;
     r1 <- lift (GULP.vector_row lines (i + 3)) ;;
     r2 <- lift (GULP.vector_row lines (i + 4)) ;;
     modify (set_cell (Some [r0; r1; r2]))
   else ret tt)%se.

Fixpoint scan_from (lines : list string) (i : nat) (rest : list string)
  : SE t unit :=
  match rest with
  | [] => ret tt
  | line :: rest' =>
      bind (scan_line lines i line) (fun _ => scan_from lines (S i) rest')
  end.

Definition scan (lines : list string) : SE t unit :=
  scan_from lines 0 lines.

Section Read.
(** [site.update(coords, lattice)] and [structure.optimize_lattice()]
    belong to PyXtal. *)
Variable mol_site_update
  : mol_site -> list (list pyfloat) -> Lattice -> result mol_site.
Variable optimize_lattice : crystal -> result crystal.

(** The loop over [self.structure.mol_sites] in the [try] block; [k] is
    the position of [site] in the list. *)
Fixpoint update_sites (lat : Lattice) (k count : nat) (l : list mol_site)
  : SE t unit :=
  match l with
  | [] => ret tt
  | site :: l' =>
      (g <- get ;;
       pos <- lift match positions g with
                   | Some p => Ok p
                   | None => Raise (TypeError "'NoneType' object is not subscriptable")
                   end ;;
       site' <- lift (mol_site_update
                        site (Py.lslice pos count (count + mol_len site)) lat) ;;
       on_structure (fun s => set_crystal_sites
                                (list_set (mol_sites s) k site') s) ;;
       update_sites lat (S k) (count + mol_len site) l')%se
  end.

(** The [try] block that folds the positions back into the structure;
    its bare [except] only prints. *)
Definition fold_back (lat : Lattice) : SE t unit :=
  try_except
    (g' <- get ;;
     update_sites lat 0 0 (mol_sites (structure g')) ;;
     g'' <- get ;;
     s' <- lift (optimize_lattice (structure g'')) ;;
     modify (set_structure s'))%se
    (ret tt).

(** [self.cell] when the loop is over: the block that was read, or the
    matrix of the lattice of the structure. *)
Definition cell_or_own (g : t) : matrix :=
  match cell g with
  | Some c => c
  | None => lat_matrix (lattice (structure g))
  end.

(** The statements of [read] after the loop. *)
Definition finish : SE t unit :=
  (g <- get ;;
   modify (set_cell (Some (cell_or_own g))) ;;
   lat0 <- lift (Lattice_from_matrix (cell_or_own g) None) ;;
   let lat := set_ltype lat0 (group_lattice_type (structure g)) in
   modify (set_self_lattice (Some lat)) ;;
   on_structure (set_crystal_lattice lat) ;;
   if optimized g then fold_back lat else ret tt)%se.

(** [read] on the text of the file [self.output]. *)
Definition read (text : string) : SE t unit :=
  (scan (Py.readlines text) ;; finish)%se.

(** ** [execute], [clean], [run] *)

(** [s.split(".")[0]] *)
Fixpoint before_dot (s : string) : string :=
  match s with
  | "" => ""
  | String c r => if Ascii.eqb c "." then "" else String c (before_dot r)
  end.

Definition execute (sh : shell) (g : t) : SE world unit :=
  (if (exe (cfg g) =? "gulp.exe") then
     let key := before_dot (input (cfg g)) in
     on_files (shutil_copy (input (cfg g)) (key ++ ".gin")) ;;
     os_system sh (exe (cfg g) ++ " " ++ key) ;;
     on_files (shutil_copy (key ++ ".gout") (output (cfg g)))
   else
     os_system sh (exe (cfg g) ++ "<" ++ input (cfg g) ++ ">"
                   ++ output (cfg g)))%se.

Definition clean (g : t) : SE world unit :=
  on_files (os_remove (input (cfg g)) ;; os_remove (output (cfg g)))%se.

(** [with open(self.input, "w") as f: ...]: the file holds what was
    written, also when the body raised. *)
Definition write_file (environ : list (string * string)) (g : t)
  : SE world unit :=
  fun w =>
    let '(r, (content, fs')) := write environ g ("", fs w) in
    (r, {| fs := file_put (input (cfg g)) content fs';
           commands := commands w |}).

Definition run (environ : list (string * string)) (sh : shell)
  (clean_ pause : bool) : SE (t * world) unit :=
  (st <- get ;;
   on_snd (write_file environ (fst st)) ;;
   if negb pause then
     on_snd (execute sh (fst st)) ;;
     st <- get ;;
     text <- lift (file_read (output (cfg (fst st))) (fs (snd st))) ;;
     on_fst (read text) ;;
     st <- get ;;
     if clean_ then on_snd (clean (fst st)) else ret tt
   else ret tt)%se.

End Read.
End Class.
End GULP_OC.

(* ================================================================== *)
(** * The drivers [single_optimize] and [optimize] *)

(** Binding the keywords of a call [f(..., k=v, ...)] to the parameters of
    [f]: a keyword that names no parameter raises [TypeError] before the
    body of [f] starts. *)
Definition bind_keywords (fname : string) (params keywords : list string)
  : result unit :=
  match List.find (fun k => negb (existsb (String.eqb k) params)) keywords with
  | Some k =>
      Raise (TypeError (fname ++ "() got an unexpected keyword argument '"
                        ++ k ++ "'"))
  | None => Ok tt
  end.

(** The parameters in the [def] of [single_optimize]. *)
Definition single_optimize_params : list string :=
  ["struc"; "ff"; "steps"; "pstress"; "opt"; "path"; "label"; "clean";
   "symmetry"; "labels"].

Section Drivers.
Context {RT : Runtime} {PX : PyxtalLib}.

(** The external program behind [os.system]. *)
Variable sh : shell.
(** [Atoms(symbols, scaled_positions=..., cell=...)] of ASE. *)
Variable make_atoms
  : list string -> list (list pyfloat) -> matrix -> result Atoms.
(** [struc = pyxtal(); struc.from_seed(atoms, tol=tol)]: the structure
    after the call, and whether the call raised. *)
Variable from_seed : Atoms -> pyfloat -> pyxtal_obj * bool.

Definition to_ase (g : GULP.t) : result Atoms :=
  make_atoms (GULP.sites (GULP.cfg g)) (GULP.frac_coords g)
             (lat_matrix (GULP.lattice g)).

(** [for tol in ...: try: ...; break  except: pass]; [last] is the value
    of [struc] so far. *)
Fixpoint seed_loop (a : Atoms) (tols : list pyfloat)
  (last : option pyxtal_obj) : result pyxtal_obj :=
  match tols with
  | [] =>
      match last with
      | Some p => Ok p
      | None => Raise (UnboundLocalError "struc")
      end
  | tol :: tols' =>
      let '(p, raised) := from_seed a tol in
      if raised : bool then seed_loop a tols' (Some p) else Ok p
  end.

Definition to_pyxtal (g : GULP.t) : result pyxtal_obj :=
  (a <- to_ase g ;;
   seed_loop a [of_literal (Py.LitDec false 1 (-2));
                of_literal (Py.LitDec false 1 (-3));
                of_literal (Py.LitDec false 1 (-4));
                of_literal (Py.LitDec false 1 (-5))] None)%result.

(** What the drivers return: [(struc, energy, time, error)]. *)
Definition outcome : Type :=
  (option struc_arg * option pyfloat * pyfloat * bool)%type.

Definition single_optimize (struc : struc_arg) (ff : string) (steps : Z)
  (pstress : option pyfloat) (opt path label : string) (clean symmetry : bool)
  (labels : option (list (string * string))) : SE world outcome :=
  (calc <- lift (GULP.init struc label path ff pstress opt steps "gulp"
                           "gulp.in" "gulp.log" None symmetry labels 3600) ;;
   fun w =>
     let '(r, (calc', w')) := GULP.run sh clean (calc, w) in
     match r with
     | Raise e => (Raise e, w')
     | Ok _ =>
         if GULP.error calc' then (Ok (None, None, of_int 0, true), w')
         else
           let struc' :=
             match GULP.pyxtal calc' with
             | None => to_pyxtal calc'
             | Some px => Ok px
             end in
           ((px <- struc' ;;
             Ok (Some (IsPyxtal px), GULP.energy_per_atom calc',
                 GULP.cputime calc', GULP.error calc'))%result, w')
     end)%se.

(** [struc.lattice.set_matrix(struc.lattice.matrix * 0.8)] *)
Definition shrink (struc : option struc_arg) : result (option struc_arg) :=
  match struc with
  | Some (IsPyxtal px) =>
      let l := px_lattice px in
      let m := map (map (fun x => fmul x (of_literal (Py.LitDec false 8 (-1)))))
                   (lat_matrix l) in
      Ok (Some (IsPyxtal (px_set_lattice (set_matrix l m) px)))
  | _ => Raise AttributeError
  end.

(** The call in [optimize]: two positional arguments and the keywords
    [pstress], [opt], [exe], [path], [label], [clean]. *)
Definition call_single_optimize (struc : struc_arg) (ff : string)
  (pstress : option pyfloat) (opt exe path label : string) (clean : bool)
  : SE world outcome :=
  (lift (bind_keywords "single_optimize" single_optimize_params
                       ["pstress"; "opt"; "exe"; "path"; "label"; "clean"]) ;;
   single_optimize struc ff 1000 pstress opt path label clean false None)%se.

(** The loop of [optimize]; [energy] is [None] while the variable is not
    bound. *)
Fixpoint optimize_loop (ff exe : string) (pstress : option pyfloat)
  (path label : string) (clean adjust : bool) (optimizations : list string)
  (struc : option struc_arg) (energy : option (option pyfloat))
  (time_total : pyfloat) : SE world outcome :=
  match optimizations with
  | [] =>
      match energy with
      | Some e => ret (struc, e, time_total, false)
      | None => raise (UnboundLocalError "energy")
      end
  | opt :: rest =>
      (r <- call_single_optimize
              (match struc with Some s => s | None => IsOther end)
              ff pstress opt exe path label clean ;;
       let '(struc', energy', time, error) := r in
       let time_total' := fadd time_total time in
       if error : bool then ret (None, None, of_int 0, true)
       else
         struc'' <-
           (if adjust then
              e <- lift match energy' with
                        | Some e => Ok e
                        | None => Raise (TypeError "bad operand type for abs()")
                        end ;;
              if flt (fabs e) (of_literal (Py.LitDec false 1 (-8)))
              then lift (shrink struc')
              else ret struc'
            else ret struc') ;;
         optimize_loop ff exe pstress path label clean adjust rest
                       struc'' (Some energy') time_total')%se
  end.

Definition optimize (struc : struc_arg) (ff : string)
  (optimizations : option (list string)) (exe : string)
  (pstress : option pyfloat) (path label : string) (clean adjust : bool)
  : SE world outcome :=
  let optimizations :=
    match optimizations with
    | None => ["conp"; "conp"]
    | Some l => l
    end in
  optimize_loop ff exe pstress path label clean adjust optimizations
                (Some struc) None (of_int 0).

End Drivers.

(* ================================================================== *)
(** * The IEEE 754 binary64 runtime

    CPython floats are binary64 numbers.  [float(s)] rounds the decimal it
    reads to the nearest float (ties to even); [format(x, ".<p>f")] prints
    the exact value of [x] rounded to [p] decimals (ties to even);
    [str(x)] is the shortest decimal that reads back as [x]. *)

Module Binary64.

Local Open Scope Z_scope.

(** [num / den] rounded to the nearest float, for positive [num], [den]. *)
Definition of_ratio (neg : bool) (num den : positive) : float :=
  SF2Prim (SFdiv prec emax (S754_finite neg num 0) (S754_finite false den 0)).

Definition signed_zero (neg : bool) : float :=
  if neg then (-0)%float else 0%float.

Definition of_decimal (neg : bool) (mant : N) (exp10 : Z) : float :=
  match mant with
  | N0 => signed_zero neg
  | Npos m =>
      if 0 <=? exp10 then of_ratio neg (m * Z.to_pos (10 ^ exp10)) 1
      else of_ratio neg m (Z.to_pos (10 ^ (- exp10)))
  end.

Definition of_literal (l : Py.float_literal) : float :=
  match l with
  | Py.LitNan => nan
  | Py.LitInf neg => if neg then neg_infinity else infinity
  | Py.LitDec neg mant exp10 => of_decimal neg mant exp10
  end.

Definition of_int (z : Z) : float :=
  match z with
  | Z0 => 0%float
  | Zpos p => of_ratio false p 1
  | Zneg p => of_ratio true p 1
  end.

(** [num / den] rounded to the nearest integer, ties to even. *)
Definition round_half_even (num den : Z) : Z :=
  let q := num / den in
  let r := num mod den in
  if (den <? 2 * r) || ((den =? 2 * r) && Z.odd q) then q + 1 else q.

(** The exact value [m * 2^e] of a finite float as a fraction. *)
Definition fraction (m : positive) (e : Z) : Z * Z :=
  if 0 <=? e then (Zpos m * 2 ^ e, 1) else (Zpos m, 2 ^ (- e)).

Definition digits (n : Z) : string := NilZero.string_of_uint (N.to_uint (Z.to_N n)).

Fixpoint zeros (n : nat) : string :=
  match n with
  | O => ""
  | S n' => String "0" (zeros n')
  end.

(** The digits of [n], at least [w] of them. *)
Definition zfill (w : nat) (n : Z) : string :=
  let d := digits n in
  (zeros (w - String.length d) ++ d)%string.

Definition minus (neg : bool) : string := if neg then "-" else "".

(** [format(x, ".<p>f")] *)
Definition format_f (p : nat) (x : float) : string :=
  match Prim2SF x with
  | S754_nan => "nan"
  | S754_infinity neg => (minus neg ++ "inf")%string
  | S754_zero neg =>
      (minus neg ++ "0" ++ match p with
                           | O => ""
                           | _ => "." ++ zeros p
                           end)%string
  | S754_finite neg m e =>
      let '(num, den) := fraction m e in
      let n := round_half_even (num * 10 ^ Z.of_nat p) den in
      let d := zfill (S p) n in
      let k := (String.length d - p)%nat in
      (minus neg ++ Py.take k d ++ match p with
                                   | O => ""
                                   | _ => "." ++ Py.drop k d
                                   end)%string
  end.

(** [10^k <= num / den] *)
Definition pow10_le (k num den : Z) : bool :=
  if 0 <=? k then 10 ^ k * den <=? num else den <=? num * 10 ^ (- k).

(** The exponent [k] with [10^k <= num / den < 10^(k+1)]: the estimate
    from the binary logarithms is off by at most two. *)
Definition log10_floor (num den : Z) : Z :=
  let k0 := (Z.log2 num - Z.log2 den) * 30103 / 100000 in
  let candidates := [k0 + 2; k0 + 1; k0; k0 - 1; k0 - 2] in
  match List.find (fun k => pow10_le k num den) candidates with
  | Some k => k
  | None => k0 - 3
  end.

(** [num / den] rounded to [n] significant digits: the digits as an
    integer and the exponent of the last one. *)
Definition round_sig (n : Z) (num den : Z) : Z * Z :=
  let k := log10_floor num den in
  let e := k - n + 1 in
  let d := if 0 <=? e then round_half_even num (den * 10 ^ e)
           else round_half_even (num * 10 ^ (- e)) den in
  if d =? 10 ^ n then (10 ^ (n - 1), e + 1) else (d, e).

(** The shortest digits that read back as [x], for a positive finite [x]
    with value [num / den]. *)
Fixpoint shortest (fuel : nat) (n : Z) (x : float) (num den : Z) : Z * Z :=
  let '(d, e) := round_sig n num den in
  match fuel with
  | O => (d, e)
  | S fuel' =>
      if PrimFloat.eqb (of_decimal false (Z.to_N d) e) x then (d, e)
      else shortest fuel' (n + 1) x num den
  end.

(** The layout of [repr]: positional when the decimal point falls within
    [-4 < decpt <= 16], with an exponent otherwise. *)
Definition repr_layout (d e : Z) : string :=
  let ds := digits d in
  let nd := Z.of_nat (String.length ds) in
  let decpt := nd + e in
  if (-4 <? decpt) && (decpt <=? 16) then
    if decpt <=? 0 then ("0." ++ zeros (Z.to_nat (- decpt)) ++ ds)%string
    else if nd <=? decpt then
      (ds ++ zeros (Z.to_nat (decpt - nd)) ++ ".0")%string
    else (Py.take (Z.to_nat decpt) ds ++ "." ++ Py.drop (Z.to_nat decpt) ds)
         %string
  else
    let x := decpt - 1 in
    (Py.take 1 ds
     ++ match Py.drop 1 ds with
        | "" => ""
        | rest => "." ++ rest
        end
     ++ "e" ++ (if (x <? 0)%Z then "-" else "+") ++ zfill 2 (Z.abs x))%string.

(** [str(x)] *)
Definition float_str (x : float) : string :=
  match Prim2SF x with
  | S754_nan => "nan"
  | S754_infinity neg => (minus neg ++ "inf")%string
  | S754_zero neg => (minus neg ++ "0.0")%string
  | S754_finite neg m e =>
      let '(num, den) := fraction m e in
      let '(d, e10) := shortest 17 1 (PrimFloat.abs x) num den in
      (minus neg ++ repr_layout d e10)%string
  end.

(** [np.array] on a list of rows: the rows must have one length. *)
Definition np_array (rows : list (list float)) : result (list (list float)) :=
  match rows with
  | [] => Ok rows
  | r :: rest =>
      if forallb (fun r' => (length r' =? length r)%nat) rest then Ok rows
      else Raise ValueError
  end.

(** The first occurrences of the elements of [l]: one order in which a
    set may enumerate them. *)
Fixpoint first_seen (seen l : list string) : list string :=
  match l with
  | [] => []
  | x :: l' =>
      if existsb (String.eqb x) seen then first_seen seen l'
      else x :: first_seen (x :: seen) l'
  end.

End Binary64.

(** The runtime whose sets enumerate their elements in the order
    [order]. *)
Definition binary64_with (order : list string -> list string) : Runtime := {|
  pyfloat := float;
  of_literal := Binary64.of_literal;
  of_int := Binary64.of_int;
  fneg := PrimFloat.opp;
  fabs := PrimFloat.abs;
  fadd := PrimFloat.add;
  fmul := PrimFloat.mul;
  fdiv := PrimFloat.div;
  flt := PrimFloat.ltb;
  is_zero := fun x => PrimFloat.eqb x 0%float;
  isnan := PrimFloat.is_nan;
  format_f := Binary64.format_f;
  float_str := Binary64.float_str;
  np_degrees := fun x =>
    PrimFloat.mul x (Binary64.of_decimal false 5729577951308232 (-14));
  np_array := Binary64.np_array;
  eV := 1%float;
  Ang := 1%float;
  set_list := order
|}.

#[export] Instance binary64 : Runtime :=
  binary64_with (Binary64.first_seen []).

(* ================================================================== *)
(** * A PyXtal library for cells with right angles *)

Module OrthoCell.

(** Modelled from the spec: [pyxtal.lattice.Lattice] is imported by
    [gulp.py] and not defined in it.  The spec describes a lattice as
    "either 3x3 matrix or a,b,c,alpha,beta,gamma"; this lattice keeps
    both, with the cell type.  Angles are in degrees. *)
Record lattice : Type := {
  l_para : para (RT := binary64);
  l_matrix : matrix (RT := binary64);
  l_ltype : string
}.

Definition norm (row : list float) : float :=
  PrimFloat.sqrt (fold_left (fun acc x => (acc + x * x)%float) row 0%float).

(** Modelled from the spec: the conversion between the two forms of a
    lattice, for cell vectors at right angles (the cells of the examples
    below); the lengths are the norms of the rows. *)
Definition para_of_matrix (m : matrix (RT := binary64))
  : para (RT := binary64) :=
  match m with
  | [r0; r1; r2] => (norm r0, norm r1, norm r2, 90%float, 90%float, 90%float)
  | _ => (0%float, 0%float, 0%float, 90%float, 90%float, 90%float)
  end.

Definition matrix_of_para (p : para (RT := binary64))
  : matrix (RT := binary64) :=
  let '(a, b, c, _, _, _) := p in
  [[a; 0%float; 0%float]; [0%float; b; 0%float]; [0%float; 0%float; c]].

Definition from_matrix (m : matrix (RT := binary64)) (ltype : option string)
  : result lattice :=
  Ok {| l_para := para_of_matrix m;
        l_matrix := m;
        l_ltype := match ltype with
                   | Some t => t
                   | None => "triclinic"
                   end |}.

Definition from_para (p : para (RT := binary64)) (ltype : string)
  : result lattice :=
  Ok {| l_para := p; l_matrix := matrix_of_para p; l_ltype := ltype |}.

(** [np.radians] *)
Definition radians (x : float) : float :=
  (x * Binary64.of_decimal false 17453292519943295 (-18))%float.

Definition in_radians (l : lattice) : para (RT := binary64) :=
  let '(a, b, c, alpha, beta, gamma) := l_para l in
  (a, b, c, radians alpha, radians beta, radians gamma).

(** Modelled from the spec: an atomic site of a [pyxtal] structure, "each
    with species symbol, fractional coordinate triple"; [update] stores
    the new position. *)
Record site : Type := {
  specie : string;
  position : list float
}.

Definition update (s : site) (XYZ : list float) : result site :=
  Ok {| specie := specie s; position := XYZ |}.

End OrthoCell.

Definition ortho_cell_with (order : list string -> list string)
  : PyxtalLib (RT := binary64_with order) :=
  @Build_PyxtalLib (binary64_with order)
    OrthoCell.lattice
    OrthoCell.from_matrix
    OrthoCell.from_para
    OrthoCell.l_para
    OrthoCell.in_radians
    OrthoCell.l_matrix
    OrthoCell.l_ltype
    (fun l t =>
       {| OrthoCell.l_para := OrthoCell.l_para l;
          OrthoCell.l_matrix := OrthoCell.l_matrix l;
          OrthoCell.l_ltype := t |})
    (fun l m =>
       {| OrthoCell.l_para := OrthoCell.para_of_matrix m;
          OrthoCell.l_matrix := m;
          OrthoCell.l_ltype := OrthoCell.l_ltype l |})
    OrthoCell.site
    OrthoCell.specie
    OrthoCell.position
    OrthoCell.update.

#[export] Instance ortho_cell : PyxtalLib (RT := binary64) :=
  ortho_cell_with (Binary64.first_seen []).

(* ================================================================== *)
(** * Observations used by the properties *)

Section Observations.
Context {RT : Runtime} {PX : PyxtalLib}.

(** [ltype] as [read] computes it before the loop. *)
Definition ltype_of (g : GULP.t) : string :=
  match GULP.pyxtal g with
  | Some px => lat_ltype (px_lattice px)
  | None => "triclinic"
  end.

(** The loop of [GULP.read] alone, on the text of the log: whether it
    raised, and the frame it left (the [try] block of the source). *)
Definition scanned (g : GULP.t) (text : string) : result unit * GULP.frame :=
  GULP.scan (ltype_of g) (Py.readlines text)
            {| GULP.self := g;
               GULP.lattice_para := None;
               GULP.lattice_vector := None |}.

(** [self] when [read] is over. *)
Definition after_read (g : GULP.t) (text : string) : GULP.t :=
  snd (GULP.read text g).

(** No lattice block was recovered by the loop. *)
Definition no_lattice (fr : GULP.frame) : bool :=
  match GULP.lattice_para fr, GULP.lattice_vector fr with
  | None, None => true
  | _, _ => false
  end.

(** The energy is absent or NaN. *)
Definition no_energy (g : GULP.t) : bool :=
  match GULP.energy g with
  | None => true
  | Some e => isnan e
  end.

(** The statements of [read] after the loop, as a function of the frame
    the loop left and of whether it raised. *)
Definition resolve (raised : bool) (fr : GULP.frame) : GULP.t :=
  let g1 := if raised then GULP.fail_energy (GULP.self fr) else GULP.self fr in
  let g2 :=
    match GULP.lattice_para fr, GULP.lattice_vector fr with
    | Some l, _ => GULP.set_lattice l g1
    | None, Some l => GULP.set_lattice l g1
    | None, None => GULP.fail_energy g1
    end in
  let g3 :=
    match GULP.pyxtal g2 with
    | Some px =>
        GULP.set_pyxtal (Some (px_set_lattice (GULP.lattice g2) px)) g2
    | None => g2
    end in
  if no_energy g3 then GULP.fail_energy g3 else g3.

(** A computation leaves an observation [p] of the state as it was. *)
Definition keeps {S A V} (p : S -> V) (m : SE S A) : Prop :=
  forall s, p (snd (m s)) = p s.

(** [sub] occurs in [s]. *)
Definition occurs (sub s : string) : Prop :=
  exists a b, s = a ++ sub ++ b.

End Observations.

(** ** Inputs of the examples *)

(** A cubic cell of 5 Angstrom with one carbon atom at the origin. *)
Definition carbon_cell : Atoms (RT := binary64) :=
  {| cell := [[5; 0; 0]; [0; 5; 0]; [0; 0; 5]]%float;
     scaled_positions := [[0; 0; 0]]%float;
     chemical_symbols := ["C"] |}.

(** [GULP(struc, opt=..., ff=...)] with the other arguments at their
    defaults. *)
Definition new_GULP (struc : struc_arg) (opt ff : string)
  : result GULP.t :=
  GULP.init struc "_" "tmp" ff None opt 1000 "gulp" "gulp.in" "gulp.log"
            None false None 3600.

(** The calculator of the example runs, as [new_GULP] builds it. *)
Definition carbon_calc : GULP.t :=
  {| GULP.cfg :=
       {| GULP.sites := ["C"];
          GULP.species := None;
          GULP.symmetry := false;
          GULP.structure := carbon_cell;
          GULP.pstress := None;
          GULP.label := "_";
          GULP.labels := None;
          GULP.ff := "tersoff.lib";
          GULP.opt := "conp";
          GULP.exe := "gulp";
          GULP.steps := 1000;
          GULP.folder := "tmp";
          GULP.input := "_gulp.in";
          GULP.output := "_gulp.log";
          GULP.dump := None;
          GULP.timeout := 3600 |};
     GULP.pyxtal := None;
     GULP.lattice :=
       {| OrthoCell.l_para := (5, 5, 5, 90, 90, 90)%float;
          OrthoCell.l_matrix := [[5; 0; 0]; [0; 5; 0]; [0; 0; 5]]%float;
          OrthoCell.l_ltype := "triclinic" |};
     GULP.frac_coords := [[0; 0; 0]]%float;
     GULP.iter := 0;
     GULP.energy := None;
     GULP.energy_per_atom := None;
     GULP.stress := None;
     GULP.forces := None;
     GULP.positions := None;
     GULP.optimized := false;
     GULP.cputime := 0%float;
     GULP.error := false |}.

Definition energy_line : string :=
  "  Total lattice energy       =         -39.28242634 eV
".

Definition coordinates_header : string :=
  "  Final fractional coordinates of atoms :

--------------------------------------------------------------------------------
   No.  Atomic        x           y          z          Radius
        Label       (Frac)      (Frac)     (Frac)       (Angs)
--------------------------------------------------------------------------------
".

Definition coordinates_row : string :=
  "     1  C     c     0.000000    0.000000    0.000000    0.000000
".

Definition dashes : string :=
  "--------------------------------------------------------------------------------
".

Definition vectors_block : string :=
  "  Final Cartesian lattice vectors (Angstroms) :

        5.000000    0.000000    0.000000
        0.000000    5.000000    0.000000
        0.000000    0.000000    5.000000
".

Definition parameters_block : string :=
  "  Non-primitive lattice parameters :

  a    =     6.000000  b   =     6.000000  c    =     6.000000
  alpha=  90.000000  beta=  90.000000  gamma=  90.000000
".

Definition closing_lines : string :=
  "  Total CPU time  0.0123
  Job Finished at 10:00
".

(** A log with energy, coordinates and lattice vectors that stops before
    the line [Job Finished]. *)
Definition log_without_marker : string :=
  energy_line ++ coordinates_header ++ coordinates_row ++ dashes
  ++ vectors_block.

(** The same log, complete. *)
Definition log_finished : string := log_without_marker ++ closing_lines.

(** A log cut inside the block of fractional coordinates: no dashed line
    follows the rows. *)
Definition log_truncated : string :=
  energy_line ++ vectors_block ++ coordinates_header ++ coordinates_row.

(** A log whose energy is infinite. *)
Definition log_infinite : string :=
  "  Total lattice energy       =         inf eV
" ++ vectors_block ++ closing_lines.

(** The block of lattice vectors of a cubic cell of 6 Angstrom, and a
    finished log with coordinates and this block. *)
Definition vectors_block_6 : string :=
  "  Final Cartesian lattice vectors (Angstroms) :

        6.000000    0.000000    0.000000
        0.000000    6.000000    0.000000
        0.000000    0.000000    6.000000
".

Definition log_finished_6 : string :=
  energy_line ++ coordinates_header ++ coordinates_row ++ dashes
  ++ vectors_block_6 ++ closing_lines.

(** A log with both lattice blocks. *)
Definition log_both_lattices : string :=
  energy_line ++ vectors_block ++ parameters_block ++ closing_lines.

(** A log whose CPU time is not a number. *)
Definition log_bad_time : string :=
  energy_line ++ "  Total CPU time  ******
" ++ closing_lines.

(** A molecular crystal: the same cell with one molecule made of one
    carbon atom, labelled [lab] by the force field tool. *)
Definition carbon_site (lab : string) : GULP_OC.mol_site (RT := binary64) :=
  {| GULP_OC.coords_first := [[0; 0; 0]]%float;
     GULP_OC.species_string := ["C"];
     GULP_OC.gmx_label := Some [lab];
     GULP_OC.charge := Some [0%float];
     GULP_OC.type := 0;
     GULP_OC.wp_ops :=
       [{| GULP_OC.rotation_matrix := [[1; 0; 0]; [0; 1; 0]; [0; 0; 1]]%float;
           GULP_OC.translation_vector := [0; 0; 0]%float |}];
     GULP_OC.wp_len := 1;
     GULP_OC.bonds := [];
     GULP_OC.mol_len := 1 |}.

Definition carbon_crystal (lab : string) : GULP_OC.crystal :=
  {| GULP_OC.lattice := GULP.lattice carbon_calc;
     GULP_OC.mol_sites := [carbon_site lab];
     GULP_OC.group_lattice_type := "cubic";
     GULP_OC.energy := None |}.

(** [GULP_OC(struc)] with the other arguments at their defaults, in an
    empty environment. *)
Definition new_GULP_OC (struc : GULP_OC.crystal) : GULP_OC.t :=
  GULP_OC.init [] struc "_" "gaff2" false "conp" 1000
               (Binary64.of_decimal false 1 (-3)) "gulp" None
               "gulp.in" "gulp.log" None ".".

(** Modelled from the spec: [mol_site.update] and
    [structure.optimize_lattice] are methods of PyXtal, not of [gulp.py];
    the spec has the parsed coordinates folded "back into the structure
    (updating site positions/lattice in place)".  Here the site takes
    the coordinates and the lattice is left as it is. *)
Definition store_coords (site : GULP_OC.mol_site (RT := binary64))
  (coords : list (list float)) (lat : OrthoCell.lattice)
  : result GULP_OC.mol_site :=
  Ok {| GULP_OC.coords_first := coords;
        GULP_OC.species_string := GULP_OC.species_string site;
        GULP_OC.gmx_label := GULP_OC.gmx_label site;
        GULP_OC.charge := GULP_OC.charge site;
        GULP_OC.type := GULP_OC.type site;
        GULP_OC.wp_ops := GULP_OC.wp_ops site;
        GULP_OC.wp_len := GULP_OC.wp_len site;
        GULP_OC.bonds := GULP_OC.bonds site;
        GULP_OC.mol_len := GULP_OC.mol_len site |}.

Definition keep_lattice (s : GULP_OC.crystal) : result GULP_OC.crystal :=
  Ok s.

(** A shell that runs nothing, and the empty folder. *)
Definition no_shell : shell := fun _ files => files.

Definition empty_world : world := {| fs := []; commands := [] |}.

(** ** Well-formed molecular sites *)

Section MolecularObservations.
Context {RT : Runtime} {PX : PyxtalLib}.

(** The labels and the charges of a site cover its atoms, and every atom
    has three coordinates. *)
Definition site_ok (g : GULP_OC.t) (site : GULP_OC.mol_site) : Prop :=
  exists labels charges,
    GULP_OC.labels_charges g site = Ok (labels, charges)
    /\ length (GULP_OC.coords_first site)
       <= length (GULP_OC.species_string site)
    /\ length (GULP_OC.coords_first site) <= length labels
    /\ length (GULP_OC.coords_first site) <= length charges
    /\ Forall (fun c => 3 <= length c) (GULP_OC.coords_first site).

(** Atom [j] of the site has the force-field key [symbol]. *)
Definition has_symbol (g : GULP_OC.t) (site : GULP_OC.mol_site) (j : nat)
  (symbol : string) : Prop :=
  exists labels charges,
    GULP_OC.labels_charges g site = Ok (labels, charges)
    /\ j < length (GULP_OC.coords_first site)
    /\ GULP_OC.atom_symbol site labels j = Ok symbol.

End MolecularObservations.

(** The cubic lattice of the examples. *)
Definition cubic5 : OrthoCell.lattice :=
  {| OrthoCell.l_para := (5, 5, 5, 90, 90, 90)%float;
     OrthoCell.l_matrix := [[5; 0; 0]; [0; 5; 0]; [0; 0; 5]]%float;
     OrthoCell.l_ltype := "triclinic" |}.

(** Magnesium oxide in the same cell: one Mg and one O. *)
Definition oxide_cell : Atoms (RT := binary64) :=
  {| cell := [[5; 0; 0]; [0; 5; 0]; [0; 0; 5]]%float;
     scaled_positions := [[0; 0; 0]; [0.5; 0.5; 0.5]]%float;
     chemical_symbols := ["Mg"; "O"] |}.

Definition oxide_pyxtal : pyxtal_obj (RT := binary64) :=
  {| px_lattice := cubic5;
     px_group_symbol := "Fm-3m";
     px_group_number := 225;
     px_atom_sites :=
       [{| OrthoCell.specie := "Mg"; OrthoCell.position := [0; 0; 0]%float |};
        {| OrthoCell.specie := "O";
           OrthoCell.position := [0.5; 0.5; 0.5]%float |}];
     px_species := ["Mg"; "O"];
     px_to_ase := oxide_cell |}.

(** [GULP(struc, ff="catlow", symmetry=...)]: the calculator for the
    shell-model force field, as [__init__] builds it from [oxide_cell]
    or from [oxide_pyxtal]. *)
Definition oxide_calc (from_pyxtal symmetry : bool) : GULP.t :=
  {| GULP.cfg :=
       {| GULP.sites := ["Mg"; "O"];
          GULP.species := None;
          GULP.symmetry := symmetry;
          GULP.structure := oxide_cell;
          GULP.pstress := None;
          GULP.label := "_";
          GULP.labels := None;
          GULP.ff := "catlow";
          GULP.opt := "conp";
          GULP.exe := "gulp";
          GULP.steps := 1000;
          GULP.folder := "tmp";
          GULP.input := "_gulp.in";
          GULP.output := "_gulp.log";
          GULP.dump := None;
          GULP.timeout := 3600 |};
     GULP.pyxtal := if from_pyxtal then Some oxide_pyxtal else None;
     GULP.lattice := cubic5;
     GULP.frac_coords := [[0; 0; 0]; [0.5; 0.5; 0.5]]%float;
     GULP.iter := 0;
     GULP.energy := None;
     GULP.energy_per_atom := None;
     GULP.stress := None;
     GULP.forces := None;
     GULP.positions := None;
     GULP.optimized := false;
     GULP.cputime := 0%float;
     GULP.error := false |}.

(** The deck that [GULP(atoms, ff="catlow").write()] leaves for the oxide
    in a runtime whose sets enumerate in the order [order]. *)
Definition oxide_deck_in (order : list string -> list string)
  : result unit * string :=
  match
    GULP.init (RT := binary64_with order) (PX := ortho_cell_with order)
      (IsAtoms (@Build_Atoms (binary64_with order)
                  [[5; 0; 0]; [0; 5; 0]; [0; 0; 5]]%float
                  [[0; 0; 0]; [0.5; 0.5; 0.5]]%float
                  ["Mg"; "O"]))
      "_" "tmp" "catlow" None "conp" 1000 "gulp" "gulp.in" "gulp.log"
      None false None 3600
  with
  | Ok g => GULP.deck g
  | Raise e => (Raise e, "")
  end.

(** An enumeration order other than that of the first occurrences. *)
Definition last_first (l : list string) : list string :=
  rev (Binary64.first_seen [] l).

(** The concatenation of a list of texts. *)
Fixpoint join (l : list string) : string :=
  match l with
  | [] => ""
  | s :: l' => s ++ join l'
  end.

(** The cell line of the single-point scenario: six fields of twelve
    characters. *)
Definition cell_line_5_90 : string :=
  "    5.000000    5.000000    5.000000   90.000000   90.000000   90.000000".

(** The cell line as the scenario of the specification prints it. *)
Definition cell_line_spec : string :=
  "5.000000  5.000000  5.000000  90.000000  90.000000  90.000000".

(** The line of the molecular section "Species" for a registered key. *)
Definition species_text (symbol : string) : string :=
  match dict_get at_types symbol with
  | Some code =>
      Py.ljust 4 code ++ " core " ++ Py.ljust 4 symbol ++ GULP_OC.nl
  | None => ""
  end.

(** ** The coordinate block of the inorganic deck *)

Section CoordinateBlock.
Context {RT : Runtime} {PX : PyxtalLib}.

(** The text of one coordinate line; empty when the site has fewer than
    three coordinates and the formatting raises. *)
Definition line_text (symbol : string) (coord : list pyfloat) (kind : string)
  : string :=
  match GULP.coord_line symbol coord kind with
  | Ok l => l
  | Raise _ => ""
  end.

(** What the symmetry branch writes for one site of the asymmetric unit. *)
Definition site_text (g : GULP.t) (site : atom_site) : string :=
  line_text (site_specie site) (site_position site) "core"
  ++ (if (GULP.ff (GULP.cfg g) =? "catlow") && (site_specie site =? "O")
      then line_text (site_specie site) (site_position site) "shell"
      else "").

End CoordinateBlock.

(** ** Tokens of the derivative block *)

(** A token without a minus sign after its first character. *)
Definition unmerged (s : string) : Prop := GULP.min_index s = [].

(** A number that cannot have been merged with what follows: not empty,
    and no minus sign after its first character. *)
Definition plain_number (s : string) : Prop := s <> "" /\ unmerged s.

(** A negative number: a minus sign, then no other minus sign. *)
Definition negative_number (s : string) : Prop :=
  exists digits, s = String "-" digits /\ unmerged s.

(** The block of the stress tensor, and a row of derivatives whose
    second and third numbers ran together. *)
Definition stress_text : string :=
  "  Final stress tensor components (kBar):

-------------------------------------------------------------------------------
       xx        1.500000    yz        0.250000
       yy        2.500000    xz       -0.500000
       zz        3.500000    xy        0.750000
-------------------------------------------------------------------------------
".

(** The two lattice blocks that the loop of [GULP.read] recovered. *)
Definition lattice_blocks {RT : Runtime} {PX : PyxtalLib} (fr : GULP.frame)
  : option Lattice * option Lattice :=
  (GULP.lattice_para fr, GULP.lattice_vector fr).

(** The energy and the energy per atom of a calculator. *)
Definition energies {RT : Runtime} {PX : PyxtalLib} (g : GULP.t)
  : option pyfloat * option pyfloat :=
  (GULP.energy g, GULP.energy_per_atom g).

(** A molecule of one atom of the element [element] with the label
    [lab], and the crystal made of it. *)
Definition atom_site_of (element lab : string)
  : GULP_OC.mol_site (RT := binary64) :=
  {| GULP_OC.coords_first := [[0; 0; 0]]%float;
     GULP_OC.species_string := [element];
     GULP_OC.gmx_label := Some [lab];
     GULP_OC.charge := Some [0%float];
     GULP_OC.type := 0;
     GULP_OC.wp_ops :=
       [{| GULP_OC.rotation_matrix := [[1; 0; 0]; [0; 1; 0]; [0; 0; 1]]%float;
           GULP_OC.translation_vector := [0; 0; 0]%float |}];
     GULP_OC.wp_len := 1;
     GULP_OC.bonds := [];
     GULP_OC.mol_len := 1 |}.

Definition crystal_of (sites : list GULP_OC.mol_site) : GULP_OC.crystal :=
  {| GULP_OC.lattice := cubic5;
     GULP_OC.mol_sites := sites;
     GULP_OC.group_lattice_type := "cubic";
     GULP_OC.energy := None |}.

(** The molecular sites of the structure of a calculator. *)
Definition sites_of {RT : Runtime} {PX : PyxtalLib} (g : GULP_OC.t)
  : list GULP_OC.mol_site :=
  GULP_OC.mol_sites (GULP_OC.structure g).

(** [Atoms(symbols, scaled_positions=..., cell=...)] on well-formed
    arguments, and a [from_seed] that raises at every tolerance. *)
Definition atoms_of (symbols : list string) (positions : list (list float))
  (cell : list (list float)) : result (Atoms (RT := binary64)) :=
  Ok {| cell := cell;
        scaled_positions := positions;
        chemical_symbols := symbols |}.

Definition seed_always_fails (a : Atoms (RT := binary64)) (tol : float)
  : pyxtal_obj * bool :=
  (oxide_pyxtal, true).

(** The rows of a block of derivatives: one row with its three numbers
    apart, one with the three run together, then the dashed line. *)
Definition derivative_rows : list string :=
  Py.readlines
    ("      1 C     c       0.500000     -1.250000     -3.000000
      2 C     c       0.500000-1.250000-3.000000
" ++ dashes).

Definition derivative_forces : list (list float) :=
  Eval vm_compute in
    match GULP.force_rows (RT := binary64) derivative_rows with
    | Ok forces => forces
    | Raise _ => []
    end.

(** A shell that leaves [log] under the name [_gulp.log]. *)
Definition shell_writing (log : string) : shell :=
  fun _ files => file_put "_gulp.log" log files.

(** A writer that returns normally from every state. *)
Definition returns {S : Type} (m : SE S unit) : Prop :=
  forall s, fst (m s) = Ok tt.

(* ================================================================== *)
(** * Properties *)

(** ** What a computation leaves unchanged *)

Section Keeps.
Context {S V : Type} (p : S -> V).

Lemma keeps_ret {A} (a : A) : keeps p (ret a).
Proof. intro s. reflexivity. Qed.

Lemma keeps_raise {A} (e : exn) : keeps p (@raise S A e).
Proof. intro s. reflexivity. Qed.

Lemma keeps_lift {A} (r : result A) : keeps p (lift r).
Proof. intro s. reflexivity. Qed.

Lemma keeps_get : keeps p get.
Proof. intro s. reflexivity. Qed.

Lemma keeps_modify (f : S -> S) :
  (forall s, p (f s) = p s) -> keeps p (modify f).
Proof. intros H s. apply H. Qed.

Lemma keeps_bind {A B} (m : SE S A) (k : A -> SE S B) :
  keeps p m -> (forall a, keeps p (k a)) -> keeps p (bind m k).
Proof.
  intros Hm Hk s. unfold bind.
  specialize (Hm s). destruct (m s) as [[a | e] s']; simpl in *.
  - rewrite Hk. exact Hm.
  - exact Hm.
Qed.

Lemma keeps_for_each {A} (l : list A) (body : A -> SE S unit) :
  (forall x, keeps p (body x)) -> keeps p (for_each l body).
Proof.
  intros H. induction l as [| x l IH]; simpl.
  - apply keeps_ret.
  - apply keeps_bind; [apply H | intros _; exact IH].
Qed.

Lemma keeps_try_except {A} (m h : SE S A) :
  keeps p m -> keeps p h -> keeps p (try_except m h).
Proof.
  intros Hm Hh s. unfold try_except.
  specialize (Hm s). destruct (m s) as [[a | e] s']; simpl in *.
  - exact Hm.
  - rewrite Hh. exact Hm.
Qed.

End Keeps.

(** ** The loop of [GULP.read] *)

Section ScanProperties.
Context {RT : Runtime} {PX : PyxtalLib}.

Lemma keeps_get_self {V} (p : GULP.frame -> V) : keeps p GULP.get_self.
Proof. intro s. reflexivity. Qed.

Lemma keeps_on_self {V} (q : GULP.t -> V) (f : GULP.t -> GULP.t) :
  (forall g, q (f g) = q g) ->
  keeps (fun fr => q (GULP.self fr)) (GULP.on_self f).
Proof. intros H fr. simpl. apply H. Qed.

Lemma keeps_set_lattice_para {V} (q : GULP.t -> V) (l : Lattice) :
  keeps (fun fr => q (GULP.self fr)) (GULP.set_lattice_para l).
Proof. intro fr. reflexivity. Qed.

Lemma keeps_set_lattice_vector {V} (q : GULP.t -> V) (l : Lattice) :
  keeps (fun fr => q (GULP.self fr)) (GULP.set_lattice_vector l).
Proof. intro fr. reflexivity. Qed.

(** One step of the syntactic proof that a computation of [read] keeps a
    field of [self]; [field_tac] proves that a setter keeps the field. *)
Ltac keeps_step field_tac :=
  lazymatch goal with
  | |- keeps _ (bind _ _) => apply keeps_bind; [| intro]
  | |- keeps _ (ret _) => apply keeps_ret
  | |- keeps _ (raise _) => apply keeps_raise
  | |- keeps _ (lift _) => apply keeps_lift
  | |- keeps _ get => apply keeps_get
  | |- keeps _ GULP.get_self => apply keeps_get_self
  | |- keeps _ (GULP.set_lattice_para _) => apply keeps_set_lattice_para
  | |- keeps _ (GULP.set_lattice_vector _) => apply keeps_set_lattice_vector
  | |- keeps _ (GULP.on_self _) => apply keeps_on_self; field_tac
  | |- keeps _ (for_each _ _) => apply keeps_for_each; intro
  | |- keeps _ (if ?b then _ else _) => destruct b
  | |- keeps _ (match ?x with _ => _ end) => destruct x
  end.

Ltac by_cases_on_self := intros []; reflexivity.

Lemma asym_step_keeps {V} (q : GULP.t -> V) lines s i :
  (forall v g, q (GULP.set_pyxtal v g) = q g) ->
  keeps (fun fr => q (GULP.self fr)) (GULP.asym_step lines s i).
Proof.
  intros Hq. unfold GULP.asym_step.
  repeat keeps_step ltac:(intro; apply Hq).
Qed.

(** A field that the setters of the loop other than its own leave alone
    is kept by every line that does not reach its own setter. *)
Lemma scan_line_keeps_error ltype lines i line :
  keeps (fun fr => GULP.error (GULP.self fr))
        (GULP.scan_line ltype lines i line).
Proof.
  unfold GULP.scan_line.
  repeat first [ apply asym_step_keeps; intros ? []; reflexivity
               | keeps_step by_cases_on_self ].
Qed.

Lemma scan_line_keeps_lattice ltype lines i line :
  keeps (fun fr => GULP.lattice (GULP.self fr))
        (GULP.scan_line ltype lines i line).
Proof.
  unfold GULP.scan_line.
  repeat first [ apply asym_step_keeps; intros ? []; reflexivity
               | keeps_step by_cases_on_self ].
Qed.

Lemma scan_line_keeps_optimized ltype lines i line :
  Py.contains line "Job Finished" = false ->
  keeps (fun fr => GULP.optimized (GULP.self fr))
        (GULP.scan_line ltype lines i line).
Proof.
  intros Hline. unfold GULP.scan_line.
  apply keeps_bind; [apply keeps_get_self | intro g].
  apply keeps_bind; [apply keeps_lift | intros [group1 |]].
  - repeat keeps_step by_cases_on_self.
  - rewrite Hline.
    repeat first [ apply asym_step_keeps; intros ? []; reflexivity
                 | keeps_step by_cases_on_self ].
Qed.

Lemma scan_from_keeps {V} (q : GULP.t -> V) ltype lines rest :
  (forall i line, In line rest ->
     keeps (fun fr => q (GULP.self fr)) (GULP.scan_line ltype lines i line)) ->
  forall i, keeps (fun fr => q (GULP.self fr))
                  (GULP.scan_from ltype lines i rest).
Proof.
  induction rest as [| line rest IH]; intros H i; simpl.
  - apply keeps_ret.
  - apply keeps_bind.
    + apply H. now left.
    + intros _. apply IH. intros j l Hl. apply H. now right.
Qed.

Lemma scanned_error g text :
  GULP.error (GULP.self (snd (scanned g text))) = GULP.error g.
Proof.
  unfold scanned, GULP.scan.
  apply (scan_from_keeps GULP.error).
  intros. apply scan_line_keeps_error.
Qed.

Lemma scanned_lattice g text :
  GULP.lattice (GULP.self (snd (scanned g text))) = GULP.lattice g.
Proof.
  unfold scanned, GULP.scan.
  apply (scan_from_keeps GULP.lattice).
  intros. apply scan_line_keeps_lattice.
Qed.

(** [read] never raises: it is the resolution of what the loop left. *)
Lemma read_resolve g text :
  GULP.read text g
  = (Ok tt, resolve (raises (fst (scanned g text))) (snd (scanned g text))).
Proof.
  unfold GULP.read, scanned, ltype_of.
  destruct (GULP.scan _ _ _) as [r fr] eqn:Hscan.
  unfold GULP.read_lines, resolve, no_energy, bind, try_except, get,
    GULP.get_self, GULP.on_self, modify, ret.
  rewrite Hscan. simpl.
  destruct r as [[] | e]; simpl;
    destruct (GULP.lattice_para fr), (GULP.lattice_vector fr); simpl;
    repeat match goal with
           | |- context [match GULP.pyxtal ?g with _ => _ end] =>
               destruct (GULP.pyxtal g); simpl
           | |- context [match GULP.energy ?g with _ => _ end] =>
               destruct (GULP.energy g); simpl
           | |- context [if isnan ?e then _ else _] =>
               destruct (isnan e); simpl
           end; reflexivity.
Qed.

End ScanProperties.

(** ** The parser of the inorganic variant *)

Section ReadTheorems.
Context {RT : Runtime} {PX : PyxtalLib}.

Lemma read_returns g text : fst (GULP.read text g) = Ok tt.
Proof. rewrite read_resolve. reflexivity. Qed.

Lemma after_read_resolve g text :
  after_read g text
  = resolve (raises (fst (scanned g text))) (snd (scanned g text)).
Proof. unfold after_read. rewrite read_resolve. reflexivity. Qed.

(** The fields of [self] after the statements that follow the loop. *)
Lemma resolve_lattice raised fr :
  GULP.lattice (resolve raised fr)
  = match GULP.lattice_para fr, GULP.lattice_vector fr with
    | Some l, _ => l
    | None, Some l => l
    | None, None => GULP.lattice (GULP.self fr)
    end.
Proof.
  unfold resolve, no_energy.
  destruct (GULP.self fr) as [c p l fc it e ea st fo po o ct er].
  destruct raised, (GULP.lattice_para fr), (GULP.lattice_vector fr), p, e;
    simpl; try destruct (isnan _); reflexivity.
Qed.

Lemma resolve_error raised fr :
  GULP.error (resolve raised fr)
  = GULP.error (GULP.self fr) || raised || no_lattice fr
    || no_energy (GULP.self fr).
Proof.
  unfold resolve, no_energy, no_lattice.
  destruct (GULP.self fr) as [c p l fc it e ea st fo po o ct er].
  destruct raised, (GULP.lattice_para fr), (GULP.lattice_vector fr), p, e;
    simpl; try destruct (isnan _); simpl;
    rewrite ?orb_true_r, ?orb_false_r; reflexivity.
Qed.

Lemma resolve_energy raised fr :
  GULP.energy (resolve raised fr)
  = if raised || no_lattice fr || no_energy (GULP.self fr) then None
    else GULP.energy (GULP.self fr).
Proof.
  unfold resolve, no_energy, no_lattice.
  destruct (GULP.self fr) as [c p l fc it e ea st fo po o ct er].
  destruct raised, (GULP.lattice_para fr), (GULP.lattice_vector fr), p, e;
    simpl; try destruct (isnan _) eqn:Hnan; simpl; try rewrite Hnan;
    reflexivity.
Qed.


(** C1, inorganic variant. Whatever exception the loop of [GULP.read]
    raises on a log, [read] returns normally with the error flag set and
    the energy cleared. *)
Theorem read_catches_every_exception g text e :
  fst (scanned g text) = Raise e ->
  fst (GULP.read text g) = Ok tt
  /\ GULP.error (after_read g text) = true
  /\ GULP.energy (after_read g text) = None.
Proof.
  intros Hraise. split; [apply read_returns |].
  rewrite after_read_resolve, resolve_error, resolve_energy, Hraise.
  simpl. rewrite orb_true_r. split; reflexivity.
Qed.

(** C4. After [GULP.read] on a calculator whose error flag was not set
    (as [__init__] leaves it), the error flag is set exactly when the
    energy is [None], and with the flag unset the energy is a number
    that is not NaN. *)
Theorem energy_agrees_with_error g text :
  GULP.error g = false ->
  (GULP.error (after_read g text) = true
   <-> GULP.energy (after_read g text) = None)
  /\ (GULP.error (after_read g text) = false ->
      exists e, GULP.energy (after_read g text) = Some e /\ isnan e = false).
Proof.
  intros Hfresh.
  rewrite after_read_resolve, resolve_error, resolve_energy, scanned_error,
    Hfresh.
  simpl.
  destruct (raises _ || no_lattice _ || no_energy _) eqn:Hfail.
  - split; [split; reflexivity | discriminate].
  - apply orb_false_elim in Hfail. destruct Hfail as [_ Hen].
    unfold no_energy in Hen.
    destruct (GULP.energy (GULP.self (snd (scanned g text)))) as [e |];
      [| discriminate].
    split; [split; discriminate |].
    intros _. exists e. split; [reflexivity | exact Hen].
Qed.

End ReadTheorems.

(** A log cut inside the coordinate block makes the loop raise
    [IndexError]; [read] returns with the error flag. *)
Lemma read_catches_every_exception_witness :
  fst (scanned carbon_calc log_truncated) = Raise IndexError
  /\ (fst (GULP.read log_truncated carbon_calc) = Ok tt
      /\ GULP.error (after_read carbon_calc log_truncated) = true
      /\ GULP.energy (after_read carbon_calc log_truncated) = None).
Proof.
  split.
  - vm_compute. reflexivity.
  - apply (read_catches_every_exception carbon_calc log_truncated IndexError).
    vm_compute. reflexivity.
Defined.

(** C1, molecular variant. [GULP_OC.read] has no handler around its loop:
    the same truncated log makes it raise [IndexError]. *)
Lemma molecular_read_raises :
  fst (GULP_OC.read store_coords keep_lattice log_truncated
                    (new_GULP_OC (carbon_crystal "c3")))
  = Raise IndexError.
Proof. vm_compute. reflexivity. Qed.

Lemma energy_agrees_with_error_witness :
  GULP.error carbon_calc = false
  /\ ((GULP.error (after_read carbon_calc log_finished) = true
       <-> GULP.energy (after_read carbon_calc log_finished) = None)
      /\ (GULP.error (after_read carbon_calc log_finished) = false ->
          exists e, GULP.energy (after_read carbon_calc log_finished) = Some e
                    /\ isnan e = false)).
Proof.
  split.
  - reflexivity.
  - apply (energy_agrees_with_error carbon_calc log_finished). reflexivity.
Defined.

(** C4 as stated fails: an infinite energy is kept and no error is
    flagged, since only NaN is tested. *)
Lemma infinite_energy_without_error :
  GULP.error (after_read carbon_calc log_infinite) = false
  /\ GULP.energy (after_read carbon_calc log_infinite) = Some infinity
  /\ PrimFloat.is_finite infinity = false.
Proof. vm_compute. repeat split. Qed.

(** A calculator that already carries the error flag keeps it when a
    later log is read, together with the new energy. *)
Example reused_calculator_keeps_flag :
  let failed := after_read carbon_calc log_truncated in
  GULP.error failed = true
  /\ GULP.error (after_read failed log_finished) = true
  /\ GULP.energy (after_read failed log_finished)
     = Some (Binary64.of_decimal true 3928242634 (-8)).
Proof. vm_compute. repeat split. Qed.

(** A log with both lattice blocks: both are recovered and the one from
    the parameters is final. *)
Example both_lattices_parameters_win :
  exists from_parameters from_vectors,
    GULP.lattice_para (snd (scanned carbon_calc log_both_lattices))
    = Some from_parameters
    /\ GULP.lattice_vector (snd (scanned carbon_calc log_both_lattices))
       = Some from_vectors
    /\ from_parameters <> from_vectors
    /\ GULP.lattice (after_read carbon_calc log_both_lattices)
       = from_parameters.
Proof.
  eexists. eexists. split; [vm_compute; reflexivity |].
  split; [vm_compute; reflexivity |].
  split; [| vm_compute; reflexivity].
  intros H. apply (f_equal OrthoCell.l_matrix) in H.
  vm_compute in H. discriminate.
Qed.

(** ** Occurrences of a marker in a text and in its lines *)

Section Strings.

Lemma app_assoc_string (a b c : string) : (a ++ b) ++ c = a ++ b ++ c.
Proof. induction a as [| x a IH]; simpl; [| rewrite IH]; reflexivity. Qed.

Lemma prefix_split sub s :
  prefix sub s = true <-> exists b, s = sub ++ b.
Proof.
  revert s. induction sub as [| x sub IH]; intros s.
  - split; [intros _; exists s; reflexivity | intros _; destruct s; reflexivity].
  - destruct s as [| y s]; simpl.
    + split; [discriminate | intros [b Hb]; discriminate].
    + destruct (ascii_dec x y) as [-> | Hxy].
      * rewrite IH. split; intros [b Hb]; exists b.
        -- now rewrite Hb.
        -- now injection Hb.
      * split; [discriminate |].
        intros [b Hb]. injection Hb as Hy _. now subst.
Qed.

Lemma occurs_tail sub c s : occurs sub s -> occurs sub (String c s).
Proof.
  intros (a & b & ->). exists (String c a), b. reflexivity.
Qed.

Lemma find_from_spec sub s :
  forall i, (0 <= i)%Z ->
  (Py.find_from sub s i <> (-1)%Z <-> occurs sub s).
Proof.
  induction s as [| c s IH]; intros i Hi; cbn [Py.find_from].
  - destruct (prefix sub "") eqn:Hp.
    + split; [intros _ | lia].
      apply prefix_split in Hp. destruct Hp as [b Hb].
      exists "", b. exact Hb.
    + split; [intros H; now contradiction H |].
      intros (a & b & Hab).
      destruct a; [| discriminate].
      simpl in Hab. assert (prefix sub "" = true) as Hp'.
      { apply prefix_split. exists b. exact Hab. }
      congruence.
  - destruct (prefix sub (String c s)) eqn:Hp.
    + split; [intros _ | lia].
      apply prefix_split in Hp. destruct Hp as [b Hb].
      exists "", b. exact Hb.
    + rewrite (IH (i + 1)%Z) by lia.
      split; [apply occurs_tail |].
      intros (a & b & Hab). destruct a as [| x a].
      * simpl in Hab.
        assert (prefix sub (String c s) = true) as Hp'.
        { apply prefix_split. exists b. exact Hab. }
        congruence.
      * simpl in Hab. injection Hab as _ Hs. exists a, b. exact Hs.
Qed.

Lemma contains_occurs s sub : Py.contains s sub = true <-> occurs sub s.
Proof.
  unfold Py.contains, Py.find.
  rewrite <- (find_from_spec sub s 0%Z) by lia.
  rewrite negb_true_iff, Z.eqb_neq. reflexivity.
Qed.

Lemma find_none_occurs s sub :
  Py.find s sub = (-1)%Z <-> ~ occurs sub s.
Proof.
  unfold Py.find.
  rewrite <- (find_from_spec sub s 0%Z) by lia.
  split; [intros H Hn; now apply Hn | intros H].
  destruct (Z.eq_dec (Py.find_from sub s 0) (-1)) as [E | E];
    [exact E | now contradiction H].
Qed.

Lemma occurs_inside sub a l b : occurs sub l -> occurs sub (a ++ l ++ b).
Proof.
  intros (x & y & ->). exists (a ++ x), (y ++ b).
  now rewrite !app_assoc_string.
Qed.

Lemma flush_In cur l : In l (Py.flush cur) -> l = cur.
Proof. destruct cur; simpl; [intros [] | intros [H | []]; now symmetry]. Qed.

(** Every line returned by [readlines] is a piece of the text. *)
Lemma readlines_from_piece s :
  forall cur l, In l (Py.readlines_from cur s) ->
  exists a b, cur ++ s = a ++ l ++ b.
Proof.
  induction s as [| c s IH]; intros cur l Hl; simpl in Hl.
  - apply flush_In in Hl. subst l. exists "", "". reflexivity.
  - destruct (Py.code c =? 10)%N.
    + destruct Hl as [<- | Hl].
      * exists "", s. simpl. now rewrite app_assoc_string.
      * destruct (IH "" l Hl) as (a & b & Hab). simpl in Hab.
        exists (cur ++ String c a), b.
        rewrite Hab, app_assoc_string. reflexivity.
    + destruct (IH _ l Hl) as (a & b & Hab).
      exists a, b. rewrite <- Hab, app_assoc_string. reflexivity.
Qed.

(** A marker that is not in the text is in none of its lines. *)
Lemma marker_in_no_line text marker :
  Py.find text marker = (-1)%Z ->
  forall line, In line (Py.readlines text) ->
  Py.contains line marker = false.
Proof.
  intros Hnone line Hline.
  apply find_none_occurs in Hnone.
  destruct (Py.contains line marker) eqn:Hc; [| reflexivity].
  apply contains_occurs in Hc.
  destruct (readlines_from_piece text "" line Hline) as (a & b & Hab).
  simpl in Hab. contradiction Hnone. rewrite Hab.
  now apply occurs_inside.
Qed.

End Strings.

(** ** The completion marker *)

Section MarkerTheorems.
Context {RT : Runtime} {PX : PyxtalLib}.

Lemma scanned_optimized g text :
  Py.find text "Job Finished" = (-1)%Z ->
  GULP.optimized (GULP.self (snd (scanned g text))) = GULP.optimized g.
Proof.
  intros Hnone. unfold scanned, GULP.scan.
  apply (scan_from_keeps GULP.optimized).
  intros i line Hline. apply scan_line_keeps_optimized.
  now apply (marker_in_no_line text).
Qed.

Lemma resolve_optimized raised fr :
  GULP.optimized (resolve raised fr) = GULP.optimized (GULP.self fr).
Proof.
  unfold resolve, no_energy.
  destruct (GULP.self fr) as [c p l fc it e ea st fo po o ct er].
  destruct raised, (GULP.lattice_para fr), (GULP.lattice_vector fr), p, e;
    simpl; try destruct (isnan _); reflexivity.
Qed.

(** C2. On a log without the text "Job Finished", [GULP.read] leaves the
    completion flag [optimized] as it was.  The error flag and the energy
    do not look at the marker: the flag is set, and the energy cleared,
    when the loop raised, when no lattice block was recovered or when the
    energy that the loop left is absent or NaN; otherwise the flag is the
    one the calculator had and the energy the one the loop read. *)
Theorem missing_marker_only_clears_optimized g text :
  Py.find text "Job Finished" = (-1)%Z ->
  let failed :=
    raises (fst (scanned g text)) || no_lattice (snd (scanned g text))
    || no_energy (GULP.self (snd (scanned g text))) in
  GULP.optimized (after_read g text) = GULP.optimized g
  /\ GULP.error (after_read g text) = GULP.error g || failed
  /\ GULP.energy (after_read g text)
     = if failed then None
       else GULP.energy (GULP.self (snd (scanned g text))).
Proof.
  intros Hnone failed. subst failed.
  rewrite after_read_resolve, resolve_optimized, resolve_error,
    resolve_energy, scanned_error, (scanned_optimized g text Hnone).
  rewrite <- !orb_assoc. repeat split.
Qed.

End MarkerTheorems.

Lemma missing_marker_only_clears_optimized_witness :
  Py.find log_without_marker "Job Finished" = (-1)%Z
  /\ GULP.optimized (after_read carbon_calc log_without_marker)
     = GULP.optimized carbon_calc.
Proof.
  split.
  - vm_compute. reflexivity.
  - apply (missing_marker_only_clears_optimized carbon_calc log_without_marker).
    vm_compute. reflexivity.
Defined.

(** C2 as stated fails: a log with energy, coordinates and lattice vectors
    and no "Job Finished" is read without error, and its energy is kept. *)
Lemma missing_marker_without_error :
  Py.find log_without_marker "Job Finished" = (-1)%Z
  /\ GULP.error (after_read carbon_calc log_without_marker) = false
  /\ GULP.energy (after_read carbon_calc log_without_marker)
     = Some (Binary64.of_decimal true 3928242634 (-8)).
Proof. vm_compute. repeat split. Qed.


(** ** The parser of the molecular variant *)

Section MolecularRead.
Context {RT : Runtime} {PX : PyxtalLib}.
Variable mol_site_update
  : GULP_OC.mol_site -> list (list pyfloat) -> Lattice
    -> result GULP_OC.mol_site.
Variable optimize_lattice : GULP_OC.crystal -> result GULP_OC.crystal.

Ltac oc_step :=
  lazymatch goal with
  | |- keeps _ (bind _ _) => apply keeps_bind; [| intro]
  | |- keeps _ (ret _) => apply keeps_ret
  | |- keeps _ (raise _) => apply keeps_raise
  | |- keeps _ (lift _) => apply keeps_lift
  | |- keeps _ get => apply keeps_get
  | |- keeps _ (modify _) => apply keeps_modify; intros []; reflexivity
  | |- keeps _ (GULP_OC.on_structure _) =>
      unfold GULP_OC.on_structure; apply keeps_modify; intros [];
      reflexivity
  | |- keeps _ (if ?b then _ else _) => destruct b
  | |- keeps _ (match ?x with _ => _ end) => destruct x
  end.

(** The loop reads the lattice of the structure and the cell type of its
    group without assigning them. *)
Lemma oc_scan_line_keeps_input lines i line :
  keeps (fun g => (GULP_OC.lattice (GULP_OC.structure g),
                   GULP_OC.group_lattice_type (GULP_OC.structure g)))
        (GULP_OC.scan_line lines i line).
Proof. unfold GULP_OC.scan_line. repeat oc_step. Qed.

(** [self.cell] is assigned by the block of lattice vectors only. *)
Lemma oc_scan_line_keeps_cell lines i line :
  Py.contains line "Final Cartesian lattice vectors" = false ->
  keeps GULP_OC.cell (GULP_OC.scan_line lines i line).
Proof.
  intros Hline. unfold GULP_OC.scan_line. rewrite Hline.
  repeat oc_step.
Qed.

Lemma oc_scan_from_keeps {V} (p : GULP_OC.t -> V) lines rest :
  (forall i line, In line rest -> keeps p (GULP_OC.scan_line lines i line)) ->
  forall i, keeps p (GULP_OC.scan_from lines i rest).
Proof.
  induction rest as [| line rest IH]; intros H i; simpl.
  - apply keeps_ret.
  - apply keeps_bind.
    + apply H. now left.
    + intros _. apply IH. intros j l Hl. apply H. now right.
Qed.

Lemma oc_scan_keeps_input text g :
  let g1 := snd (GULP_OC.scan (Py.readlines text) g) in
  GULP_OC.lattice (GULP_OC.structure g1)
  = GULP_OC.lattice (GULP_OC.structure g)
  /\ GULP_OC.group_lattice_type (GULP_OC.structure g1)
     = GULP_OC.group_lattice_type (GULP_OC.structure g).
Proof.
  intro g1.
  pose proof (oc_scan_from_keeps _ (Py.readlines text) (Py.readlines text)
                (fun i line _ => oc_scan_line_keeps_input _ i line) 0 g)
    as H.
  fold (GULP_OC.scan (Py.readlines text)) in H. fold g1 in H.
  now injection H.
Qed.

Lemma oc_scan_keeps_cell text g :
  Py.find text "Final Cartesian lattice vectors" = (-1)%Z ->
  GULP_OC.cell (snd (GULP_OC.scan (Py.readlines text) g)) = GULP_OC.cell g.
Proof.
  intros Hnone.
  apply (oc_scan_from_keeps GULP_OC.cell (Py.readlines text)
           (Py.readlines text)).
  intros i line Hin. apply oc_scan_line_keeps_cell.
  now apply (marker_in_no_line text).
Qed.

Lemma update_sites_keeps {V} (p : GULP_OC.t -> V) lat l :
  (forall v g, p (GULP_OC.set_structure v g) = p g) ->
  forall k count, keeps p (GULP_OC.update_sites mol_site_update lat k count l).
Proof.
  intros Hp. induction l as [| site l IH]; intros k count; simpl.
  - apply keeps_ret.
  - apply keeps_bind; [apply keeps_get | intro g].
    apply keeps_bind; [apply keeps_lift | intro pos].
    apply keeps_bind; [apply keeps_lift | intro site'].
    apply keeps_bind; [| intros _; apply IH].
    unfold GULP_OC.on_structure. apply keeps_modify. intro s. apply Hp.
Qed.

(** The [try] block at the end of [read] assigns the structure only, and
    never raises. *)
Lemma fold_back_keeps {V} (p : GULP_OC.t -> V) lat :
  (forall v g, p (GULP_OC.set_structure v g) = p g) ->
  keeps p (GULP_OC.fold_back mol_site_update optimize_lattice lat).
Proof.
  intros Hp. apply keeps_try_except; [| apply keeps_ret].
  apply keeps_bind; [apply keeps_get | intro g'].
  apply keeps_bind; [now apply update_sites_keeps | intros _].
  apply keeps_bind; [apply keeps_get | intro g''].
  apply keeps_bind; [apply keeps_lift | intro s'].
  apply keeps_modify. intro s. apply Hp.
Qed.

Lemma fold_back_returns lat g :
  fst (GULP_OC.fold_back mol_site_update optimize_lattice lat g) = Ok tt.
Proof.
  unfold GULP_OC.fold_back, try_except.
  match goal with |- context [match ?m with _ => _ end] => destruct m as [[[] | e] s'] end;
    reflexivity.
Qed.

(** The statements after the loop, when [Lattice.from_matrix] returns. *)
Lemma finish_assigns g1 lat0 :
  Lattice_from_matrix (GULP_OC.cell_or_own g1) None = Ok lat0 ->
  let lat :=
    set_ltype lat0 (GULP_OC.group_lattice_type (GULP_OC.structure g1)) in
  let g2 := snd (GULP_OC.finish mol_site_update optimize_lattice g1) in
  fst (GULP_OC.finish mol_site_update optimize_lattice g1) = Ok tt
  /\ GULP_OC.cell g2 = Some (GULP_OC.cell_or_own g1)
  /\ GULP_OC.self_lattice g2 = Some lat
  /\ (GULP_OC.optimized g1 = false ->
      GULP_OC.lattice (GULP_OC.structure g2) = lat).
Proof.
  intros Hlat lat g2. subst g2.
  unfold GULP_OC.finish.
  cbv beta iota delta [bind get modify lift GULP_OC.on_structure].
  rewrite Hlat. cbv beta iota. fold lat.
  destruct (GULP_OC.optimized g1) eqn:Hopt.
  - split; [apply fold_back_returns |].
    rewrite (fold_back_keeps GULP_OC.cell) by (intros ? []; reflexivity).
    rewrite (fold_back_keeps GULP_OC.self_lattice)
      by (intros ? []; reflexivity).
    destruct g1; repeat split. discriminate.
  - destruct g1 as [? [] ? ? ? ? ? ? ? ? ? ?]; repeat split.
Qed.

(** The loop over the sites assigns the sites of the structure, not its
    lattice. *)
Lemma update_sites_keeps_lattice lat l :
  forall k count,
  keeps (fun g => GULP_OC.lattice (GULP_OC.structure g))
        (GULP_OC.update_sites mol_site_update lat k count l).
Proof.
  induction l as [| site l IH]; intros k count; simpl.
  - apply keeps_ret.
  - apply keeps_bind; [apply keeps_get | intro g].
    apply keeps_bind; [apply keeps_lift | intro pos].
    apply keeps_bind; [apply keeps_lift | intro site'].
    apply keeps_bind; [| intros _; apply IH].
    unfold GULP_OC.on_structure. apply keeps_modify. intros []. reflexivity.
Qed.

(** The [try] block leaves the lattice of the structure as it found it,
    unless [optimize_lattice] returns: then the structure is the one this
    call made of a structure with the lattice found. *)
Lemma fold_back_lattice lat g2 :
  let g3 := snd (GULP_OC.fold_back mol_site_update optimize_lattice lat g2) in
  GULP_OC.lattice (GULP_OC.structure g3)
  = GULP_OC.lattice (GULP_OC.structure g2)
  \/ exists s s',
      GULP_OC.lattice s = GULP_OC.lattice (GULP_OC.structure g2)
      /\ optimize_lattice s = Ok s'
      /\ GULP_OC.structure g3 = s'.
Proof.
  intro g3. subst g3.
  unfold GULP_OC.fold_back, try_except, bind, get, lift, modify.
  pose proof (update_sites_keeps_lattice lat
                (GULP_OC.mol_sites (GULP_OC.structure g2)) 0 0 g2) as Hkept.
  destruct (GULP_OC.update_sites mol_site_update lat 0 0
              (GULP_OC.mol_sites (GULP_OC.structure g2)) g2)
    as [[[] | e] g2a]; cbn [snd] in Hkept.
  - destruct (optimize_lattice (GULP_OC.structure g2a)) as [s' | e] eqn:Hopt.
    + right. exists (GULP_OC.structure g2a), s'.
      split; [exact Hkept |]. split; [exact Hopt |].
      destruct g2a; reflexivity.
    + left. exact Hkept.
  - left. exact Hkept.
Qed.

(** The lattice of the structure after the statements that follow the
    loop, on a finished log as well. *)
Lemma finish_structure g1 lat0 :
  Lattice_from_matrix (GULP_OC.cell_or_own g1) None = Ok lat0 ->
  let lat :=
    set_ltype lat0 (GULP_OC.group_lattice_type (GULP_OC.structure g1)) in
  let g2 := snd (GULP_OC.finish mol_site_update optimize_lattice g1) in
  GULP_OC.lattice (GULP_OC.structure g2) = lat
  \/ exists s s',
      GULP_OC.optimized g1 = true
      /\ GULP_OC.lattice s = lat
      /\ optimize_lattice s = Ok s'
      /\ GULP_OC.structure g2 = s'.
Proof.
  intros Hlat lat g2. subst g2.
  unfold GULP_OC.finish.
  cbv beta iota delta [bind get modify lift GULP_OC.on_structure].
  rewrite Hlat. cbv beta iota. fold lat.
  destruct (GULP_OC.optimized g1) eqn:Hopt.
  - match goal with
    | |- context [GULP_OC.fold_back _ _ ?l ?st] =>
        destruct (fold_back_lattice l st) as [H | (s & s' & Hs & Ho & Hst)]
    end.
    + left. rewrite H. destruct g1; reflexivity.
    + right. exists s, s'. split; [reflexivity |].
      split; [rewrite Hs; destruct g1; reflexivity |].
      split; [exact Ho | exact Hst].
  - left. destruct g1 as [? [] ? ? ? ? ? ? ? ? ? ?]; reflexivity.
Qed.

(** C10. When the loop of [GULP_OC.read] runs to the end of the log
    without raising and [Lattice.from_matrix] returns, [read] returns
    with the lattice assigned: it is built from [self.cell], which is the
    block of lattice vectors when the loop read one and the matrix of the
    lattice that the input structure had otherwise, in particular when
    the text "Final Cartesian lattice vectors" is not in the log and
    [self.cell] was [None].  It is also the lattice assigned to the
    structure: the structure has it when [read] returns, unless the log
    is marked finished and [structure.optimize_lattice()] returned in the
    [try] block, in which case the structure is what that call made of a
    structure with the lattice assigned.  The object has no error
    flag. *)
Theorem molecular_lattice_assigned g text lat0 :
  let g1 := snd (GULP_OC.scan (Py.readlines text) g) in
  let lat :=
    set_ltype lat0 (GULP_OC.group_lattice_type (GULP_OC.structure g)) in
  let g' := snd (GULP_OC.read mol_site_update optimize_lattice text g) in
  fst (GULP_OC.scan (Py.readlines text) g) = Ok tt ->
  Lattice_from_matrix (GULP_OC.cell_or_own g1) None = Ok lat0 ->
  fst (GULP_OC.read mol_site_update optimize_lattice text g) = Ok tt
  /\ GULP_OC.cell g' = Some (GULP_OC.cell_or_own g1)
  /\ GULP_OC.self_lattice g' = Some lat
  /\ (GULP_OC.optimized g1 = false ->
      GULP_OC.lattice (GULP_OC.structure g') = lat)
  /\ (GULP_OC.lattice (GULP_OC.structure g') = lat
      \/ exists s s',
          GULP_OC.optimized g1 = true
          /\ GULP_OC.lattice s = lat
          /\ optimize_lattice s = Ok s'
          /\ GULP_OC.structure g' = s')
  /\ (Py.find text "Final Cartesian lattice vectors" = (-1)%Z ->
      GULP_OC.cell g = None ->
      GULP_OC.cell_or_own g1
      = lat_matrix (GULP_OC.lattice (GULP_OC.structure g))).
Proof.
  intros g1 lat g' Hscan Hlat.
  destruct (oc_scan_keeps_input text g) as [Hl Ht]. fold g1 in Hl, Ht.
  destruct (finish_assigns g1 lat0 Hlat) as (Hok & Hc & Hsl & Hst).
  pose proof (finish_structure g1 lat0 Hlat) as Hstruct.
  cbv zeta in Hstruct.
  rewrite Ht in Hsl, Hst, Hstruct. fold lat in Hsl, Hst, Hstruct.
  assert (GULP_OC.read mol_site_update optimize_lattice text g
          = GULP_OC.finish mol_site_update optimize_lattice g1) as Hread.
  { unfold GULP_OC.read, bind. subst g1.
    destruct (GULP_OC.scan (Py.readlines text) g) as [r gs].
    simpl in Hscan. subst r. reflexivity. }
  unfold g'. rewrite Hread.
  repeat split; try assumption.
  intros Hnone Hcell. unfold GULP_OC.cell_or_own.
  unfold g1 at 1. rewrite (oc_scan_keeps_cell text g Hnone), Hcell, Hl.
  reflexivity.
Qed.

End MolecularRead.

(** A complete log without lattice vectors: the lattice of the result is
    the lattice of the input structure, built again from its matrix.  A
    finished log with coordinates and the vectors of a cell of 6 Angstrom:
    the structure has the lattice of these vectors. *)
Lemma molecular_lattice_assigned_witness :
  (fst (GULP_OC.scan (Py.readlines (energy_line ++ closing_lines))
                     (new_GULP_OC (carbon_crystal "c3"))) = Ok tt
   /\ GULP_OC.self_lattice
        (snd (GULP_OC.read store_coords keep_lattice
                           (energy_line ++ closing_lines)
                           (new_GULP_OC (carbon_crystal "c3"))))
      = Some {| OrthoCell.l_para := (5, 5, 5, 90, 90, 90)%float;
                OrthoCell.l_matrix := [[5; 0; 0]; [0; 5; 0]; [0; 0; 5]]%float;
                OrthoCell.l_ltype := "cubic" |})
  /\ (fst (GULP_OC.scan (Py.readlines log_finished_6)
                        (new_GULP_OC (carbon_crystal "c3"))) = Ok tt
      /\ GULP_OC.optimized
           (snd (GULP_OC.scan (Py.readlines log_finished_6)
                              (new_GULP_OC (carbon_crystal "c3")))) = true
      /\ GULP_OC.lattice
           (GULP_OC.structure
              (snd (GULP_OC.read store_coords keep_lattice log_finished_6
                                 (new_GULP_OC (carbon_crystal "c3")))))
         = {| OrthoCell.l_para := (6, 6, 6, 90, 90, 90)%float;
              OrthoCell.l_matrix := [[6; 0; 0]; [0; 6; 0]; [0; 0; 6]]%float;
              OrthoCell.l_ltype := "cubic" |}).
Proof.
  split.
  - split.
    + vm_compute. reflexivity.
    + refine (proj1 (proj2 (proj2
        (molecular_lattice_assigned store_coords keep_lattice
           (new_GULP_OC (carbon_crystal "c3")) (energy_line ++ closing_lines)
           {| OrthoCell.l_para := (5, 5, 5, 90, 90, 90)%float;
              OrthoCell.l_matrix := [[5; 0; 0]; [0; 5; 0]; [0; 0; 5]]%float;
              OrthoCell.l_ltype := "triclinic" |} _ _)))).
      * vm_compute. reflexivity.
      * vm_compute. reflexivity.
  - assert (fst (GULP_OC.scan (Py.readlines log_finished_6)
                              (new_GULP_OC (carbon_crystal "c3"))) = Ok tt)
      as Hscan by (vm_compute; reflexivity).
    assert (Lattice_from_matrix
              (GULP_OC.cell_or_own
                 (snd (GULP_OC.scan (Py.readlines log_finished_6)
                                    (new_GULP_OC (carbon_crystal "c3")))))
              None
            = Ok {| OrthoCell.l_para := (6, 6, 6, 90, 90, 90)%float;
                    OrthoCell.l_matrix :=
                      [[6; 0; 0]; [0; 6; 0]; [0; 0; 6]]%float;
                    OrthoCell.l_ltype := "triclinic" |})
      as Hlat by (vm_compute; reflexivity).
    split; [exact Hscan |]. split; [vm_compute; reflexivity |].
    destruct (proj1 (proj2 (proj2 (proj2 (proj2
                (molecular_lattice_assigned (RT := binary64)
                   (PX := ortho_cell) store_coords keep_lattice
                   (new_GULP_OC (carbon_crystal "c3")) log_finished_6 _
                   Hscan Hlat))))))
      as [Hstructure | (s & s' & _ & Hs & Hkept & Hstructure)].
    + exact Hstructure.
    + rewrite Hstructure. unfold keep_lattice in Hkept.
      injection Hkept as <-. exact Hs.
Defined.

(** C10 as stated fails: on a log whose CPU time is not a number the loop
    of [GULP_OC.read] raises [ValueError], and [read] is left before any
    lattice is assigned. *)
Lemma molecular_read_leaves_lattice_unset :
  Py.find log_bad_time "Final Cartesian lattice vectors" = (-1)%Z
  /\ fst (GULP_OC.read store_coords keep_lattice log_bad_time
                       (new_GULP_OC (carbon_crystal "c3")))
     = Raise ValueError
  /\ GULP_OC.self_lattice
       (snd (GULP_OC.read store_coords keep_lattice log_bad_time
                          (new_GULP_OC (carbon_crystal "c3"))))
     = None.
Proof. vm_compute. repeat split. Qed.

(** ** The deck of the molecular variant *)

Section MolecularWrite.
Context {RT : Runtime} {PX : PyxtalLib}.

Lemma bind_raise {S A B} (m : SE S A) (k : A -> SE S B) s e :
  fst (m s) = Raise e -> bind m k s = (Raise e, snd (m s)).
Proof.
  unfold bind. destruct (m s) as [[a | e'] s']; simpl; intros H;
    [discriminate | now injection H as ->].
Qed.

Lemma bind_ok {S A B} (m : SE S A) (k : A -> SE S B) s a :
  fst (m s) = Ok a -> bind m k s = k a (snd (m s)).
Proof.
  unfold bind. destruct (m s) as [[a' | e'] s']; simpl; intros H;
    [now injection H as -> | discriminate].
Qed.

Lemma getitem_in_range {A} (l : list A) k :
  k < length l -> exists a, Py.getitem l k = Ok a.
Proof.
  intros Hk. unfold Py.getitem.
  destruct (nth_error l k) as [a |] eqn:Hn; [now exists a |].
  apply nth_error_None in Hn. lia.
Qed.

Lemma atom_symbol_defined site labels j :
  j < length (GULP_OC.species_string site) -> j < length labels ->
  exists symbol, GULP_OC.atom_symbol site labels j = Ok symbol.
Proof.
  intros Hs Hl. unfold GULP_OC.atom_symbol.
  destruct (getitem_in_range _ _ Hs) as [el ->].
  destruct (getitem_in_range _ _ Hl) as [lab ->]. simpl.
  match goal with
  | |- context [if ?b then _ else _] => destruct b
  end; eexists; reflexivity.
Qed.

(** One atom: the line is written when the key is registered, and the
    error of the [except] clause is raised when it is not. *)
Lemma write_atom_result site labels charges j coord symbol st :
  GULP_OC.atom_symbol site labels j = Ok symbol ->
  3 <= length coord -> j < length charges ->
  fst (GULP_OC.write_atom site labels charges j coord st)
  = match dict_get at_types symbol with
    | Some _ => Ok symbol
    | None => Raise (GULP_OC.unsupported symbol)
    end.
Proof.
  intros Hsym Hcoord Hq.
  unfold GULP_OC.write_atom, bind, lift. rewrite Hsym.
  unfold GULP_OC.atom_line, dict_item.
  destruct (dict_get at_types symbol) as [code |]; [| reflexivity].
  destruct coord as [| x [| y [| z coord]]]; simpl in Hcoord; try lia.
  destruct (getitem_in_range _ _ Hq) as [q Hq']. simpl. rewrite Hq'.
  reflexivity.
Qed.

(** The atoms of one site from atom [j] on: either every key is
    registered, or the error names a key that is not. *)
Lemma write_atoms_result site labels charges coords :
  forall j,
  j + length coords <= length (GULP_OC.species_string site) ->
  j + length coords <= length labels ->
  j + length coords <= length charges ->
  Forall (fun c => 3 <= length c) coords ->
  (exists symbols,
      (forall st,
          fst (GULP_OC.write_atoms site labels charges j coords st)
          = Ok symbols)
      /\ forall k symbol, k < length coords ->
           GULP_OC.atom_symbol site labels (j + k) = Ok symbol ->
           dict_get at_types symbol <> None)
  \/ (exists bad,
         dict_get at_types bad = None
         /\ forall st,
              fst (GULP_OC.write_atoms site labels charges j coords st)
              = Raise (GULP_OC.unsupported bad)).
Proof.
  induction coords as [| coord coords IH]; intros j Hs Hl Hq Hc.
  - left. exists []. split; [reflexivity |]. simpl. intros k ? Hk. lia.
  - simpl in Hs, Hl, Hq. inversion Hc as [| ? ? Hc1 Hc2]; subst.
    destruct (atom_symbol_defined site labels j) as [symbol Hsym]; try lia.
    pose proof (fun st => write_atom_result site labels charges j coord
                            symbol st Hsym Hc1 ltac:(lia)) as Hone.
    cbn [GULP_OC.write_atoms].
    destruct (dict_get at_types symbol) as [code |] eqn:Hreg.
    + destruct (IH (S j) ltac:(lia) ltac:(lia) ltac:(lia) Hc2)
        as [(symbols & Hok & Hall) | (bad & Hbad & Hraise)].
      * left. exists (symbol :: symbols). split.
        -- intro st. rewrite (bind_ok _ _ _ _ (Hone st)).
           now rewrite (bind_ok _ _ _ _ (Hok _)).
        -- intros [| k] sym Hk Hk'.
           ++ rewrite Nat.add_0_r in Hk'. congruence.
           ++ apply (Hall k sym); [simpl in Hk; lia |].
              now replace (S j + k) with (j + S k) by lia.
      * right. exists bad. split; [exact Hbad |].
        intro st. rewrite (bind_ok _ _ _ _ (Hone st)).
        now rewrite (bind_raise _ _ _ _ (Hraise _)).
    + right. exists symbol. split; [exact Hreg |].
      intro st. now rewrite (bind_raise _ _ _ _ (Hone st)).
Qed.

(** The loop over the sites. *)
Lemma write_sites_result g sites :
  Forall (site_ok g) sites ->
  (exists symbols,
      (forall st, fst (GULP_OC.write_sites g sites st) = Ok symbols)
      /\ forall site j symbol, In site sites -> has_symbol g site j symbol ->
           dict_get at_types symbol <> None)
  \/ (exists bad,
         dict_get at_types bad = None
         /\ forall st,
              fst (GULP_OC.write_sites g sites st)
              = Raise (GULP_OC.unsupported bad)).
Proof.
  induction sites as [| site sites IH]; intros Hok.
  - left. exists []. split; [reflexivity | intros ? ? ? []].
  - inversion Hok as [| ? ? Hsite Hrest]; subst.
    destruct Hsite as (labels & charges & Hlc & Hs & Hl & Hq & Hc).
    assert (forall st,
               GULP_OC.write_sites g (site :: sites) st
               = bind (GULP_OC.write_atoms site labels charges 0
                         (GULP_OC.coords_first site))
                      (fun symbols =>
                         bind (GULP_OC.write_sites g sites)
                              (fun rest => ret (symbols ++ rest)%list)) st)
      as Hstep.
    { intro st. cbn [GULP_OC.write_sites]. unfold lift at 1.
      unfold bind at 1. rewrite Hlc. reflexivity. }
    destruct (write_atoms_result site labels charges
                (GULP_OC.coords_first site) 0 Hs Hl Hq Hc)
      as [(symbols & Hatoms & Hall) | (bad & Hbad & Hraise)].
    + destruct (IH Hrest)
        as [(rest & Hsites & Hall') | (bad & Hbad & Hraise)].
      * left. exists (symbols ++ rest)%list. split.
        -- intro st. rewrite Hstep, (bind_ok _ _ _ _ (Hatoms st)).
           now rewrite (bind_ok _ _ _ _ (Hsites _)).
        -- intros site' j symbol [<- | Hin] Hhas.
           ++ destruct Hhas as (labels' & charges' & Hlc' & Hj & Hsym).
              rewrite Hlc in Hlc'. injection Hlc' as <- <-.
              now apply (Hall j symbol).
           ++ now apply (Hall' site' j symbol).
      * right. exists bad. split; [exact Hbad |].
        intro st. rewrite Hstep, (bind_ok _ _ _ _ (Hatoms st)).
        now rewrite (bind_raise _ _ _ _ (Hraise _)).
    + right. exists bad. split; [exact Hbad |].
      intro st. rewrite Hstep. now rewrite (bind_raise _ _ _ _ (Hraise st)).
Qed.

Lemma fwrite_then {B} (s : string) (k : unit -> SE (string * files) B) st :
  bind (GULP_OC.fwrite s) k st = k tt (fst st ++ s, snd st).
Proof. destruct st. reflexivity. Qed.

(** [write] raises as soon as the loop over the sites does. *)
Lemma write_raises_with_sites environ g e :
  (forall st, fst (GULP_OC.write_sites g
                     (GULP_OC.mol_sites (GULP_OC.structure g)) st) = Raise e) ->
  forall file, fst (GULP_OC.write environ g file) = Raise e.
Proof.
  intros Hsites file. unfold GULP_OC.write.
  destruct (lat_para _) as [[[[[a b] c] alpha0] beta0] gamma0].
  destruct (GULP_OC.opt (GULP_OC.cfg g) =? "conv")%string;
    rewrite !fwrite_then, (bind_raise _ _ _ _ (Hsites _)); reflexivity.
Qed.


Variable mol_site_update
  : GULP_OC.mol_site -> list (list pyfloat) -> Lattice
    -> result GULP_OC.mol_site.
Variable optimize_lattice : GULP_OC.crystal -> result GULP_OC.crystal.


End MolecularWrite.


(** The same run on a registered label goes on to the external
    program. *)
Example run_reaches_shell_when_registered :
  commands (snd (snd (GULP_OC.run store_coords keep_lattice [] no_shell
                                  true true
                                  (new_GULP_OC (carbon_crystal "c3"),
                                   empty_world))))
  = []
  /\ fst (GULP_OC.run store_coords keep_lattice [] no_shell true true
                      (new_GULP_OC (carbon_crystal "c3"), empty_world))
     = Ok tt
  /\ commands (snd (snd (GULP_OC.run store_coords keep_lattice []
                                     (fun _ files =>
                                        file_put "_gulp.log" log_finished files)
                                     false false
                                     (new_GULP_OC (carbon_crystal "c3"),
                                      empty_world))))
     = ["gulp<_gulp.in>_gulp.log"].
Proof. vm_compute. repeat split. Qed.

(** ** The drivers *)

Section DriverTheorems.
Context {RT : Runtime} {PX : PyxtalLib}.
Variable sh : shell.
Variable make_atoms
  : list string -> list (list pyfloat) -> matrix -> result Atoms.
Variable from_seed : Atoms -> pyfloat -> pyxtal_obj * bool.

(** C3. [optimize] passes the keyword [exe] to [single_optimize], whose
    [def] has no parameter of that name: with at least one mode in the
    sequence (also the default sequence) the first call raises
    [TypeError] before [single_optimize] starts, nothing is run and
    nothing is returned; with an empty sequence the final [return] reads
    the unbound variable [energy]. *)
Theorem optimize_never_returns struc ff exe pstress path label clean adjust w :
  (forall mode rest,
      optimize sh make_atoms from_seed struc ff (Some (mode :: rest)) exe
               pstress path label clean adjust w
      = (Raise (TypeError
                  "single_optimize() got an unexpected keyword argument 'exe'"),
         w))
  /\ optimize sh make_atoms from_seed struc ff None exe pstress path label
              clean adjust w
     = (Raise (TypeError
                 "single_optimize() got an unexpected keyword argument 'exe'"),
        w)
  /\ optimize sh make_atoms from_seed struc ff (Some []) exe pstress path
              label clean adjust w
     = (Raise (UnboundLocalError "energy"), w).
Proof. repeat split. Qed.

End DriverTheorems.

(** ** The deck of the inorganic variant *)

Section Species.
Context {RT : Runtime} {PX : PyxtalLib}.

Lemma app_empty_string (s : string) : s ++ "" = s.
Proof. induction s as [| c s IH]; simpl; [| rewrite IH]; reflexivity. Qed.

(** A loop that only writes leaves the concatenation of what it wrote. *)
Lemma for_each_fwrite (f : string -> string) l :
  forall file,
  for_each l (fun x => GULP.fwrite (f x)) file
  = (Ok tt, file ++ join (map f l)).
Proof.
  induction l as [| x l IH]; intro file; simpl.
  - unfold ret. now rewrite app_empty_string.
  - unfold bind, GULP.fwrite, modify. rewrite IH.
    now rewrite app_assoc_string.
Qed.

(** The loop of the molecular section over registered keys. *)
Lemma for_each_species_line l :
  (forall s, In s l -> dict_get at_types s <> None) ->
  forall st : string * files,
  for_each l (fun symbol =>
                bind (lift (GULP_OC.species_line symbol))
                     (fun line => GULP_OC.fwrite line)) st
  = (Ok tt, (fst st ++ join (map species_text l), snd st)).
Proof.
  induction l as [| a l IH]; intros Hreg [file fs0]; simpl.
  - unfold ret. now rewrite app_empty_string.
  - assert (GULP_OC.species_line a = Ok (species_text a)) as Hline.
    { unfold GULP_OC.species_line, species_text, dict_item.
      destruct (dict_get at_types a) eqn:Ha; [reflexivity |].
      exfalso. apply (Hreg a); [now left | exact Ha]. }
    unfold bind at 1. unfold bind at 1. unfold lift at 1. rewrite Hline.
    cbn [GULP_OC.fwrite on_fst GULP.fwrite modify fst snd].
    rewrite IH by (intros s Hs; apply Hreg; now right).
    cbn [fst snd]. now rewrite app_assoc_string.
Qed.

Lemma first_seen_spec l :
  forall seen,
  NoDup (Binary64.first_seen seen l)
  /\ forall x, In x (Binary64.first_seen seen l) <-> In x l /\ ~ In x seen.
Proof.
  induction l as [| a l IH]; intro seen; simpl.
  - split; [constructor | intro x; tauto].
  - destruct (existsb (String.eqb a) seen) eqn:Hseen.
    + apply existsb_exists in Hseen. destruct Hseen as (y & Hy & Heq).
      apply String.eqb_eq in Heq. subst y.
      destruct (IH seen) as [Hnd Hin]. split; [exact Hnd |].
      intro x. rewrite Hin. split; [tauto |].
      intros [[<- | Hx] Hnot]; [contradiction | tauto].
    + assert (~ In a seen) as Hnew.
      { intro Ha. assert (existsb (String.eqb a) seen = true) as Ht.
        { apply existsb_exists. exists a. split; [exact Ha |].
          apply String.eqb_refl. }
        congruence. }
      destruct (IH (a :: seen)) as [Hnd Hin]. split.
      * constructor; [| exact Hnd]. rewrite Hin. simpl. tauto.
      * intro x. simpl. rewrite Hin. simpl.
        destruct (string_dec a x) as [<- | Hne]; tauto.
Qed.

Lemma first_seen_ok : set_order_ok (Binary64.first_seen []).
Proof.
  intro l. destruct (first_seen_spec l []) as [Hnd Hin].
  split; [exact Hnd |]. intro x. rewrite Hin. simpl. tauto.
Qed.

Lemma last_first_ok : set_order_ok last_first.
Proof.
  intro l. destruct (first_seen_ok l) as [Hnd Hin]. unfold last_first.
  split; [now apply NoDup_rev |].
  intro x. rewrite <- in_rev. apply Hin.
Qed.

(** C9. With [self.species] left at [None] by [__init__], the loop that
    writes the section "Species" runs over [list(set(self.sites))]: under
    a set enumeration that keeps what Python promises, every distinct
    species of the sites is met once and the section is the
    concatenation of the entries in the order of that enumeration; any
    other admissible enumeration gives a permutation of the same
    species.  The molecular section is written in the same way from the
    set of the force-field keys. *)
Theorem species_section_once g :
  set_order_ok set_list ->
  GULP.species (GULP.cfg g) = None ->
  let species := set_list (GULP.sites (GULP.cfg g)) in
  GULP.species_list g = Ok species
  /\ NoDup species
  /\ (forall x, In x species <-> In x (GULP.sites (GULP.cfg g)))
  /\ (forall file,
         GULP.write_species g file
         = (Ok tt,
            file ++ GULP.nl ++ "Species" ++ GULP.nl
            ++ join (map (GULP.species_entry g) species)))
  /\ (forall order,
         set_order_ok order ->
         Permutation (order (GULP.sites (GULP.cfg g))) species)
  /\ (forall symbols st,
         (forall s, In s symbols -> dict_get at_types s <> None) ->
         NoDup (set_list symbols)
         /\ (forall x, In x (set_list symbols) <-> In x symbols)
         /\ GULP_OC.write_species symbols st
            = (Ok tt,
               (fst st ++ GULP_OC.nl ++ "Species" ++ GULP_OC.nl
                ++ join (map species_text (set_list symbols)), snd st))).
Proof.
  intros Hset Hnone species.
  destruct (Hset (GULP.sites (GULP.cfg g))) as [Hnd Hin].
  assert (GULP.species_list g = Ok species) as Hlist.
  { unfold GULP.species_list. now rewrite Hnone. }
  repeat split; try assumption; try apply Hin.
  - intro file. unfold GULP.write_species, bind, lift. rewrite Hlist.
    unfold GULP.fwrite at 1, modify. rewrite for_each_fwrite.
    now rewrite !app_assoc_string.
  - intros order Hord.
    destruct (Hord (GULP.sites (GULP.cfg g))) as [Hnd' Hin'].
    apply NoDup_Permutation; [exact Hnd' | exact Hnd |].
    intro x. rewrite Hin'. symmetry. apply Hin.
  - apply (Hset symbols).
  - apply (Hset symbols).
  - apply (Hset symbols).
  - destruct st as [file fs0]. unfold GULP_OC.write_species.
    unfold bind at 1.
    cbn [GULP_OC.fwrite on_fst GULP.fwrite modify fst snd].
    rewrite for_each_species_line.
    + cbn [fst snd]. rewrite !app_assoc_string. reflexivity.
    + intros s Hs. apply H. now apply (Hset symbols).
Qed.

End Species.

Lemma species_section_once_witness :
  set_order_ok (set_list (Runtime := binary64))
  /\ GULP.species (GULP.cfg (oxide_calc false false)) = None
  /\ GULP.species_list (oxide_calc false false) = Ok ["Mg"; "O"].
Proof.
  split; [exact first_seen_ok |]. split; [reflexivity |].
  exact (proj1 (species_section_once (oxide_calc false false) first_seen_ok
                  eq_refl)).
Defined.

(** C9 as stated fails: two enumerations that Python allows for the set
    of species give two decks whose species lines come in different
    orders. *)
Lemma species_order_depends_on_set_order :
  set_order_ok (Binary64.first_seen [])
  /\ set_order_ok last_first
  /\ fst (oxide_deck_in (Binary64.first_seen [])) = Ok tt
  /\ fst (oxide_deck_in last_first) = Ok tt
  /\ snd (oxide_deck_in (Binary64.first_seen []))
     <> snd (oxide_deck_in last_first).
Proof.
  split; [exact first_seen_ok |]. split; [exact last_first_ok |].
  split; [vm_compute; reflexivity |]. split; [vm_compute; reflexivity |].
  intro H. apply (f_equal (fun s => Py.contains s ("Mg   core Mg  "
                                                   ++ GULP.nl ++ "O "))) in H.
  vm_compute in H. discriminate.
Qed.

(** ** The two branches of the coordinate block *)

Section CoordinateBranches.
Context {RT : Runtime} {PX : PyxtalLib}.

(** A loop whose passes only append leaves the concatenation. *)
Lemma for_each_appends {A} (f : A -> string) (body : A -> SE string unit) l :
  (forall x, In x l -> forall file, body x file = (Ok tt, file ++ f x)) ->
  forall file, for_each l body file = (Ok tt, file ++ join (map f l)).
Proof.
  induction l as [| x l IH]; intros Hbody file; simpl.
  - unfold ret. now rewrite app_empty_string.
  - unfold bind. rewrite (Hbody x (or_introl eq_refl)).
    rewrite IH by (intros y Hy; apply Hbody; now right).
    now rewrite app_assoc_string.
Qed.

Lemma coord_line_text symbol coord kind :
  3 <= length coord ->
  GULP.coord_line symbol coord kind = Ok (line_text symbol coord kind).
Proof.
  intros Hlen. unfold line_text.
  destruct coord as [| x [| y [| z coord]]]; simpl in Hlen; try lia.
  reflexivity.
Qed.

(** X12. Without symmetry, or without a [pyxtal] structure, and with
    three coordinates for each atom, the section "fractional" is one
    "core" line for each pair of [zip(self.frac_coords, self.sites)] and
    nothing else, whatever the force field and the species. *)
Lemma all_coordinates_cores_only g file :
  GULP.symmetry (GULP.cfg g) = false \/ GULP.pyxtal g = None ->
  Forall (fun coord => 3 <= length coord) (GULP.frac_coords g) ->
  GULP.write_fractional g file
  = (Ok tt,
     file ++ GULP.nl ++ "fractional" ++ GULP.nl
     ++ join (map (fun cs => line_text (snd cs) (fst cs) "core")
                  (combine (GULP.frac_coords g) (GULP.sites (GULP.cfg g))))).
Proof.
  intros Hbranch Hcoords. unfold GULP.write_fractional.
  unfold bind at 1. unfold GULP.fwrite at 1, modify. cbv iota.
  assert (forall file',
             for_each (combine (GULP.frac_coords g) (GULP.sites (GULP.cfg g)))
               (fun '(coord, site) =>
                  bind (lift (GULP.coord_line site coord "core"))
                       (fun l => GULP.fwrite l)) file'
             = (Ok tt,
                file' ++ join (map (fun cs => line_text (snd cs) (fst cs) "core")
                                   (combine (GULP.frac_coords g)
                                            (GULP.sites (GULP.cfg g))))))
    as Hloop.
  { apply for_each_appends. intros [coord site] Hin file'. simpl.
    unfold bind, lift. rewrite coord_line_text; [reflexivity |].
    apply in_combine_l in Hin.
    rewrite Forall_forall in Hcoords. now apply Hcoords. }
  destruct (GULP.symmetry (GULP.cfg g)), (GULP.pyxtal g);
    try (rewrite Hloop; now rewrite !app_assoc_string).
  destruct Hbranch; discriminate.
Qed.

(** X13. With symmetry and a [pyxtal] structure whose sites have three
    coordinates each, every site of the asymmetric unit has its "core"
    line in the section "fractional", followed at once by a "shell" line
    at the same coordinates when the force field is "catlow" and the
    species is "O"; the number of the space group and the origin
    "0 0 0" follow the sites. *)
Lemma symmetry_branch_pairs_shell g px file :
  GULP.symmetry (GULP.cfg g) = true ->
  GULP.pyxtal g = Some px ->
  Forall (fun site => 3 <= length (site_position site)) (px_atom_sites px) ->
  GULP.write_fractional g file
  = (Ok tt,
     file ++ GULP.nl ++ "fractional" ++ GULP.nl
     ++ join (map (site_text g) (px_atom_sites px))
     ++ GULP.nl ++ "space" ++ GULP.nl ++ Py.format_d (px_group_number px)
     ++ GULP.nl ++ GULP.nl ++ "origin" ++ GULP.nl ++ "0 0 0" ++ GULP.nl).
Proof.
  intros Hsym Hpx Hsites. unfold GULP.write_fractional.
  rewrite Hsym, Hpx.
  unfold bind at 1. unfold GULP.fwrite at 1, modify. cbv iota.
  unfold bind at 1.
  rewrite (for_each_appends (site_text g)).
  - unfold bind, GULP.fwrite, modify. cbv iota.
    now rewrite !app_assoc_string.
  - intros site Hin file'.
    rewrite Forall_forall in Hsites. specialize (Hsites site Hin).
    unfold site_text, bind, lift.
    rewrite !coord_line_text by exact Hsites.
    unfold GULP.fwrite, modify.
    destruct ((GULP.ff (GULP.cfg g) =? "catlow")
              && (site_specie site =? "O"))%bool.
    + now rewrite app_assoc_string.
    + unfold ret. now rewrite app_empty_string.
Qed.

End CoordinateBranches.

(** C6. The deck written for the oxide with the force field "catlow" on
    the branch of all coordinates (here: from [Atoms], without symmetry):
    the oxygen has its "core" line, no "shell" line follows it, and the
    section "Species" still declares the oxygen shell. *)
Theorem catlow_all_coordinates_without_shell :
  new_GULP (IsAtoms oxide_cell) "conp" "catlow" = Ok (oxide_calc false false)
  /\ fst (GULP.deck (oxide_calc false false)) = Ok tt
  /\ Py.readlines (snd (GULP.deck (oxide_calc false false)))
     = map (fun l => l ++ GULP.nl)
         ["opti stress conp conjugate nosymmetry";
          "";
          "cell";
          "    5.000000    5.000000    5.000000   90.000000   90.000000   90.000000";
          "";
          "fractional";
          "Mg       0.000000     0.000000     0.000000 core ";
          "O        0.500000     0.500000     0.500000 core ";
          "";
          "Species";
          "Mg   core Mg  ";
          "O    core O_O2- core";
          "O    shell O_O2- shell";
          "";
          "library catlow";
          "ewald 10.0";
          "maxcycle 1000"].
Proof.
  split; [reflexivity |].
  split; vm_compute; reflexivity.
Qed.

(** The same deck on the symmetry branch: the "shell" line follows the
    "core" line of the oxygen at the same coordinates. *)
Example catlow_symmetry_branch_has_shell :
  fst (GULP.deck (oxide_calc true true)) = Ok tt
  /\ Py.readlines (snd (GULP.deck (oxide_calc true true)))
     = map (fun l => l ++ GULP.nl)
         ["opti stress conp conjugate ";
          "cell";
          "    5.000000    5.000000    5.000000   90.000000   90.000000   90.000000";
          "";
          "fractional";
          "Mg       0.000000     0.000000     0.000000 core ";
          "O        0.500000     0.500000     0.500000 core ";
          "O        0.500000     0.500000     0.500000 shell ";
          "";
          "space";
          "225";
          "";
          "origin";
          "0 0 0";
          "";
          "Species";
          "Mg   core Mg  ";
          "O    core O_O2- core";
          "O    shell O_O2- shell";
          "";
          "library catlow";
          "ewald 10.0";
          "maxcycle 1000"].
Proof. split; vm_compute; reflexivity. Qed.

(** The calculator built from a [pyxtal] structure without symmetry takes
    the branch of all coordinates as well. *)
Example catlow_pyxtal_without_symmetry :
  GULP.init (IsPyxtal oxide_pyxtal) "_" "tmp" "catlow" None "conp" 1000
            "gulp" "gulp.in" "gulp.log" None false None 3600
  = Ok (oxide_calc true false)
  /\ GULP.deck (oxide_calc true false) = GULP.deck (oxide_calc false false).
Proof. split; [reflexivity | vm_compute; reflexivity]. Qed.

(** C8. The deck of the single-point evaluation of one carbon atom at the
    origin of the cubic cell of 5 Angstrom, whatever the step budget: it
    starts with the header "grad conp stress", its cell line holds the
    six values right-aligned in fields of twelve characters, and the
    text "maxcycle" is nowhere in it. *)
Theorem single_point_deck steps exe timeout :
  exists g deck,
    GULP.init (IsAtoms carbon_cell) "_" "tmp" "tersoff.lib" None "single"
              steps exe "gulp.in" "gulp.log" None false None timeout = Ok g
    /\ GULP.deck g = (Ok tt, deck)
    /\ nth_error (Py.readlines deck) 0
       = Some ("grad conp stress nosymmetry" ++ GULP.nl)
    /\ nth_error (Py.readlines deck) 2 = Some ("cell" ++ GULP.nl)
    /\ nth_error (Py.readlines deck) 3 = Some (cell_line_5_90 ++ GULP.nl)
    /\ cell_line_5_90
       = join (map (Py.rjust 12)
                   ["5.000000"; "5.000000"; "5.000000";
                    "90.000000"; "90.000000"; "90.000000"])
    /\ Py.contains deck "maxcycle" = false.
Proof.
  eexists. eexists. split; [reflexivity |].
  split; [vm_compute; reflexivity |].
  vm_compute. repeat split.
Qed.

(** C8 as stated fails: the cell line with two blanks between the values
    is not in the deck. *)
Lemma single_point_cell_line_is_padded :
  exists g deck,
    new_GULP (IsAtoms carbon_cell) "single" "tersoff.lib" = Ok g
    /\ GULP.deck g = (Ok tt, deck)
    /\ Py.contains deck cell_line_spec = false.
Proof.
  eexists. eexists. split; [reflexivity |].
  split; [vm_compute; reflexivity |].
  vm_compute. reflexivity.
Qed.

(* ================================================================== *)
(** * Further properties of the parser *)

(** ** The block readers *)

Section BlockReaders.
Context {RT : Runtime}.

Lemma coord_rows_step line rows :
  Py.contains line "------------" = false ->
  GULP.coord_rows (line :: rows)
  = (XYZ <- map_result float_ (Py.lslice (Py.split line) 3 6) ;;
     sp <- Py.getitem (Py.split line) 1 ;;
     rest <- GULP.coord_rows rows ;;
     Ok (XYZ :: fst rest, sp :: snd rest))%result.
Proof. intros H. cbn [GULP.coord_rows]. now rewrite H. Qed.

(** X1. A coordinate block that is read has as many positions as species
    labels; the line that follows its rows holds the dashes and no row
    before it does: the reader stops at the first dashed line. *)
Theorem coord_rows_stop_at_dashes rows :
  forall positions species,
  GULP.coord_rows rows = Ok (positions, species) ->
  length positions = length species
  /\ (exists line,
         nth_error rows (length positions) = Some line
         /\ Py.contains line "------------" = true)
  /\ (forall k line,
         k < length positions -> nth_error rows k = Some line ->
         Py.contains line "------------" = false).
Proof.
  induction rows as [| line rows IH]; intros positions species Hok.
  - discriminate.
  - destruct (Py.contains line "------------") eqn:Hline.
    + cbn [GULP.coord_rows] in Hok. rewrite Hline in Hok.
      injection Hok as <- <-. simpl. split; [reflexivity |].
      split; [exists line; now split | intros k l Hk; lia].
    + rewrite (coord_rows_step _ _ Hline) in Hok.
      destruct (map_result float_ _) as [XYZ |]; [| discriminate].
      destruct (Py.getitem _ 1) as [sp |]; [| discriminate].
      destruct (GULP.coord_rows rows) as [[ps ss] |] eqn:Hrest;
        [| discriminate].
      simpl in Hok. injection Hok as <- <-.
      destruct (IH ps ss eq_refl) as (Hlen & Hend & Hbefore).
      simpl. split; [now rewrite Hlen |]. split; [exact Hend |].
      intros [| k] l Hk Hl.
      * simpl in Hl. now injection Hl as <-.
      * simpl in Hl. apply (Hbefore k l); [lia | exact Hl].
Qed.

(** X2. A block none of whose lines holds the dashes is never read,
    whatever its rows are: the coordinate reader and the derivative
    reader both raise. *)
Theorem block_without_dashes_raises rows :
  (forall line, In line rows -> Py.contains line "------------" = false) ->
  raises (GULP.coord_rows rows) = true /\ raises (GULP.force_rows rows) = true.
Proof.
  induction rows as [| line rows IH]; intros Hrows.
  - split; reflexivity.
  - destruct IH as [IHc IHf]; [intros l Hl; apply Hrows; now right |].
    assert (Py.contains line "------------" = false) as Hline
      by (apply Hrows; now left).
    split.
    + rewrite (coord_rows_step _ _ Hline).
      destruct (map_result float_ _); [| reflexivity].
      destruct (Py.getitem _ 1); [| reflexivity].
      destruct (GULP.coord_rows rows); [discriminate | reflexivity].
    + cbn [GULP.force_rows]. rewrite Hline.
      destruct (GULP.split_minus _) as [[g0 g1] g2].
      destruct (map_result GULP.force_component _); [| reflexivity].
      simpl. destruct (GULP.force_rows rows); [discriminate | reflexivity].
Qed.

(** The number at token [j] of line [k]. *)
Lemma stress_block_unfold lines i :
  GULP.stress_block lines i
  = (a0 <- (v <- GULP.token lines (i + 0 + 3) 1 ;; float_ v) ;;
     b0 <- (v <- GULP.token lines (i + 0 + 3) 3 ;; float_ v) ;;
     a1 <- (v <- GULP.token lines (i + 1 + 3) 1 ;; float_ v) ;;
     b1 <- (v <- GULP.token lines (i + 1 + 3) 3 ;; float_ v) ;;
     a2 <- (v <- GULP.token lines (i + 2 + 3) 1 ;; float_ v) ;;
     b2 <- (v <- GULP.token lines (i + 2 + 3) 3 ;; float_ v) ;;
     Ok [a0; a1; a2; b0; b1; b2])%result.
Proof.
  unfold GULP.stress_block. cbn [map_result].
  destruct (v <- GULP.token lines (i + 0 + 3) 1 ;; float_ v)%result;
    [| reflexivity].
  destruct (v <- GULP.token lines (i + 0 + 3) 3 ;; float_ v)%result;
    [| reflexivity].
  destruct (v <- GULP.token lines (i + 1 + 3) 1 ;; float_ v)%result;
    [| reflexivity].
  destruct (v <- GULP.token lines (i + 1 + 3) 3 ;; float_ v)%result;
    [| reflexivity].
  destruct (v <- GULP.token lines (i + 2 + 3) 1 ;; float_ v)%result;
    [| reflexivity].
  destruct (v <- GULP.token lines (i + 2 + 3) 3 ;; float_ v)%result;
    reflexivity.
Qed.

(** X3. A stress block that is read has six components: the second
    tokens of the three lines that start three lines after the header,
    then their fourth tokens. *)
Theorem stress_block_six_components lines i stress :
  GULP.stress_block lines i = Ok stress ->
  exists a0 a1 a2 b0 b1 b2,
    stress = [a0; a1; a2; b0; b1; b2]
    /\ (v <- GULP.token lines (i + 3) 1 ;; float_ v)%result = Ok a0
    /\ (v <- GULP.token lines (i + 4) 1 ;; float_ v)%result = Ok a1
    /\ (v <- GULP.token lines (i + 5) 1 ;; float_ v)%result = Ok a2
    /\ (v <- GULP.token lines (i + 3) 3 ;; float_ v)%result = Ok b0
    /\ (v <- GULP.token lines (i + 4) 3 ;; float_ v)%result = Ok b1
    /\ (v <- GULP.token lines (i + 5) 3 ;; float_ v)%result = Ok b2.
Proof.
  rewrite stress_block_unfold.
  replace (i + 0 + 3) with (i + 3) by lia.
  replace (i + 1 + 3) with (i + 4) by lia.
  replace (i + 2 + 3) with (i + 5) by lia.
  intros Hok.
  destruct (v <- GULP.token lines (i + 3) 1 ;; float_ v)%result as [a0 |];
    [| discriminate].
  destruct (v <- GULP.token lines (i + 3) 3 ;; float_ v)%result as [b0 |];
    [| discriminate].
  destruct (v <- GULP.token lines (i + 4) 1 ;; float_ v)%result as [a1 |];
    [| discriminate].
  destruct (v <- GULP.token lines (i + 4) 3 ;; float_ v)%result as [b1 |];
    [| discriminate].
  destruct (v <- GULP.token lines (i + 5) 1 ;; float_ v)%result as [a2 |];
    [| discriminate].
  destruct (v <- GULP.token lines (i + 5) 3 ;; float_ v)%result as [b2 |];
    [| discriminate].
  simpl in Hok. injection Hok as <-.
  exists a0, a1, a2, b0, b1, b2. repeat split.
Qed.

End BlockReaders.

Lemma coord_rows_stop_at_dashes_witness :
  GULP.coord_rows (RT := binary64)
    (Py.readlines (coordinates_row ++ dashes))
  = Ok ([[0; 0; 0]]%float, ["C"])
  /\ (length [[0; 0; 0]]%float = length ["C"]
      /\ (exists line,
             nth_error (Py.readlines (coordinates_row ++ dashes))
                       (length [[0; 0; 0]]%float) = Some line
             /\ Py.contains line "------------" = true)
      /\ (forall k line,
             k < length [[0; 0; 0]]%float ->
             nth_error (Py.readlines (coordinates_row ++ dashes)) k
             = Some line ->
             Py.contains line "------------" = false)).
Proof.
  split.
  - vm_compute. reflexivity.
  - apply (coord_rows_stop_at_dashes (RT := binary64)
             (Py.readlines (coordinates_row ++ dashes))
             [[0; 0; 0]]%float ["C"]).
    vm_compute. reflexivity.
Defined.

Lemma block_without_dashes_raises_witness :
  (forall line,
      In line (Py.readlines (coordinates_row ++ coordinates_row)) ->
      Py.contains line "------------" = false)
  /\ (raises (GULP.coord_rows (RT := binary64)
                (Py.readlines (coordinates_row ++ coordinates_row))) = true
      /\ raises (GULP.force_rows (RT := binary64)
                   (Py.readlines (coordinates_row ++ coordinates_row)))
         = true).
Proof.
  assert (forall line,
             In line (Py.readlines (coordinates_row ++ coordinates_row)) ->
             Py.contains line "------------" = false) as Hrows.
  { intros line [<- | [<- | []]]; vm_compute; reflexivity. }
  split.
  - exact Hrows.
  - apply (block_without_dashes_raises (RT := binary64)
             (Py.readlines (coordinates_row ++ coordinates_row)) Hrows).
Defined.

Lemma stress_block_six_components_witness :
  GULP.stress_block (RT := binary64) (Py.readlines stress_text) 0
  = Ok [1.5; 2.5; 3.5; 0.25; -0.5; 0.75]%float
  /\ exists a0 a1 a2 b0 b1 b2,
      [1.5; 2.5; 3.5; 0.25; -0.5; 0.75]%float = [a0; a1; a2; b0; b1; b2]
      /\ (v <- GULP.token (Py.readlines stress_text) (0 + 3) 1 ;; float_ (RT := binary64) v)
           %result = Ok a0
      /\ (v <- GULP.token (Py.readlines stress_text) (0 + 4) 1 ;; float_ (RT := binary64) v)
           %result = Ok a1
      /\ (v <- GULP.token (Py.readlines stress_text) (0 + 5) 1 ;; float_ (RT := binary64) v)
           %result = Ok a2
      /\ (v <- GULP.token (Py.readlines stress_text) (0 + 3) 3 ;; float_ (RT := binary64) v)
           %result = Ok b0
      /\ (v <- GULP.token (Py.readlines stress_text) (0 + 4) 3 ;; float_ (RT := binary64) v)
           %result = Ok b1
      /\ (v <- GULP.token (Py.readlines stress_text) (0 + 5) 3 ;; float_ (RT := binary64) v)
           %result = Ok b2.
Proof.
  split.
  - vm_compute. reflexivity.
  - apply (stress_block_six_components (RT := binary64)
             (Py.readlines stress_text) 0
             [1.5; 2.5; 3.5; 0.25; -0.5; 0.75]%float).
    vm_compute. reflexivity.
Defined.

(** ** Numbers that ran together in the derivative block *)

Section MergedColumns.

Lemma minus_positions_app a b i :
  GULP.minus_positions (a ++ b) i
  = (GULP.minus_positions a i
     ++ GULP.minus_positions b (i + String.length a))%list.
Proof.
  revert i. induction a as [| c a IH]; intros i; simpl.
  - now rewrite Nat.add_0_r.
  - rewrite IH. replace (S i + String.length a) with (i + S (String.length a))
      by lia.
    destruct (Ascii.eqb c "-"); reflexivity.
Qed.

Lemma minus_positions_shift s i j :
  GULP.minus_positions s i = [] -> GULP.minus_positions s j = [].
Proof.
  revert i j. induction s as [| c s IH]; intros i j; simpl; [reflexivity |].
  destruct (Ascii.eqb c "-"); [discriminate | apply IH].
Qed.

Lemma min_index_app a b :
  a <> "" ->
  GULP.min_index (a ++ b)
  = (GULP.min_index a ++ GULP.minus_positions b (String.length a))%list.
Proof.
  destruct a as [| c a]; [congruence | intros _].
  unfold GULP.min_index. cbn [append Py.drop String.length].
  now rewrite minus_positions_app.
Qed.

Lemma negative_positions b k :
  negative_number b -> GULP.minus_positions b k = [k].
Proof.
  intros (digits & -> & H). unfold unmerged, GULP.min_index in H.
  cbn [Py.drop] in H. cbn [GULP.minus_positions]. simpl Ascii.eqb. cbv iota.
  f_equal. exact (minus_positions_shift _ _ _ H).
Qed.

Lemma negative_not_empty b : negative_number b -> b <> "".
Proof. intros (digits & -> & _). discriminate. Qed.

Lemma take_app a b : Py.take (String.length a) (a ++ b) = a.
Proof. induction a as [| c a IH]; simpl; [now destruct b | now rewrite IH]. Qed.

Lemma drop_app a b : Py.drop (String.length a) (a ++ b) = b.
Proof. induction a as [| c a IH]; simpl; [reflexivity | exact IH]. Qed.

Lemma drop_add a n s :
  Py.drop (String.length a + n) (a ++ s) = Py.drop n s.
Proof. induction a as [| c a IH]; simpl; [reflexivity | exact IH]. Qed.

(** X4. Negative numbers that ran into the number before them are
    separated again.  For a first number [a] and negative numbers [b]
    and [c], none with a minus sign inside, the three numbers are
    recovered whether the row came as three tokens, with the first two
    merged, with the last two merged, or as one token. *)
Theorem merged_columns_are_separated a b c :
  plain_number a -> negative_number b -> negative_number c ->
  GULP.split_minus (GULP.pad3 [a; b; c]) = (a, b, c)
  /\ GULP.split_minus (GULP.pad3 [a ++ b; c]) = (a, b, c)
  /\ GULP.split_minus (GULP.pad3 [a; b ++ c]) = (a, b, c)
  /\ GULP.split_minus (GULP.pad3 [a ++ b ++ c]) = (a, b, c).
Proof.
  intros [Ha Hplain] Hb Hc.
  pose proof (negative_not_empty _ Hb) as Hb0.
  assert (GULP.min_index b = []) as Hbm by (destruct Hb as (? & _ & H); exact H).
  cbn [GULP.pad3]. unfold GULP.split_minus, GULP.split_second.
  repeat split.
  - now rewrite Hplain, Hbm.
  - rewrite (min_index_app a b Ha), Hplain, (negative_positions b _ Hb).
    cbn [app]. now rewrite take_app, drop_app, Hbm.
  - rewrite Hplain, (min_index_app b c Hb0), Hbm, (negative_positions c _ Hc).
    cbn [app]. now rewrite take_app, drop_app.
  - rewrite (min_index_app a (b ++ c) Ha), Hplain, minus_positions_app,
      (negative_positions b _ Hb), (negative_positions c _ Hc).
    cbn [app]. rewrite take_app. unfold Py.slice.
    replace (String.length a + String.length b - String.length a)
      with (String.length b) by lia.
    now rewrite drop_app, take_app, drop_add, drop_app.
Qed.

End MergedColumns.

Lemma merged_columns_are_separated_witness :
  (plain_number "0.5" /\ negative_number "-1.25" /\ negative_number "-3.0")
  /\ (GULP.split_minus (GULP.pad3 ["0.5"; "-1.25"; "-3.0"])
      = ("0.5", "-1.25", "-3.0")
      /\ GULP.split_minus (GULP.pad3 ["0.5" ++ "-1.25"; "-3.0"])
         = ("0.5", "-1.25", "-3.0")
      /\ GULP.split_minus (GULP.pad3 ["0.5"; "-1.25" ++ "-3.0"])
         = ("0.5", "-1.25", "-3.0")
      /\ GULP.split_minus (GULP.pad3 ["0.5" ++ "-1.25" ++ "-3.0"])
         = ("0.5", "-1.25", "-3.0")).
Proof.
  assert (plain_number "0.5") as Ha by (split; [discriminate | reflexivity]).
  assert (negative_number "-1.25") as Hb
      by (exists "1.25"; split; reflexivity).
  assert (negative_number "-3.0") as Hc by (exists "3.0"; split; reflexivity).
  split.
  - split; [exact Ha | split; [exact Hb | exact Hc]].
  - apply (merged_columns_are_separated "0.5" "-1.25" "-3.0" Ha Hb Hc).
Defined.

(** ** What a log must hold *)

Section ReadOutcome.
Context {RT : Runtime} {PX : PyxtalLib}.

(** One step of the proof that a computation of the loop keeps an
    observation of the frame; [setter_tac] proves it of an assignment to a
    field of [self]. *)
Ltac frame_step setter_tac :=
  lazymatch goal with
  | |- keeps _ (bind _ _) => apply keeps_bind; [| intro]
  | |- keeps _ (ret _) => apply keeps_ret
  | |- keeps _ (raise _) => apply keeps_raise
  | |- keeps _ (lift _) => apply keeps_lift
  | |- keeps _ GULP.get_self => intro; reflexivity
  | |- keeps _ (GULP.on_self _) => setter_tac
  | |- keeps _ (GULP.set_lattice_para _) => intro; reflexivity
  | |- keeps _ (GULP.set_lattice_vector _) => intro; reflexivity
  | |- keeps _ (for_each _ _) => apply keeps_for_each; intro
  | |- keeps _ (if false then _ else _) => cbv iota
  | |- keeps _ (if ?b then _ else _) => destruct b
  | |- keeps _ (match ?x with _ => _ end) => destruct x
  end.

Lemma scan_line_keeps_blocks ltype lines i line :
  Py.contains line "Final Cartesian lattice vectors" = false ->
  Py.contains line "Non-primitive lattice parameters" = false ->
  keeps lattice_blocks (GULP.scan_line ltype lines i line).
Proof.
  intros Hvectors Hparameters. unfold GULP.scan_line.
  apply keeps_bind; [intro; reflexivity | intro g].
  apply keeps_bind; [apply keeps_lift | intros [group1 |]].
  - repeat frame_step ltac:(intro; reflexivity).
  - rewrite Hvectors, Hparameters.
    repeat first [ progress unfold GULP.asym_step
                 | frame_step ltac:(intro; reflexivity) ].
Qed.

Lemma scan_from_keeps_frame {V} (p : GULP.frame -> V) ltype lines rest :
  (forall i line, In line rest ->
     keeps p (GULP.scan_line ltype lines i line)) ->
  forall i, keeps p (GULP.scan_from ltype lines i rest).
Proof.
  induction rest as [| line rest IH]; intros H i; simpl.
  - apply keeps_ret.
  - apply keeps_bind.
    + apply H. now left.
    + intros _. apply IH. intros j l Hl. apply H. now right.
Qed.

Lemma scanned_blocks g text :
  Py.find text "Final Cartesian lattice vectors" = (-1)%Z ->
  Py.find text "Non-primitive lattice parameters" = (-1)%Z ->
  no_lattice (snd (scanned g text)) = true.
Proof.
  intros Hvectors Hparameters.
  assert (lattice_blocks (snd (scanned g text)) = (None, None)) as Hblocks.
  { unfold scanned, GULP.scan.
    rewrite (scan_from_keeps_frame lattice_blocks); [reflexivity |].
    intros i line Hline. apply scan_line_keeps_blocks.
    - now apply (marker_in_no_line text).
    - now apply (marker_in_no_line text). }
  unfold no_lattice.
  rewrite (f_equal fst Hblocks : GULP.lattice_para _ = None).
  now rewrite (f_equal snd Hblocks : GULP.lattice_vector _ = None).
Qed.

(** X5. A log that holds neither the block "Final Cartesian lattice
    vectors" nor the block "Non-primitive lattice parameters" is an
    error whatever else it holds, the empty log included: the error flag
    is set, the energy is cleared and the lattice of the calculator
    stays. *)
Theorem log_without_lattice_is_an_error g text :
  Py.find text "Final Cartesian lattice vectors" = (-1)%Z ->
  Py.find text "Non-primitive lattice parameters" = (-1)%Z ->
  GULP.error (after_read g text) = true
  /\ GULP.energy (after_read g text) = None
  /\ GULP.lattice (after_read g text) = GULP.lattice g.
Proof.
  intros Hvectors Hparameters.
  pose proof (scanned_blocks g text Hvectors Hparameters) as Hnone.
  rewrite after_read_resolve, resolve_error, resolve_energy, resolve_lattice,
    scanned_lattice, Hnone.
  rewrite !orb_true_r. simpl. split; [reflexivity |]. split; [reflexivity |].
  unfold no_lattice in Hnone.
  destruct (GULP.lattice_para _); [discriminate |].
  destruct (GULP.lattice_vector _); [discriminate | reflexivity].
Qed.

(** The energy per atom is assigned by the statement that follows the
    assignment of the energy. *)
Lemma scan_line_energies ltype lines i line fr fr' :
  GULP.scan_line ltype lines i line fr = (Ok tt, fr') ->
  (GULP.energy (GULP.self fr) <> None ->
   GULP.energy_per_atom (GULP.self fr) <> None) ->
  GULP.energy (GULP.self fr') <> None ->
  GULP.energy_per_atom (GULP.self fr') <> None.
Proof.
  unfold GULP.scan_line.
  unfold bind at 1. unfold GULP.get_self at 1. cbv beta iota.
  unfold bind at 1. unfold lift at 1. cbv beta iota.
  destruct (GULP.energy_line (GULP.self fr) line) as [[group1 |] | e].
  - unfold bind, lift, GULP.on_self, modify, GULP.get_self.
    destruct (float_ group1) as [x |]; [| discriminate].
    cbv beta iota. cbn [GULP.self].
    destruct (truediv _ _) as [y |]; [| discriminate].
    intros H _ _. injection H as <-. cbn [GULP.self].
    destruct (GULP.self fr). discriminate.
  - match goal with
    | |- ?m fr = _ -> _ =>
        assert (keeps (fun fr => energies (GULP.self fr)) m) as Hkept
    end.
    { repeat first
        [ progress unfold GULP.asym_step
        | frame_step ltac:(apply keeps_on_self; intros []; reflexivity) ]. }
    intros Hrun H. specialize (Hkept fr). rewrite Hrun in Hkept.
    cbn [snd] in Hkept.
    rewrite (f_equal fst Hkept : GULP.energy _ = GULP.energy _).
    now rewrite (f_equal snd Hkept
                 : GULP.energy_per_atom _ = GULP.energy_per_atom _).
  - discriminate.
Qed.

Lemma scan_from_energies ltype lines rest :
  forall i fr fr',
  GULP.scan_from ltype lines i rest fr = (Ok tt, fr') ->
  (GULP.energy (GULP.self fr) <> None ->
   GULP.energy_per_atom (GULP.self fr) <> None) ->
  GULP.energy (GULP.self fr') <> None ->
  GULP.energy_per_atom (GULP.self fr') <> None.
Proof.
  induction rest as [| line rest IH]; intros i fr fr'; simpl.
  - unfold ret. intros H. now injection H as <-.
  - unfold bind.
    pose proof (scan_line_energies ltype lines i line fr) as Hline.
    destruct (GULP.scan_line ltype lines i line fr) as [[[] | e] fr1];
      [| discriminate].
    intros Hok H. apply (IH (S i) fr1 fr' Hok).
    apply (Hline fr1 eq_refl H).
Qed.

Lemma resolve_energy_per_atom raised fr :
  GULP.energy_per_atom (resolve raised fr)
  = GULP.energy_per_atom (GULP.self fr).
Proof.
  unfold resolve, no_energy.
  destruct (GULP.self fr) as [c p l fc it e ea st fo po o ct er].
  destruct raised, (GULP.lattice_para fr), (GULP.lattice_vector fr), p, e;
    simpl; try destruct (isnan _); reflexivity.
Qed.

(** X6. On a calculator without an energy (as [__init__] leaves it), a
    log that is read without the error flag gives an energy that is not
    NaN together with an energy per atom: the division by the number of
    atoms did not fail. *)
Theorem energy_per_atom_accompanies_energy g text :
  GULP.energy g = None ->
  GULP.error (after_read g text) = false ->
  exists e per_atom,
    GULP.energy (after_read g text) = Some e
    /\ isnan e = false
    /\ GULP.energy_per_atom (after_read g text) = Some per_atom.
Proof.
  intros Hfresh.
  rewrite after_read_resolve, resolve_error, resolve_energy,
    resolve_energy_per_atom.
  intros Hflag.
  apply orb_false_elim in Hflag. destruct Hflag as [Hflag Henergy].
  apply orb_false_elim in Hflag. destruct Hflag as [Hflag Hlattice].
  apply orb_false_elim in Hflag. destruct Hflag as [_ Hraised].
  rewrite Hraised, Hlattice, Henergy. simpl.
  assert (fst (scanned g text) = Ok tt) as Hok.
  { destruct (fst (scanned g text)) as [[] |]; [reflexivity | discriminate]. }
  assert (GULP.energy (GULP.self (snd (scanned g text))) <> None ->
          GULP.energy_per_atom (GULP.self (snd (scanned g text))) <> None)
    as Hpair.
  { apply (scan_from_energies (ltype_of g) (Py.readlines text)
             (Py.readlines text) 0
             {| GULP.self := g;
                GULP.lattice_para := None;
                GULP.lattice_vector := None |}).
    - fold (GULP.scan (ltype_of g) (Py.readlines text)).
      fold (scanned g text). rewrite <- Hok. apply surjective_pairing.
    - cbn [GULP.self]. rewrite Hfresh. congruence. }
  unfold no_energy in Henergy.
  destruct (GULP.energy (GULP.self (snd (scanned g text)))) as [e |];
    [| discriminate].
  destruct (GULP.energy_per_atom (GULP.self (snd (scanned g text))))
    as [per_atom |].
  - exists e, per_atom. repeat split. exact Henergy.
  - exfalso. apply Hpair; [discriminate | reflexivity].
Qed.

End ReadOutcome.

Lemma log_without_lattice_is_an_error_witness :
  (Py.find energy_line "Final Cartesian lattice vectors" = (-1)%Z
   /\ Py.find energy_line "Non-primitive lattice parameters" = (-1)%Z)
  /\ (GULP.error (after_read carbon_calc energy_line) = true
      /\ GULP.energy (after_read carbon_calc energy_line) = None
      /\ GULP.lattice (after_read carbon_calc energy_line)
         = GULP.lattice carbon_calc).
Proof.
  split.
  - split; vm_compute; reflexivity.
  - apply (log_without_lattice_is_an_error carbon_calc energy_line);
      vm_compute; reflexivity.
Defined.

Lemma energy_per_atom_accompanies_energy_witness :
  (GULP.energy carbon_calc = None
   /\ GULP.error (after_read carbon_calc log_finished) = false)
  /\ exists e per_atom,
      GULP.energy (after_read carbon_calc log_finished) = Some e
      /\ isnan e = false
      /\ GULP.energy_per_atom (after_read carbon_calc log_finished)
         = Some per_atom.
Proof.
  split.
  - split; [reflexivity | vm_compute; reflexivity].
  - apply (energy_per_atom_accompanies_energy carbon_calc log_finished);
      [reflexivity | vm_compute; reflexivity].
Defined.

(* ================================================================== *)
(** * Further properties of the molecular variant *)

Section MolecularDeck.
Context {RT : Runtime} {PX : PyxtalLib}.
Variable mol_site_update
  : GULP_OC.mol_site -> list (list pyfloat) -> Lattice
    -> result GULP_OC.mol_site.
Variable optimize_lattice : GULP_OC.crystal -> result GULP_OC.crystal.

(** [run] raises what [write] raises, with the deck left as far as it
    was written and no command handed to the shell. *)
Lemma run_raises_with_write environ sh clean pause g w e :
  fst (GULP_OC.write environ g ("", fs w)) = Raise e ->
  fst (GULP_OC.run mol_site_update optimize_lattice environ sh clean pause
                   (g, w)) = Raise e
  /\ commands (snd (snd (GULP_OC.run mol_site_update optimize_lattice environ
                                     sh clean pause (g, w))))
     = commands w.
Proof.
  intros Hwrite. unfold GULP_OC.run.
  rewrite (bind_ok get _ (g, w) (g, w) eq_refl). cbn [snd fst].
  assert (GULP_OC.write_file environ g w
          = (Raise e,
             {| fs := file_put (GULP_OC.input (GULP_OC.cfg g))
                        (fst (snd (GULP_OC.write environ g ("", fs w))))
                        (snd (snd (GULP_OC.write environ g ("", fs w))));
                commands := commands w |})) as Hfile.
  { unfold GULP_OC.write_file.
    destruct (GULP_OC.write environ g ("", fs w)) as [r [content fs']].
    simpl in Hwrite. subst r. reflexivity. }
  assert (fst (on_snd (S := GULP_OC.t) (GULP_OC.write_file environ g) (g, w))
          = Raise e) as Hfst.
  { unfold on_snd. cbn [snd fst]. rewrite Hfile. reflexivity. }
  rewrite (bind_raise _ _ _ _ Hfst).
  split; [reflexivity |].
  unfold on_snd. cbn [snd fst]. rewrite Hfile. reflexivity.
Qed.

Lemma iodine_key_missing lab : dict_get at_types ("I_" ++ lab) = None.
Proof. reflexivity. Qed.

(** X7. The halogens F, Cl and Br are looked up in [at_types] under
    their element alone, whatever their label, and are registered there.
    Iodine is looked up under "I_" followed by its label, and no such
    key is registered whatever the label, although the table has the
    entry "I": a well-formed crystal with an iodine atom is never
    written, [write] raises the [KeyError] of an unregistered key and
    [run] hands no command to the shell. *)
Theorem iodine_is_never_supported environ sh clean pause g w site j
    labels charges lab :
  Forall (site_ok g) (GULP_OC.mol_sites (GULP_OC.structure g)) ->
  In site (GULP_OC.mol_sites (GULP_OC.structure g)) ->
  GULP_OC.labels_charges g site = Ok (labels, charges) ->
  j < length (GULP_OC.coords_first site) ->
  Py.getitem (GULP_OC.species_string site) j = Ok "I" ->
  Py.getitem labels j = Ok lab ->
  (forall halogen other_site other_labels k,
      In halogen ["F"; "Cl"; "Br"] ->
      Py.getitem (GULP_OC.species_string other_site) k = Ok halogen ->
      GULP_OC.atom_symbol other_site other_labels k = Ok halogen
      /\ dict_get at_types halogen = Some halogen)
  /\ GULP_OC.atom_symbol site labels j = Ok ("I_" ++ lab)
  /\ dict_get at_types "I" = Some "I"
  /\ (forall any, dict_get at_types ("I_" ++ any) = None)
  /\ exists bad,
      dict_get at_types bad = None
      /\ (forall file,
             fst (GULP_OC.write environ g file)
             = Raise (GULP_OC.unsupported bad))
      /\ fst (GULP_OC.run mol_site_update optimize_lattice environ sh
                          clean pause (g, w))
         = Raise (GULP_OC.unsupported bad)
      /\ commands (snd (snd (GULP_OC.run mol_site_update optimize_lattice
                                         environ sh clean pause (g, w))))
         = commands w.
Proof.
  intros Hok Hin Hlc Hj Helement Hlab.
  assert (GULP_OC.atom_symbol site labels j = Ok ("I_" ++ lab)) as Hsym.
  { unfold GULP_OC.atom_symbol. rewrite Helement. simpl. now rewrite Hlab. }
  split.
  { intros halogen other_site other_labels k Hhal Hel.
    unfold GULP_OC.atom_symbol. rewrite Hel.
    destruct Hhal as [<- | [<- | [<- | []]]]; split; reflexivity. }
  split; [exact Hsym |]. split; [reflexivity |].
  split; [exact iodine_key_missing |].
  destruct (write_sites_result g _ Hok)
    as [(symbols & _ & Hall) | (bad & Hbad & Hraise)].
  { exfalso. apply (Hall site j ("I_" ++ lab) Hin).
    - exists labels, charges. repeat split; assumption.
    - apply iodine_key_missing. }
  exists bad. split; [exact Hbad |].
  pose proof (write_raises_with_sites environ g _ Hraise) as Hwrite.
  split; [exact Hwrite |].
  apply run_raises_with_write. apply Hwrite.
Qed.

Lemma for_each_nil_set (body : string -> SE (string * files) unit) st :
  set_order_ok set_list ->
  for_each (set_list []) body st = (Ok tt, st).
Proof.
  intros Hset. destruct (Hset []) as [_ Hin].
  destruct (set_list []) as [| x l]; [reflexivity |].
  destruct (proj1 (Hin x) (or_introl eq_refl)).
Qed.

(** X8. A crystal without molecular sites is not written: after the
    header, the cell and the empty sections of the atoms and the
    species, [write] raises [IndexError] where it takes the first site
    for the symmetry operations, and [run] hands no command to the
    shell. *)
Theorem crystal_without_sites_is_not_written environ sh clean pause g w :
  set_order_ok set_list ->
  GULP_OC.mol_sites (GULP_OC.structure g) = [] ->
  (forall file, fst (GULP_OC.write environ g file) = Raise IndexError)
  /\ fst (GULP_OC.run mol_site_update optimize_lattice environ sh clean pause
                      (g, w)) = Raise IndexError
  /\ commands (snd (snd (GULP_OC.run mol_site_update optimize_lattice environ
                                     sh clean pause (g, w))))
     = commands w.
Proof.
  intros Hset Hnone.
  assert (forall file, fst (GULP_OC.write environ g file) = Raise IndexError)
    as Hwrite.
  { intro file. unfold GULP_OC.write.
    destruct (lat_para _) as [[[[[a b] c] alpha0] beta0] gamma0].
    rewrite Hnone. cbn [GULP_OC.write_sites].
    unfold GULP_OC.write_species.
    destruct (GULP_OC.opt (GULP_OC.cfg g) =? "conv")%string;
      rewrite !fwrite_then;
      rewrite (bind_ok (ret []) _ _ [] eq_refl);
      unfold ret at 1; cbn [snd fst];
      (rewrite (bind_ok (bind (GULP_OC.fwrite _) _) _ _ tt);
       [| rewrite fwrite_then, (for_each_nil_set _ _ Hset); reflexivity ]);
      rewrite fwrite_then; reflexivity. }
  split; [exact Hwrite |].
  apply run_raises_with_write. apply Hwrite.
Qed.

End MolecularDeck.

Lemma iodine_is_never_supported_witness :
  GULP_OC.atom_symbol (atom_site_of "I" "i") ["i"] 0 = Ok "I_i"
  /\ dict_get at_types "I" = Some "I"
  /\ (forall any, dict_get at_types ("I_" ++ any) = None)
  /\ exists bad,
      dict_get at_types bad = None
      /\ (forall file,
             fst (GULP_OC.write []
                    (new_GULP_OC (crystal_of [atom_site_of "I" "i"])) file)
             = Raise (GULP_OC.unsupported bad))
      /\ fst (GULP_OC.run store_coords keep_lattice [] no_shell true false
                (new_GULP_OC (crystal_of [atom_site_of "I" "i"]), empty_world))
         = Raise (GULP_OC.unsupported bad)
      /\ commands
           (snd (snd (GULP_OC.run store_coords keep_lattice [] no_shell true
                        false
                        (new_GULP_OC (crystal_of [atom_site_of "I" "i"]),
                         empty_world))))
         = commands empty_world.
Proof.
  refine (proj2 (iodine_is_never_supported store_coords keep_lattice []
                   no_shell true false
                   (new_GULP_OC (crystal_of [atom_site_of "I" "i"]))
                   empty_world (atom_site_of "I" "i") 0 ["i"] [0%float] "i"
                   _ _ _ _ _ _)).
  - constructor; [| constructor].
    exists ["i"], [0%float]. simpl.
    repeat split; try lia. constructor; [simpl; lia | constructor].
  - left. reflexivity.
  - reflexivity.
  - simpl. lia.
  - reflexivity.
  - reflexivity.
Defined.

Lemma crystal_without_sites_is_not_written_witness :
  (forall file,
      fst (GULP_OC.write [] (new_GULP_OC (crystal_of [])) file)
      = Raise IndexError)
  /\ fst (GULP_OC.run store_coords keep_lattice [] no_shell true false
            (new_GULP_OC (crystal_of []), empty_world))
     = Raise IndexError
  /\ commands
       (snd (snd (GULP_OC.run store_coords keep_lattice [] no_shell true false
                    (new_GULP_OC (crystal_of []), empty_world))))
     = commands empty_world.
Proof.
  apply (crystal_without_sites_is_not_written (RT := binary64)
           (PX := ortho_cell) store_coords keep_lattice []
           no_shell true false (new_GULP_OC (crystal_of [])) empty_world).
  - exact first_seen_ok.
  - reflexivity.
Defined.

(** ** The sites after [read] *)

Section MolecularSites.
Context {RT : Runtime} {PX : PyxtalLib}.
Variable mol_site_update
  : GULP_OC.mol_site -> list (list pyfloat) -> Lattice
    -> result GULP_OC.mol_site.
Variable optimize_lattice : GULP_OC.crystal -> result GULP_OC.crystal.

Ltac sites_step :=
  lazymatch goal with
  | |- keeps _ (bind _ _) => apply keeps_bind; [| intro]
  | |- keeps _ (ret _) => apply keeps_ret
  | |- keeps _ (raise _) => apply keeps_raise
  | |- keeps _ (lift _) => apply keeps_lift
  | |- keeps _ get => apply keeps_get
  | |- keeps _ (modify _) => apply keeps_modify; intros []; reflexivity
  | |- keeps _ (GULP_OC.on_structure _) =>
      unfold GULP_OC.on_structure; apply keeps_modify; intros [];
      reflexivity
  | |- keeps _ (if false then _ else _) => cbv iota
  | |- keeps _ (if ?b then _ else _) => destruct b
  | |- keeps _ (match ?x with _ => _ end) => destruct x
  end.

Lemma oc_scan_line_keeps_sites lines i line :
  keeps sites_of (GULP_OC.scan_line lines i line).
Proof. unfold GULP_OC.scan_line. repeat sites_step. Qed.

Lemma oc_scan_line_keeps_optimized lines i line :
  Py.contains line "Job Finished" = false ->
  keeps GULP_OC.optimized (GULP_OC.scan_line lines i line).
Proof.
  intros Hline. unfold GULP_OC.scan_line. rewrite Hline.
  repeat sites_step.
Qed.

Lemma oc_scan_line_keeps_positions lines i line :
  Py.contains line "Final asymmetric unit coord" = false ->
  Py.contains line "Final fractional coordinates of atoms" = false ->
  keeps GULP_OC.positions (GULP_OC.scan_line lines i line).
Proof.
  intros Hasym Hfrac. unfold GULP_OC.scan_line. rewrite Hasym, Hfrac.
  cbn [orb]. repeat sites_step.
Qed.

(** Without coordinates the first pass of the loop over the sites raises,
    and the handler leaves the calculator as it was. *)
Lemma fold_back_without_positions lat g :
  GULP_OC.positions g = None -> sites_of g <> [] ->
  snd (GULP_OC.fold_back mol_site_update optimize_lattice lat g) = g.
Proof.
  intros Hpos Hsites. unfold sites_of in Hsites.
  unfold GULP_OC.fold_back, try_except.
  unfold bind at 1. unfold get at 1. cbv beta iota.
  destruct (GULP_OC.mol_sites (GULP_OC.structure g)) as [| site l];
    [congruence |].
  cbn [GULP_OC.update_sites]. unfold bind, get, lift. rewrite Hpos.
  reflexivity.
Qed.

Lemma finish_keeps_sites g1 :
  GULP_OC.optimized g1 = false
  \/ (GULP_OC.positions g1 = None /\ sites_of g1 <> []) ->
  sites_of (snd (GULP_OC.finish mol_site_update optimize_lattice g1))
  = sites_of g1.
Proof.
  intros Hcase. unfold GULP_OC.finish.
  cbv beta iota delta [bind get modify lift GULP_OC.on_structure].
  destruct (Lattice_from_matrix (GULP_OC.cell_or_own g1) None) as [lat0 | e];
    cbv beta iota.
  - destruct (GULP_OC.optimized g1) eqn:Hopt.
    + destruct Hcase as [Hcase | [Hpos Hsites]]; [discriminate |].
      rewrite fold_back_without_positions.
      * destruct g1; reflexivity.
      * destruct g1; exact Hpos.
      * destruct g1; exact Hsites.
    + destruct g1; reflexivity.
  - destruct g1; reflexivity.
Qed.

(** X9. [GULP_OC.read] changes the molecular sites of the structure only
    from a log that is marked finished and holds a block of coordinates.
    On a log without the text "Job Finished", read by a calculator that
    was not marked optimized, the sites stay as they were, whatever
    coordinates the log holds.  On a log without a coordinate block,
    finished or not, the sites of a structure that has some stay as well:
    the exception of the missing coordinates is swallowed.  Both hold
    whether or not [read] raises. *)
Theorem sites_change_only_from_finished_coordinates g text :
  (GULP_OC.optimized g = false /\ Py.find text "Job Finished" = (-1)%Z)
  \/ (GULP_OC.positions g = None /\ sites_of g <> []
      /\ Py.find text "Final asymmetric unit coord" = (-1)%Z
      /\ Py.find text "Final fractional coordinates of atoms" = (-1)%Z) ->
  sites_of (snd (GULP_OC.read mol_site_update optimize_lattice text g))
  = sites_of g.
Proof.
  intros Hcase.
  pose proof (oc_scan_from_keeps sites_of (Py.readlines text)
                (Py.readlines text)
                (fun i line _ => oc_scan_line_keeps_sites _ i line) 0 g)
    as Hsites.
  fold (GULP_OC.scan (Py.readlines text)) in Hsites.
  assert (GULP_OC.optimized (snd (GULP_OC.scan (Py.readlines text) g)) = false
          \/ (GULP_OC.positions (snd (GULP_OC.scan (Py.readlines text) g))
              = None
              /\ sites_of (snd (GULP_OC.scan (Py.readlines text) g)) <> []))
    as Hscanned.
  { destruct Hcase as [[Hopt Hnone] | (Hpos & Hsome & Hasym & Hfrac)].
    - left. rewrite <- Hopt.
      apply (oc_scan_from_keeps GULP_OC.optimized (Py.readlines text)
               (Py.readlines text)).
      intros i line Hin. apply oc_scan_line_keeps_optimized.
      now apply (marker_in_no_line text).
    - right. split; [| now rewrite Hsites].
      rewrite <- Hpos.
      apply (oc_scan_from_keeps GULP_OC.positions (Py.readlines text)
               (Py.readlines text)).
      intros i line Hin. apply oc_scan_line_keeps_positions.
      + now apply (marker_in_no_line text).
      + now apply (marker_in_no_line text). }
  unfold GULP_OC.read, bind.
  destruct (GULP_OC.scan (Py.readlines text) g) as [[[] | e] g1];
    cbn [snd] in *.
  - rewrite (finish_keeps_sites g1 Hscanned). exact Hsites.
  - exact Hsites.
Qed.

End MolecularSites.

Lemma sites_change_only_from_finished_coordinates_witness :
  ((GULP_OC.optimized (new_GULP_OC (carbon_crystal "c3")) = false
    /\ Py.find (coordinates_header ++ coordinates_row ++ dashes)
               "Job Finished" = (-1)%Z)
   /\ sites_of (snd (GULP_OC.read store_coords keep_lattice
                       (coordinates_header ++ coordinates_row ++ dashes)
                       (new_GULP_OC (carbon_crystal "c3"))))
      = sites_of (new_GULP_OC (carbon_crystal "c3")))
  /\ ((GULP_OC.positions (new_GULP_OC (carbon_crystal "c3")) = None
       /\ sites_of (new_GULP_OC (carbon_crystal "c3")) <> []
       /\ Py.find closing_lines "Final asymmetric unit coord" = (-1)%Z
       /\ Py.find closing_lines "Final fractional coordinates of atoms"
          = (-1)%Z)
      /\ sites_of (snd (GULP_OC.read store_coords keep_lattice closing_lines
                          (new_GULP_OC (carbon_crystal "c3"))))
         = sites_of (new_GULP_OC (carbon_crystal "c3"))).
Proof.
  assert (GULP_OC.optimized (new_GULP_OC (carbon_crystal "c3")) = false
          /\ Py.find (coordinates_header ++ coordinates_row ++ dashes)
                     "Job Finished" = (-1)%Z) as Hfirst.
  { split; [reflexivity | vm_compute; reflexivity]. }
  assert (GULP_OC.positions (new_GULP_OC (carbon_crystal "c3")) = None
          /\ sites_of (new_GULP_OC (carbon_crystal "c3")) <> []
          /\ Py.find closing_lines "Final asymmetric unit coord" = (-1)%Z
          /\ Py.find closing_lines "Final fractional coordinates of atoms"
             = (-1)%Z) as Hsecond.
  { split; [reflexivity |]. split; [discriminate |].
    split; vm_compute; reflexivity. }
  split.
  - split; [exact Hfirst |].
    apply (sites_change_only_from_finished_coordinates (RT := binary64)
             (PX := ortho_cell) store_coords
             keep_lattice (new_GULP_OC (carbon_crystal "c3"))
             (coordinates_header ++ coordinates_row ++ dashes)).
    left. exact Hfirst.
  - split; [exact Hsecond |].
    apply (sites_change_only_from_finished_coordinates (RT := binary64)
             (PX := ortho_cell) store_coords
             keep_lattice (new_GULP_OC (carbon_crystal "c3")) closing_lines).
    right. exact Hsecond.
Defined.

(* ================================================================== *)
(** * Further properties of the runs and the conversions *)

Section RunWithoutLog.
Context {RT : Runtime} {PX : PyxtalLib}.

(** X10. When [write] succeeds and the command leaves no file under the
    name of the log, [GULP.run] raises [FileNotFoundError]: the log is
    opened outside the [try] block of [read].  The calculator is as it
    was, its error flag included; the deck stays in the folder, nothing
    is cleaned, and the command was handed to the shell once. *)
Theorem run_without_log_raises sh clean g w :
  let cmd :=
    GULP.exe (GULP.cfg g) ++ "<" ++ GULP.input (GULP.cfg g) ++ ">"
    ++ GULP.output (GULP.cfg g) in
  let deck_files :=
    file_put (GULP.input (GULP.cfg g)) (snd (GULP.deck g)) (fs w) in
  fst (GULP.deck g) = Ok tt ->
  dict_get (sh cmd deck_files) (GULP.output (GULP.cfg g)) = None ->
  fst (GULP.run sh clean (g, w)) = Raise FileNotFoundError
  /\ fst (snd (GULP.run sh clean (g, w))) = g
  /\ fs (snd (snd (GULP.run sh clean (g, w)))) = sh cmd deck_files
  /\ commands (snd (snd (GULP.run sh clean (g, w))))
     = (commands w ++ [cmd])%list.
Proof.
  intros cmd deck_files Hdeck Hnone. subst cmd deck_files.
  unfold GULP.run, GULP.write_file, GULP.execute, os_system, GULP.deck in *.
  unfold bind, get, on_snd, modify, lift, file_read. cbn [fst snd].
  destruct (GULP.write g "") as [r content]. cbn [fst snd] in *. subst r.
  cbn [fst snd fs commands GULP.cfg]. rewrite Hnone. repeat split.
Qed.

End RunWithoutLog.

Lemma run_without_log_raises_witness :
  (fst (GULP.deck carbon_calc) = Ok tt
   /\ dict_get (no_shell "gulp<_gulp.in>_gulp.log"
                  (file_put "_gulp.in" (snd (GULP.deck carbon_calc)) []))
               "_gulp.log" = None)
  /\ fst (GULP.run no_shell true (carbon_calc, empty_world))
     = Raise FileNotFoundError.
Proof.
  split.
  - split; vm_compute; reflexivity.
  - apply (run_without_log_raises (RT := binary64) (PX := ortho_cell)
             no_shell true carbon_calc empty_world);
      vm_compute; reflexivity.
Defined.

Section Conversion.
Context {RT : Runtime} {PX : PyxtalLib}.
Variable make_atoms
  : list string -> list (list pyfloat) -> matrix -> result Atoms.
Variable from_seed : Atoms -> pyfloat -> pyxtal_obj * bool.

Lemma seed_loop_returns a tols :
  forall last,
  tols <> [] \/ last <> None ->
  exists p,
    seed_loop from_seed a tols last = Ok p
    /\ ((exists tol, In tol tols /\ from_seed a tol = (p, false))
        \/ ((forall t, In t tols -> snd (from_seed a t) = true)
            /\ Some p = match rev tols with
                        | t :: _ => Some (fst (from_seed a t))
                        | [] => last
                        end)).
Proof.
  induction tols as [| tol tols IH]; intros last Hsome.
  - destruct Hsome as [H | H]; [congruence |].
    destruct last as [p |]; [| congruence].
    exists p. split; [reflexivity |]. right. split; [intros t [] | reflexivity].
  - cbn [seed_loop]. destruct (from_seed a tol) as [p raised] eqn:Htol.
    destruct raised.
    + assert (Some p <> None) as Hbound by discriminate.
      destruct (IH (Some p) (or_intror Hbound)) as (p' & Hloop & Hcases).
      exists p'. split; [exact Hloop |].
      destruct Hcases as [(t & Hin & Ht) | [Hall Hlast]].
      * left. exists t. split; [now right | exact Ht].
      * right. split.
        -- intros t [<- | Hin]; [now rewrite Htol | now apply Hall].
        -- cbn [rev]. destruct (rev tols) as [| t r]; cbn [app].
           ++ now rewrite Htol.
           ++ exact Hlast.
    + exists p. split; [reflexivity |]. left. exists tol.
      split; [now left | exact Htol].
Qed.

(** X11. Once the [Atoms] object is built, [to_pyxtal] returns a
    structure whatever [from_seed] does: the structure of a tolerance at
    which [from_seed] did not raise, or, when it raised at each of the
    four tolerances, the structure that the last attempt, at 1e-5, left
    behind.  The exceptions of [from_seed] are never seen by the
    caller. *)
Theorem to_pyxtal_always_returns g a :
  to_ase make_atoms g = Ok a ->
  let tolerances :=
    [of_literal (Py.LitDec false 1 (-2)); of_literal (Py.LitDec false 1 (-3));
     of_literal (Py.LitDec false 1 (-4)); of_literal (Py.LitDec false 1 (-5))]
  in
  exists p,
    to_pyxtal make_atoms from_seed g = Ok p
    /\ ((exists tol, In tol tolerances /\ from_seed a tol = (p, false))
        \/ ((forall t, In t tolerances -> snd (from_seed a t) = true)
            /\ p = fst (from_seed a (of_literal (Py.LitDec false 1 (-5)))))).
Proof.
  intros Hatoms tolerances. unfold to_pyxtal. rewrite Hatoms. cbn [rbind].
  assert (tolerances <> []) as Hsome by discriminate.
  destruct (seed_loop_returns a tolerances None (or_introl Hsome))
    as (p & Hloop & Hcases).
  exists p. split; [exact Hloop |].
  destruct Hcases as [Hfound | [Hall Hlast]]; [now left | right].
  split; [exact Hall |]. cbn in Hlast. now injection Hlast.
Qed.

End Conversion.

Lemma to_pyxtal_always_returns_witness :
  to_ase atoms_of carbon_calc = Ok carbon_cell
  /\ exists p,
      to_pyxtal atoms_of seed_always_fails carbon_calc = Ok p
      /\ ((exists tol,
              In tol [Binary64.of_literal (Py.LitDec false 1 (-2));
                      Binary64.of_literal (Py.LitDec false 1 (-3));
                      Binary64.of_literal (Py.LitDec false 1 (-4));
                      Binary64.of_literal (Py.LitDec false 1 (-5))]
              /\ seed_always_fails carbon_cell tol = (p, false))
          \/ ((forall t,
                  In t [Binary64.of_literal (Py.LitDec false 1 (-2));
                        Binary64.of_literal (Py.LitDec false 1 (-3));
                        Binary64.of_literal (Py.LitDec false 1 (-4));
                        Binary64.of_literal (Py.LitDec false 1 (-5))] ->
                  snd (seed_always_fails carbon_cell t) = true)
              /\ p = fst (seed_always_fails carbon_cell
                            (Binary64.of_literal (Py.LitDec false 1 (-5)))))).
Proof.
  split.
  - reflexivity.
  - apply (to_pyxtal_always_returns (RT := binary64) (PX := ortho_cell)
             atoms_of seed_always_fails carbon_calc
             carbon_cell).
    reflexivity.
Defined.

Lemma all_coordinates_cores_only_witness :
  (GULP.symmetry (GULP.cfg (oxide_calc true false)) = false
   \/ GULP.pyxtal (oxide_calc true false) = None)
  /\ Forall (fun coord => 3 <= length coord)
            (GULP.frac_coords (oxide_calc true false))
  /\ GULP.write_fractional (oxide_calc true false) ""
     = (Ok tt,
        "" ++ GULP.nl ++ "fractional" ++ GULP.nl
        ++ join (map (fun cs => line_text (snd cs) (fst cs) "core")
                     (combine (GULP.frac_coords (oxide_calc true false))
                              (GULP.sites (GULP.cfg (oxide_calc true false)))))).
Proof.
  assert (Forall (fun coord : list float => 3 <= length coord)
                 (GULP.frac_coords (oxide_calc true false))) as Hcoords.
  { repeat constructor. }
  split; [left; reflexivity |]. split; [exact Hcoords |].
  apply (all_coordinates_cores_only (RT := binary64) (PX := ortho_cell)
           (oxide_calc true false) "" (or_introl eq_refl) Hcoords).
Defined.

Lemma symmetry_branch_pairs_shell_witness :
  (GULP.symmetry (GULP.cfg (oxide_calc true true)) = true
   /\ GULP.pyxtal (oxide_calc true true) = Some oxide_pyxtal)
  /\ Forall (fun site => 3 <= length (site_position site))
            (px_atom_sites oxide_pyxtal)
  /\ GULP.write_fractional (oxide_calc true true) ""
     = (Ok tt,
        "" ++ GULP.nl ++ "fractional" ++ GULP.nl
        ++ join (map (site_text (oxide_calc true true))
                     (px_atom_sites oxide_pyxtal))
        ++ GULP.nl ++ "space" ++ GULP.nl
        ++ Py.format_d (px_group_number oxide_pyxtal)
        ++ GULP.nl ++ GULP.nl ++ "origin" ++ GULP.nl ++ "0 0 0" ++ GULP.nl).
Proof.
  assert (Forall (fun site : atom_site => 3 <= length (site_position site))
                 (px_atom_sites oxide_pyxtal)) as Hsites.
  { repeat constructor. }
  split; [split; reflexivity |]. split; [exact Hsites |].
  apply (symmetry_branch_pairs_shell (RT := binary64) (PX := ortho_cell)
           (oxide_calc true true) oxide_pyxtal "" eq_refl eq_refl Hsites).
Defined.

(** ** The rows of the derivatives *)

Section DerivativeRows.
Context {RT : Runtime}.

Lemma map_result_length {A B} (f : A -> result B) l :
  forall ys, map_result f l = Ok ys -> length ys = length l.
Proof.
  induction l as [| x l IH]; intros ys; cbn [map_result].
  - intros H. now injection H as <-.
  - destruct (f x) as [y |]; [| discriminate]. cbn [rbind].
    destruct (map_result f l) as [ys' |]; [| discriminate]. cbn [rbind].
    intros H. injection H as <-. cbn [length]. now rewrite (IH ys' eq_refl).
Qed.

(** X14. A block of derivatives that is read gives three components for
    each of its rows, also for a row whose numbers ran together; the
    line that follows the rows holds the dashes and no row before it
    does. *)
Theorem force_rows_have_three_components rows :
  forall forces,
  GULP.force_rows rows = Ok forces ->
  Forall (fun G => length G = 3) forces
  /\ (exists line,
         nth_error rows (length forces) = Some line
         /\ Py.contains line "------------" = true)
  /\ (forall k line,
         k < length forces -> nth_error rows k = Some line ->
         Py.contains line "------------" = false).
Proof.
  induction rows as [| line rows IH]; intros forces Hok.
  - discriminate.
  - cbn [GULP.force_rows] in Hok.
    destruct (Py.contains line "------------") eqn:Hline.
    + injection Hok as <-. simpl. split; [constructor |].
      split; [exists line; now split | intros k l Hk; lia].
    + destruct (GULP.split_minus _) as [[g0 g1] g2].
      destruct (map_result GULP.force_component [g0; g1; g2]) as [G |] eqn:HG;
        [| discriminate].
      cbn [rbind] in Hok.
      destruct (GULP.force_rows rows) as [rest |]; [| discriminate].
      cbn [rbind] in Hok. injection Hok as <-.
      destruct (IH rest eq_refl) as (Hthree & Hend & Hbefore).
      split.
      * constructor; [exact (map_result_length _ _ G HG) | exact Hthree].
      * split; [exact Hend |].
        intros [| k] l Hk Hl; simpl in Hl.
        -- now injection Hl as <-.
        -- apply (Hbefore k l); [simpl in Hk; lia | exact Hl].
Qed.

End DerivativeRows.

Lemma force_rows_have_three_components_witness :
  GULP.force_rows derivative_rows = Ok derivative_forces
  /\ length derivative_forces = 2
  /\ Forall (fun G => length G = 3) derivative_forces.
Proof.
  assert (GULP.force_rows (RT := binary64) derivative_rows
          = Ok derivative_forces) as Hread.
  { vm_compute. reflexivity. }
  split; [exact Hread |]. split; [reflexivity |].
  apply (force_rows_have_three_components (RT := binary64) derivative_rows
           derivative_forces Hread).
Defined.

(** ** A failed log seen from [single_optimize] *)

Section FailedLog.
Context {RT : Runtime} {PX : PyxtalLib}.
Variable sh : shell.
Variable make_atoms
  : list string -> list (list pyfloat) -> matrix -> result Atoms.
Variable from_seed : Atoms -> pyfloat -> pyxtal_obj * bool.

Ltac cfg_step :=
  lazymatch goal with
  | |- keeps _ (bind _ _) => apply keeps_bind; [| intro]
  | |- keeps _ (ret _) => apply keeps_ret
  | |- keeps _ (raise _) => apply keeps_raise
  | |- keeps _ (lift _) => apply keeps_lift
  | |- keeps _ GULP.get_self => intro; reflexivity
  | |- keeps _ (GULP.on_self _) => apply keeps_on_self; intros []; reflexivity
  | |- keeps _ (GULP.set_lattice_para _) => intro; reflexivity
  | |- keeps _ (GULP.set_lattice_vector _) => intro; reflexivity
  | |- keeps _ (for_each _ _) => apply keeps_for_each; intro
  | |- keeps _ (if ?b then _ else _) => destruct b
  | |- keeps _ (match ?x with _ => _ end) => destruct x
  end.

(** [read] assigns no attribute of the configuration. *)
Lemma scan_line_keeps_cfg ltype lines i line :
  keeps (fun fr => GULP.cfg (GULP.self fr)) (GULP.scan_line ltype lines i line).
Proof.
  unfold GULP.scan_line.
  repeat first [ progress unfold GULP.asym_step | cfg_step ].
Qed.

Lemma resolve_cfg raised fr :
  GULP.cfg (resolve raised fr) = GULP.cfg (GULP.self fr).
Proof.
  unfold resolve, no_energy.
  destruct (GULP.self fr) as [c p l fc it e ea st fo po o ct er].
  destruct raised, (GULP.lattice_para fr), (GULP.lattice_vector fr), p, e;
    simpl; try destruct (isnan _); reflexivity.
Qed.

Lemma after_read_cfg g text : GULP.cfg (after_read g text) = GULP.cfg g.
Proof.
  rewrite after_read_resolve, resolve_cfg.
  unfold scanned, GULP.scan.
  apply (scan_from_keeps GULP.cfg).
  intros. apply scan_line_keeps_cfg.
Qed.

(** [run] when the deck is written and the command leaves a log. *)
Lemma run_with_log clean_ g w text :
  let cmd :=
    GULP.exe (GULP.cfg g) ++ "<" ++ GULP.input (GULP.cfg g) ++ ">"
    ++ GULP.output (GULP.cfg g) in
  let w1 :=
    {| fs := sh cmd (file_put (GULP.input (GULP.cfg g)) (snd (GULP.deck g))
                              (fs w));
       commands := (commands w ++ [cmd])%list |} in
  fst (GULP.deck g) = Ok tt ->
  dict_get (fs w1) (GULP.output (GULP.cfg g)) = Some text ->
  GULP.run sh clean_ (g, w)
  = if clean_
    then (fst (GULP.clean (after_read g text) w1),
          (after_read g text, snd (GULP.clean (after_read g text) w1)))
    else (Ok tt, (after_read g text, w1)).
Proof.
  intros cmd w1 Hdeck Hlog. subst cmd w1. cbn [fs] in Hlog.
  unfold GULP.run, GULP.write_file, GULP.execute, os_system, GULP.deck in *.
  unfold bind, get, on_snd, on_fst, modify, lift, file_read. cbn [fst snd].
  destruct (GULP.write g "") as [r content]. cbn [fst snd] in *. subst r.
  cbn [fst snd fs commands GULP.cfg]. rewrite Hlog.
  unfold after_read.
  rewrite (surjective_pairing (GULP.read text g)), read_returns.
  cbn [fst snd]. destruct clean_; [| reflexivity].
  destruct (GULP.clean _ _). reflexivity.
Qed.

(** With the error flag and without a dump file, [clean] only renames. *)
Lemma clean_after_error g w :
  GULP.error g = true -> GULP.dump (GULP.cfg g) = None ->
  fst (GULP.clean g w) = Ok tt.
Proof.
  intros Herror Hdump. unfold GULP.clean, on_files. rewrite Herror, Hdump.
  unfold bind, mv, ret.
  destruct (dict_get (fs w) _);
    match goal with
    | |- context [dict_get ?files ?path] => destruct (dict_get files path)
    end; reflexivity.
Qed.

(** X15. When the deck is written and the command leaves a log that
    holds neither of the two lattice blocks, [single_optimize] returns
    the tuple [(None, None, 0, True)], with or without cleaning: the
    failure of the calculation is reported by the flag, not by an
    exception. *)
Theorem single_optimize_reports_failed_log struc ff steps pstress opt path
    label clean symmetry labels w calc text :
  GULP.init struc label path ff pstress opt steps "gulp" "gulp.in" "gulp.log"
            None symmetry labels 3600 = Ok calc ->
  fst (GULP.deck calc) = Ok tt ->
  dict_get
    (sh (GULP.exe (GULP.cfg calc) ++ "<" ++ GULP.input (GULP.cfg calc) ++ ">"
         ++ GULP.output (GULP.cfg calc))
        (file_put (GULP.input (GULP.cfg calc)) (snd (GULP.deck calc)) (fs w)))
    (GULP.output (GULP.cfg calc)) = Some text ->
  Py.find text "Final Cartesian lattice vectors" = (-1)%Z ->
  Py.find text "Non-primitive lattice parameters" = (-1)%Z ->
  fst (single_optimize sh make_atoms from_seed struc ff steps pstress opt path
                       label clean symmetry labels w)
  = Ok (None, None, of_int 0, true).
Proof.
  intros Hinit Hdeck Hlog Hvectors Hparameters.
  assert (GULP.dump (GULP.cfg calc) = None) as Hdump.
  { unfold GULP.init in Hinit.
    destruct struc as [p | a |]; cbv beta iota in Hinit;
      try discriminate;
      destruct (Lattice_from_matrix _ None); try discriminate;
      cbn [rbind] in Hinit; injection Hinit as <-; reflexivity. }
  assert (GULP.error (after_read calc text) = true) as Herror.
  { rewrite after_read_resolve, resolve_error,
      (scanned_blocks calc text Hvectors Hparameters).
    now rewrite orb_true_r. }
  unfold single_optimize, bind at 1, lift at 1. rewrite Hinit.
  rewrite (run_with_log clean calc w text Hdeck Hlog).
  destruct clean.
  - rewrite clean_after_error;
      [| exact Herror | now rewrite after_read_cfg ].
    now rewrite Herror.
  - now rewrite Herror.
Qed.

End FailedLog.

Lemma single_optimize_reports_failed_log_witness :
  (GULP.init (IsAtoms carbon_cell) "_" "tmp" "tersoff.lib" None "conp" 1000
             "gulp" "gulp.in" "gulp.log" None false None 3600
   = Ok carbon_calc
   /\ Py.find energy_line "Final Cartesian lattice vectors" = (-1)%Z
   /\ Py.find energy_line "Non-primitive lattice parameters" = (-1)%Z)
  /\ fst (single_optimize (shell_writing energy_line) atoms_of
            seed_always_fails (IsAtoms carbon_cell) "tersoff.lib" 1000 None
            "conp" "tmp" "_" true false None empty_world)
     = Ok (None, None, Binary64.of_int 0, true).
Proof.
  assert (GULP.init (IsAtoms carbon_cell) "_" "tmp" "tersoff.lib" None "conp"
                    1000 "gulp" "gulp.in" "gulp.log" None false None 3600
          = Ok carbon_calc) as Hinit.
  { reflexivity. }
  split.
  - split; [exact Hinit |]. split; vm_compute; reflexivity.
  - apply (single_optimize_reports_failed_log (RT := binary64)
             (PX := ortho_cell) (shell_writing energy_line) atoms_of
             seed_always_fails (IsAtoms carbon_cell) "tersoff.lib" 1000 None
             "conp" "tmp" "_" true false None empty_world carbon_calc
             energy_line Hinit);
      vm_compute; reflexivity.
Defined.

(** ** When the deck is written *)

Section DeckIsWritten.
Context {RT : Runtime} {PX : PyxtalLib}.

Lemma returns_ret {S} : returns (@ret S unit tt).
Proof. intro s. reflexivity. Qed.

Lemma returns_bind {S} (m : SE S unit) (k : unit -> SE S unit) :
  returns m -> returns (k tt) -> returns (bind m k).
Proof.
  intros Hm Hk s. unfold bind. specialize (Hm s).
  destruct (m s) as [[[] | e] s']; [apply Hk | discriminate].
Qed.

Lemma returns_fwrite s : returns (GULP.fwrite s).
Proof. intro file. reflexivity. Qed.

Lemma returns_for_each {S A} (l : list A) (body : A -> SE S unit) :
  (forall x, In x l -> returns (body x)) -> returns (for_each l body).
Proof.
  induction l as [| x l IH]; intros Hbody; cbn [for_each].
  - apply returns_ret.
  - apply returns_bind; [apply Hbody; now left |].
    apply IH. intros y Hy. apply Hbody. now right.
Qed.

Lemma returns_coord_line symbol coord kind (k : string -> SE string unit) :
  3 <= length coord ->
  returns (k (line_text symbol coord kind)) ->
  returns (bind (lift (GULP.coord_line symbol coord kind)) k).
Proof.
  intros Hcoord Hk file. unfold bind, lift.
  rewrite (coord_line_text symbol coord kind Hcoord). apply Hk.
Qed.

Lemma all_coordinates_return g :
  Forall (fun coord => 3 <= length coord) (GULP.frac_coords g) ->
  returns
    (for_each (combine (GULP.frac_coords g) (GULP.sites (GULP.cfg g)))
       (fun '(coord, site) =>
          bind (lift (GULP.coord_line site coord "core"))
               (fun l => GULP.fwrite l))).
Proof.
  intros Hcoords. apply returns_for_each. intros [coord site] Hin.
  apply returns_coord_line; [| apply returns_fwrite].
  apply in_combine_l in Hin.
  rewrite Forall_forall in Hcoords. now apply Hcoords.
Qed.

Lemma write_fractional_returns g :
  (forall px,
      GULP.symmetry (GULP.cfg g) = true -> GULP.pyxtal g = Some px ->
      Forall (fun site => 3 <= length (site_position site))
             (px_atom_sites px)) ->
  (GULP.symmetry (GULP.cfg g) = false \/ GULP.pyxtal g = None ->
   Forall (fun coord => 3 <= length coord) (GULP.frac_coords g)) ->
  returns (GULP.write_fractional g).
Proof.
  intros Hsites Hcoords. unfold GULP.write_fractional.
  apply returns_bind; [apply returns_fwrite |].
  destruct (GULP.symmetry (GULP.cfg g)) eqn:Hsym;
    [destruct (GULP.pyxtal g) as [px |] eqn:Hpx |].
  - specialize (Hsites px eq_refl eq_refl).
    apply returns_bind; [| apply returns_bind; apply returns_fwrite].
    apply returns_for_each. intros site Hin.
    rewrite Forall_forall in Hsites. specialize (Hsites site Hin).
    apply returns_coord_line; [exact Hsites |].
    apply returns_bind; [apply returns_fwrite |].
    destruct ((GULP.ff (GULP.cfg g) =? "catlow")
              && (site_specie site =? "O"))%bool;
      [apply returns_coord_line; [exact Hsites | apply returns_fwrite]
      | apply returns_ret].
  - apply all_coordinates_return, Hcoords. now right.
  - assert (Forall (fun coord => 3 <= length coord) (GULP.frac_coords g))
      as Hall by (apply Hcoords; now left).
    destruct (GULP.pyxtal g); now apply all_coordinates_return.
Qed.

(** X16. [GULP.write] returns normally whenever the coordinates it
    prints have three entries each: those of the sites of the [pyxtal]
    structure on the symmetry branch, those of [self.frac_coords]
    otherwise ([self.species] being [None], as [__init__] leaves it).
    No other part of the deck can fail. *)
Theorem write_succeeds_on_well_formed g :
  GULP.species (GULP.cfg g) = None ->
  (forall px,
      GULP.symmetry (GULP.cfg g) = true -> GULP.pyxtal g = Some px ->
      Forall (fun site => 3 <= length (site_position site))
             (px_atom_sites px)) ->
  (GULP.symmetry (GULP.cfg g) = false \/ GULP.pyxtal g = None ->
   Forall (fun coord => 3 <= length coord) (GULP.frac_coords g)) ->
  fst (GULP.deck g) = Ok tt.
Proof.
  intros Hspecies Hsites Hcoords. unfold GULP.deck.
  apply (returns_bind (GULP.write_header g)).
  { unfold GULP.write_header. apply returns_bind.
    - destruct (GULP.opt (GULP.cfg g) =? "conv")%string;
        [| destruct (GULP.opt (GULP.cfg g) =? "single")%string];
        apply returns_fwrite.
    - destruct (negb _); [apply returns_fwrite | apply returns_ret]. }
  apply returns_bind.
  { unfold GULP.write_cell.
    destruct (get_para _) as [[[[[a b] c] alpha] beta] gamma].
    apply returns_bind; apply returns_fwrite. }
  apply returns_bind; [now apply write_fractional_returns |].
  apply returns_bind.
  { unfold GULP.write_species, GULP.species_list. rewrite Hspecies.
    intro file. unfold bind at 1, lift at 1. cbv beta iota.
    apply returns_bind; [apply returns_fwrite |].
    apply returns_for_each. intros specie _. apply returns_fwrite. }
  unfold GULP.write_options.
  apply returns_bind; [apply returns_fwrite |].
  apply returns_bind; [apply returns_fwrite |].
  apply returns_bind;
    [destruct (negb _); [apply returns_fwrite | apply returns_ret] |].
  apply returns_bind;
    [destruct (GULP.pstress _); [apply returns_fwrite | apply returns_ret] |].
  destruct (GULP.dump _); [apply returns_fwrite | apply returns_ret].
Qed.

End DeckIsWritten.

Lemma write_succeeds_on_well_formed_witness :
  fst (GULP.deck (oxide_calc true true)) = Ok tt.
Proof.
  apply (write_succeeds_on_well_formed (RT := binary64) (PX := ortho_cell)
           (oxide_calc true true)).
  - reflexivity.
  - intros px _ Hpx. injection Hpx as <-. repeat constructor.
  - intros [Hsym | Hpx]; discriminate.
Defined.
